(** * Credential and session lifecycle of the NestJS starter

    A shallow embedding of the OTP service (otp.service.ts), the users
    service (users.service.ts) and the authentication service
    (auth.service.ts), with the three TypeORM tables they share.

    - A [Date] is its epoch value in milliseconds.
    - A table is the list of its rows in insertion order, together with the
      auto-increment counter of its primary key.
    - An [async] method is a function from the database to a settled
      [Promise] and the database it leaves behind: a rejection keeps every
      write made before the [throw], as no method opens a transaction.
    - Clock readings ([new Date()], [Date.now()]) and random draws (the
      value of [Math.random()], the refresh secret) are arguments of the
      method that makes them.
    - A Number is an IEEE 754 binary64 value, with the operations of the
      Standard Library's [SpecFloat].
    - bcrypt, SHA-256 and the local time zone of the process are section
      variables. *)

From Stdlib Require Import ZArith List String Bool Lia DecimalString.
From Stdlib Require Import Ascii SpecFloat.
From Stdlib Require DecimalFacts DecimalPos DecimalZ.
Import ListNotations.

Local Open Scope string_scope.
Local Open Scope Z_scope.

(** ** Values *)

Definition Date := Z.

(** The exceptions the services throw; [Error] is any other JavaScript
    error: a property read on [null], bcrypt called without a hash, a mail
    transport failure, a query the database refuses. *)
Inductive Exception : Type :=
| ConflictException (message : string)
| UnauthorizedException (message : string)
| BadRequestException (message : string)
| NotFoundException (message : string)
| Error (message : string).

Inductive Promise (A : Type) : Type :=
| Resolved (value : A)
| Rejected (reason : Exception).

Arguments Resolved {A} value.
Arguments Rejected {A} reason.

(** ** Numbers *)

Module Number.
Definition t : Type := spec_float.

Definition prec : Z := 53.
Definition emax : Z := 1024.

(** An integer literal. *)
Definition ofZ (n : Z) : t := binary_normalize prec emax n 0 false.

Definition add (x y : t) : t := SFadd prec emax x y.

Definition mul (x y : t) : t := SFmul prec emax x y.

(** What [Math.random()] returns: a Number [r] with [0 <= r < 1]. *)
Definition isRandom (r : t) : bool :=
  valid_binary prec emax r && SFleb (ofZ 0) r && SFltb r (ofZ 1).

(** The integer [Math.floor(x)] is, for a finite [x]. *)
Definition floor (x : t) : option Z :=
  match x with
  | S754_zero _ => Some 0
  | S754_finite s m e =>
      let n := cond_Zopp s (Zpos m) in
      Some (if 0 <=? e then n * 2 ^ e else n / 2 ^ (- e))
  | S754_infinity _ | S754_nan => None
  end.
End Number.

(** ** Dates *)

Module JsDate.
Definition msPerDay : Z := 24 * 60 * 60 * 1000.

Section WithTimeZone.
(** ECMAScript's [LocalTZA(t, isUTC)]: the offset of local time from UTC,
    in milliseconds, at the instant [t] ([isUTC]) or at the local time [t]. *)
Variable LocalTZA : Z -> bool -> Z.

Definition LocalTime (t : Z) : Z := t + LocalTZA t true.

Definition UTC (t : Z) : Z := t - LocalTZA t false.

(** [d.setDate(d.getDate() + days)] on a date of time value [t]: the same
    local time of day, [days] local calendar days later ([MakeDay] carries
    a day of the month past its end into the months that follow). *)
Definition addDays (days : Z) (t : Z) : Z := UTC (LocalTime t + days * msPerDay).
End WithTimeZone.
End JsDate.

(** ** Entities *)

Module User.
Record t : Type := mk {
  id : Z;
  email : string;
  name : option string;
  password : option string;   (* [select: false]: absent unless asked for *)
  emailVerified : bool;
  createdAt : Date;
  updatedAt : Date
}.

Definition withoutPassword (u : t) : t :=
  mk (id u) (email u) (name u) None (emailVerified u) (createdAt u) (updatedAt u).

Definition setEmailVerified (now : Date) (u : t) : t :=
  mk (id u) (email u) (name u) (password u) true (createdAt u) now.
End User.

Inductive OtpType : Type := email_verification | password_reset.

Definition OtpType_eqb (a b : OtpType) : bool :=
  match a, b with
  | email_verification, email_verification => true
  | password_reset, password_reset => true
  | _, _ => false
  end.

Module Otp.
Record t : Type := mk {
  id : Z;
  email : string;
  hashedOtp : string;
  expiresAt : Date;
  used : bool;
  type : OtpType;
  createdAt : Date;
  userId : option Z
}.

Definition setUsed (o : t) : t :=
  mk (id o) (email o) (hashedOtp o) (expiresAt o) true (type o) (createdAt o) (userId o).
End Otp.

Module RefreshToken.
Record t : Type := mk {
  id : Z;
  hashedToken : string;
  expiresAt : Date;
  revoked : bool;
  userAgent : option string;
  ipAddress : option string;
  createdAt : Date;
  updatedAt : Date;
  userId : Z
}.

Definition setRevoked (now : Date) (r : t) : t :=
  mk (id r) (hashedToken r) (expiresAt r) true (userAgent r) (ipAddress r)
     (createdAt r) now (userId r).
End RefreshToken.

(** ** Repositories *)

Record Repository (A : Type) : Type := mkRepository {
  rows : list A;
  nextId : Z
}.

Arguments mkRepository {A} rows nextId.
Arguments rows {A} r.
Arguments nextId {A} r.

Module Repo.
Section Generic.
Context {A : Type}.

Definition empty : Repository A := mkRepository [] 1.

(** [find({ where })] and [findOne({ where })] without an order: table
    order. *)
Definition find (criteria : A -> bool) (r : Repository A) : list A :=
  filter criteria (rows r).

Definition findOne (criteria : A -> bool) (r : Repository A) : option A :=
  List.find criteria (rows r).

(** The row with the greatest key; among equal keys the earliest row. *)
Fixpoint greatest (key : A -> Z) (best : option A) (l : list A) : option A :=
  match l with
  | [] => best
  | x :: l' =>
      match best with
      | None => greatest key (Some x) l'
      | Some b => greatest key (Some (if key b <? key x then x else b)) l'
      end
  end.

(** [findOne({ where, order: { key: 'DESC' } })]. *)
Definition findOneDesc (criteria : A -> bool) (key : A -> Z) (r : Repository A)
  : option A :=
  greatest key None (filter criteria (rows r)).

(** [update(criteria, set)]: the table and the [affected] count. *)
Definition update (criteria : A -> bool) (set : A -> A) (r : Repository A)
  : Repository A * nat :=
  (mkRepository (map (fun x => if criteria x then set x else x) (rows r)) (nextId r),
   List.length (filter criteria (rows r))).

(** [delete(criteria)]. *)
Definition delete (criteria : A -> bool) (r : Repository A)
  : Repository A * nat :=
  (mkRepository (filter (fun x => negb (criteria x)) (rows r)) (nextId r),
   List.length (filter criteria (rows r))).

(** [save(entity)] of a new entity: [mk] receives the generated key. *)
Definition insert (mk : Z -> A) (r : Repository A) : Repository A * A :=
  (mkRepository (rows r ++ [mk (nextId r)]) (nextId r + 1), mk (nextId r)).

(** Stable insertion sort, greatest key first:
    [order: { key: 'DESC' }] of a [find]. *)
Fixpoint insertDesc (key : A -> Z) (x : A) (l : list A) : list A :=
  match l with
  | [] => [x]
  | y :: l' => if key x <? key y then y :: insertDesc key x l' else x :: y :: l'
  end.

Definition orderDesc (key : A -> Z) (l : list A) : list A :=
  fold_right (insertDesc key) [] l.
End Generic.
End Repo.

Record Database : Type := mkDatabase {
  usersRepository : Repository User.t;
  otpRepository : Repository Otp.t;
  refreshTokenRepository : Repository RefreshToken.t
}.

Definition emptyDatabase : Database :=
  mkDatabase Repo.empty Repo.empty Repo.empty.

Definition setUsers (r : Repository User.t) (db : Database) : Database :=
  mkDatabase r (otpRepository db) (refreshTokenRepository db).

Definition setOtps (r : Repository Otp.t) (db : Database) : Database :=
  mkDatabase (usersRepository db) r (refreshTokenRepository db).

Definition setRefreshTokens (r : Repository RefreshToken.t) (db : Database) : Database :=
  mkDatabase (usersRepository db) (otpRepository db) r.

(** ** Asynchronous methods over the database *)

Definition Async (A : Type) : Type := Database -> Promise A * Database.

Definition ret {A} (a : A) : Async A := fun db => (Resolved a, db).

Definition throw {A} (e : Exception) : Async A := fun db => (Rejected e, db).

Definition bind {A B} (m : Async A) (k : A -> Async B) : Async B :=
  fun db =>
    match m db with
    | (Resolved a, db') => k a db'
    | (Rejected e, db') => (Rejected e, db')
    end.

(** [try { m } catch (error) { handler error }]. *)
Definition tryCatch {A} (m : Async A) (handler : Exception -> Async A) : Async A :=
  fun db =>
    match m db with
    | (Resolved a, db') => (Resolved a, db')
    | (Rejected e, db') => handler e db'
    end.

Notation "x <- m ;; k" := (bind m (fun x => k))
  (at level 61, m at next level, right associativity).
Notation "m ;;; k" := (bind m (fun _ => k))
  (at level 61, right associativity).

(** Reads and writes of one table. *)
Definition queryUsers {A} (q : Repository User.t -> A) : Async A :=
  fun db => (Resolved (q (usersRepository db)), db).

Definition queryOtps {A} (q : Repository Otp.t -> A) : Async A :=
  fun db => (Resolved (q (otpRepository db)), db).

Definition queryRefreshTokens {A} (q : Repository RefreshToken.t -> A) : Async A :=
  fun db => (Resolved (q (refreshTokenRepository db)), db).

Definition execUsers {A} (w : Repository User.t -> Repository User.t * A) : Async A :=
  fun db => let (r, a) := w (usersRepository db) in (Resolved a, setUsers r db).

Definition execOtps {A} (w : Repository Otp.t -> Repository Otp.t * A) : Async A :=
  fun db => let (r, a) := w (otpRepository db) in (Resolved a, setOtps r db).

Definition execRefreshTokens {A}
  (w : Repository RefreshToken.t -> Repository RefreshToken.t * A) : Async A :=
  fun db => let (r, a) := w (refreshTokenRepository db) in (Resolved a, setRefreshTokens r db).

(** The foreign key of [otps.userId], from the [@ManyToOne] and
    [@JoinColumn] of otp.entity.ts: a row references no user, or a user the
    users table has. *)
Definition references (userId : option Z) (users : Repository User.t) : bool :=
  match userId with
  | None => true
  | Some id => existsb (fun u => User.id u =? id) (rows users)
  end.

(** [save] of a new OTP row.  MySQL refuses a row whose [userId] no user
    has, and the promise rejects with the driver's error: nothing is
    stored. *)
Definition saveOtp (mk : Z -> Otp.t) (userId : option Z) : Async Otp.t :=
  fun db =>
    if references userId (usersRepository db)
    then execOtps (Repo.insert mk) db
    else (Rejected (Error "Cannot add or update a child row: a foreign key constraint fails"),
          db).

(** ** Configuration *)

Record Config : Type := mkConfig {
  JWT_SECRET : string;
  JWT_ACCESS_EXPIRES_IN : Z;      (* the span in milliseconds; '15m' by default *)
  OTP_EXPIRY_MINUTES : Z          (* 10 by default *)
}.

Definition defaultConfig (secret : string) : Config :=
  mkConfig secret (15 * 60 * 1000) 10.

Definition string_of_Z (z : Z) : string := NilZero.string_of_int (Z.to_int z).

(** [Math.ceil(n / d)] for a positive [d]. *)
Definition ceilDiv (n d : Z) : Z := - ((- n) / d).

(** ** users.service.ts *)

Module UsersService.
Section WithCrypto.
Variable bcrypt_hash : string -> Z -> string.

Definition create (email password : string) (name : option string) (now : Date)
  : Async User.t :=
  existingUser <- queryUsers (Repo.findOne (fun u => (User.email u =? email)%string)) ;;
  match existingUser with
  | Some _ => throw (ConflictException "User with this email already exists")
  | None =>
      let hashedPassword := bcrypt_hash password 12 in
      execUsers (Repo.insert
        (fun id => User.mk id email name (Some hashedPassword) false now now))
  end.
End WithCrypto.

Definition findOne (id : Z) : Async User.t :=
  user <- queryUsers (Repo.findOne (fun u => User.id u =? id)) ;;
  match user with
  | None => throw (NotFoundException ("User with ID " ++ string_of_Z id ++ " not found"))
  | Some u => ret (User.withoutPassword u)
  end.

Definition findByEmail (email : string) : Async (option User.t) :=
  user <- queryUsers (Repo.findOne (fun u => (User.email u =? email)%string)) ;;
  ret (option_map User.withoutPassword user).

Definition findByEmailWithPassword (email : string) : Async (option User.t) :=
  queryUsers (Repo.findOne (fun u => (User.email u =? email)%string)).

Definition verifyEmail (userId : Z) (now : Date) : Async User.t :=
  execUsers (Repo.update (fun u => User.id u =? userId) (User.setEmailVerified now)) ;;;
  findOne userId.
End UsersService.

(** ** otp.service.ts *)

Module OtpService.
Section WithCrypto.
Variable bcrypt_hash : string -> Z -> string.
Variable bcrypt_compare : string -> string -> bool.
Variable config : Config.

(** [Math.floor(100000 + Math.random() * 900000).toString()], [draw]
    being the value of [Math.random()]: the product and the sum are
    rounded to the nearest Number, and the integer below the sum is printed
    in decimal. *)
Definition generateOtp (draw : Number.t) : string :=
  match Number.floor
          (Number.add (Number.ofZ 100000) (Number.mul draw (Number.ofZ 900000))) with
  | Some n => string_of_Z n
  | None => "NaN"
  end.

Definition hashOtp (otp : string) : string := bcrypt_hash otp 10.

Definition verifyOtp (otp hashedOtp : string) : bool := bcrypt_compare otp hashedOtp.

Definition cleanupExpiredOtps (now : Date) : Async unit :=
  execOtps (Repo.delete (fun o => Otp.expiresAt o <? now)) ;;;
  ret tt.

(** [createEmailVerificationOtp] marks, then stores.  The marks: the
    sweep, the cooldown check and the [update] of the email's unused rows;
    the clock readings are the sweep's [new Date()] and the [Date.now()] of
    the cooldown. *)
Definition invalidatePendingOtps (email : string) (sweptAt checkedAt : Date)
  : Async unit :=
  cleanupExpiredOtps sweptAt ;;;
  let oneMinuteAgo := checkedAt - 60 * 1000 in
  recentOtp <- queryOtps (Repo.findOneDesc
    (fun o => (Otp.email o =? email)%string
              && OtpType_eqb (Otp.type o) email_verification
              && (Otp.createdAt o <? oneMinuteAgo))
    Otp.createdAt) ;;
  match recentOtp with
  | Some recent =>
      if oneMinuteAgo <? Otp.createdAt recent then
        let remainingTime := ceilDiv (oneMinuteAgo - Otp.createdAt recent) 1000 in
        throw (BadRequestException
          ("Please wait " ++ string_of_Z remainingTime
           ++ " seconds before requesting a new OTP"))
      else ret tt
  | None => ret tt
  end ;;;
  execOtps (Repo.update
    (fun o => (Otp.email o =? email)%string
              && OtpType_eqb (Otp.type o) email_verification
              && negb (Otp.used o))
    Otp.setUsed) ;;;
  ret tt.

(** The new row: the code, its hash, the expiry and the [save]; the clock
    readings are the [Date.now()] of the expiry and the [createdAt] the
    save stamps. *)
Definition storeOtp (email : string) (userId : option Z)
    (stampedAt savedAt : Date) (draw : Number.t) : Async string :=
  let otp := generateOtp draw in
  let hashedOtp := hashOtp otp in
  let expiryMinutes := OTP_EXPIRY_MINUTES config in
  let expiresAt := stampedAt + expiryMinutes * 60 * 1000 in
  saveOtp
    (fun id => Otp.mk id email hashedOtp expiresAt false email_verification
                      savedAt userId)
    userId ;;;
  ret otp.

Definition createEmailVerificationOtp (email : string) (userId : option Z)
    (sweptAt checkedAt stampedAt savedAt : Date) (draw : Number.t) : Async string :=
  invalidatePendingOtps email sweptAt checkedAt ;;;
  storeOtp email userId stampedAt savedAt draw.

(** The two clock readings are the sweep's and the expiry check's. *)
Definition verifyEmailOtp (email otp : string) (sweptAt now : Date) : Async bool :=
  cleanupExpiredOtps sweptAt ;;;
  otpEntity <- queryOtps (Repo.findOneDesc
    (fun o => (Otp.email o =? email)%string
              && OtpType_eqb (Otp.type o) email_verification
              && negb (Otp.used o))
    Otp.createdAt) ;;
  match otpEntity with
  | None => ret false
  | Some entity =>
      if Otp.expiresAt entity <? now then ret false
      else
        let isValid := verifyOtp otp (Otp.hashedOtp entity) in
        (if isValid
         then execOtps (Repo.update (fun o => Otp.id o =? Otp.id entity) Otp.setUsed) ;;;
              ret tt
         else ret tt) ;;;
        ret isValid
  end.
End WithCrypto.

Record Stats : Type := mkStats {
  total : nat;
  active : nat;
  expired : nat;
  used : nat
}.

(** The four counts are taken against one [now]. *)
Definition getOtpStats (now : Date) : Async Stats :=
  total <- queryOtps (fun repo => List.length (rows repo)) ;;
  active <- queryOtps (fun repo => List.length
    (Repo.find (fun o => negb (Otp.used o) && (Otp.expiresAt o <? now)) repo)) ;;
  expired <- queryOtps (fun repo => List.length
    (Repo.find (fun o => Otp.expiresAt o <? now) repo)) ;;
  used <- queryOtps (fun repo => List.length
    (Repo.find (fun o => Otp.used o) repo)) ;;
  ret (mkStats total active expired used).
End OtpService.

(** ** Access tokens *)

Record JwtPayload : Type := mkJwtPayload {
  sub : Z;
  payload_email : string;
  payload_emailVerified : bool
}.

(** A signed token: its claims, the times of issue and of expiry the
    library adds, in seconds, and the key that signed it. *)
Record Jwt : Type := mkJwt {
  claims : JwtPayload;
  iat : Z;
  exp : Z;
  signingKey : string
}.

(** [jwtService.sign(payload, { expiresIn })] at clock reading [now]: the
    library stamps [iat = Math.floor(Date.now() / 1000)] and
    [exp = Math.floor(iat + span / 1000)], [expiresIn] being the span in
    milliseconds that it reads off the setting. *)
Definition jwtSign (secret : string) (payload : JwtPayload) (now : Date) (expiresIn : Z)
  : Jwt :=
  let iat := now / 1000 in
  mkJwt payload iat (iat + expiresIn / 1000) secret.

(** ** mail.service.ts, as the services see it: delivery succeeds or
    throws. *)
Definition sendMail (delivered : bool) : Async unit :=
  if delivered then ret tt else throw (Error "mail transport failed").

(** ** auth.service.ts *)

Record AuthResult : Type := mkAuthResult {
  user : User.t;
  accessToken : Jwt;
  refreshToken : string
}.

Record Session : Type := mkSession {
  session_id : Z;
  session_userAgent : string;
  session_ipAddress : string;
  session_createdAt : Date;
  session_expiresAt : Date
}.

(** [value || 'Unknown']. *)
Definition orUnknown (value : option string) : string :=
  match value with
  | Some s => if (s =? "")%string then "Unknown" else s
  | None => "Unknown"
  end.

Module AuthService.
Section WithCrypto.
Variable bcrypt_hash : string -> Z -> string.
Variable bcrypt_compare : string -> string -> bool.
Variable sha256 : string -> string.
Variable config : Config.
Variable LocalTZA : Z -> bool -> Z.

Definition hashToken (token : string) : string := sha256 token.

Definition sanitizeUser (u : User.t) : User.t := User.withoutPassword u.

(** [secret] is the hex string of [crypto.randomBytes(64)].  The user was
    read from the users table by the caller, and no call deletes a user:
    the foreign key of [refresh_tokens.userId] is satisfied. *)
Definition generateTokens (u : User.t) (userAgent ipAddress : option string)
    (now : Date) (secret : string) : Async (Jwt * string) :=
  let payload := mkJwtPayload (User.id u) (User.email u) (User.emailVerified u) in
  let accessToken :=
    jwtSign (JWT_SECRET config) payload now (JWT_ACCESS_EXPIRES_IN config) in
  let refreshToken := secret in
  let hashedRefreshToken := hashToken refreshToken in
  let expiresAt := JsDate.addDays LocalTZA 30 now in
  execRefreshTokens (Repo.insert
    (fun id => RefreshToken.mk id hashedRefreshToken expiresAt false
                 userAgent ipAddress now now (User.id u))) ;;;
  ret (accessToken, refreshToken).

(** The result is the message and the email of the source's object; the
    clock readings are the user's [createdAt] and the four of the OTP
    issuance. *)
Definition register (email password : string) (name : option string)
    (now sweptAt checkedAt stampedAt savedAt : Date) (draw : Number.t) (delivered : bool)
  : Async (string * string) :=
  existingUser <- UsersService.findByEmail email ;;
  match existingUser with
  | Some _ => throw (ConflictException "User with this email already exists")
  | None =>
      let name' := match name with
                   | Some s => if (s =? "")%string then None else Some s
                   | None => None
                   end in
      u <- UsersService.create bcrypt_hash email password name' now ;;
      tryCatch
        (otp <- OtpService.createEmailVerificationOtp bcrypt_hash config email
                  (Some (User.id u)) sweptAt checkedAt stampedAt savedAt draw ;;
         sendMail delivered ;;;
         ret ("Registration successful. Please check your email for verification code.",
              email))
        (fun _ =>
         ret ("Registration successful. However, there was an issue sending the verification email. Please try resending the OTP.",
              email))
  end.

(** The clock readings are the two of the OTP check and the one of the
    user update; the welcome mail cannot change the outcome. *)
Definition verifyEmail (email otp : string) (sweptAt now updatedAt : Date)
  : Async (string * User.t) :=
  isValidOtp <- OtpService.verifyEmailOtp bcrypt_compare email otp sweptAt now ;;
  if negb isValidOtp then throw (BadRequestException "Invalid or expired OTP")
  else
    found <- UsersService.findByEmail email ;;
    match found with
    | None => throw (NotFoundException "User not found")
    | Some u =>
        if User.emailVerified u
        then throw (BadRequestException "Email is already verified")
        else
          verifiedUser <- UsersService.verifyEmail (User.id u) updatedAt ;;
          ret ("Email verified successfully", sanitizeUser verifiedUser)
    end.

Definition resendOtp (email : string)
    (sweptAt checkedAt stampedAt savedAt : Date) (draw : Number.t) (delivered : bool)
  : Async string :=
  found <- UsersService.findByEmail email ;;
  match found with
  | None => throw (NotFoundException "User not found")
  | Some u =>
      if User.emailVerified u
      then throw (BadRequestException "Email is already verified")
      else
        tryCatch
          (otp <- OtpService.createEmailVerificationOtp bcrypt_hash config email
                    (Some (User.id u)) sweptAt checkedAt stampedAt savedAt draw ;;
           sendMail delivered ;;;
           ret "OTP sent successfully. Please check your email.")
          (fun error =>
           match error with
           | BadRequestException _ => throw error
           | _ => throw (BadRequestException
                           "Failed to send OTP. Please try again later.")
           end)
  end.

Definition login (email password : string) (userAgent ipAddress : option string)
    (now : Date) (secret : string) : Async AuthResult :=
  found <- UsersService.findByEmailWithPassword email ;;
  match found with
  | None => throw (UnauthorizedException "Invalid email or password")
  | Some u =>
      if negb (User.emailVerified u)
      then throw (UnauthorizedException "Please verify your email before logging in")
      else
        match User.password u with
        | None => throw (Error "data and hash arguments required")
        | Some hash =>
            let isPasswordValid := bcrypt_compare password hash in
            if negb isPasswordValid
            then throw (UnauthorizedException "Invalid email or password")
            else
              tokens <- generateTokens u userAgent ipAddress now secret ;;
              ret (mkAuthResult (sanitizeUser u) (fst tokens) (snd tokens))
        end
  end.

(** [refreshToken] reads, then writes.  The read: the unrevoked row with
    the presented token's hash, with its [user] relation. *)
Definition findTokenEntity (presented : string)
  : Async (option (RefreshToken.t * option User.t)) :=
  let hashedToken := hashToken presented in
  tokenEntity <- queryRefreshTokens (Repo.findOne
    (fun t => (RefreshToken.hashedToken t =? hashedToken)%string
              && negb (RefreshToken.revoked t))) ;;
  match tokenEntity with
  | None => ret None
  | Some t =>
      owner <- queryUsers (Repo.findOne (fun u => User.id u =? RefreshToken.userId t)) ;;
      ret (Some (t, option_map User.withoutPassword owner))
  end.

(** The writes, on the entity that was read. *)
Definition rotateTokenEntity (tokenEntity : option (RefreshToken.t * option User.t))
    (userAgent ipAddress : option string) (now : Date) (secret : string)
  : Async AuthResult :=
  match tokenEntity with
  | None => throw (UnauthorizedException "Invalid refresh token")
  | Some (t, owner) =>
      if RefreshToken.expiresAt t <? now then
        execRefreshTokens (Repo.update
          (fun r => RefreshToken.id r =? RefreshToken.id t)
          (RefreshToken.setRevoked now)) ;;;
        throw (UnauthorizedException "Refresh token expired")
      else
        execRefreshTokens (Repo.update
          (fun r => RefreshToken.id r =? RefreshToken.id t)
          (RefreshToken.setRevoked now)) ;;;
        match owner with
        | None => throw (Error "Cannot read properties of null (reading 'id')")
        | Some u =>
            tokens <- generateTokens u userAgent ipAddress now secret ;;
            ret (mkAuthResult (sanitizeUser u) (fst tokens) (snd tokens))
        end
  end.

Definition refreshToken (presented : string) (userAgent ipAddress : option string)
    (now : Date) (secret : string) : Async AuthResult :=
  tokenEntity <- findTokenEntity presented ;;
  rotateTokenEntity tokenEntity userAgent ipAddress now secret.

Definition logout (presented : string) (now : Date) : Async string :=
  if (presented =? "")%string
  then throw (BadRequestException "Refresh token is required")
  else
    let hashedToken := hashToken presented in
    execRefreshTokens (Repo.update
      (fun r => (RefreshToken.hashedToken r =? hashedToken)%string)
      (RefreshToken.setRevoked now)) ;;;
    ret "Logged out successfully".
End WithCrypto.

Definition logoutFromAllDevices (userId : Z) (now : Date) : Async string :=
  execRefreshTokens (Repo.update
    (fun r => (RefreshToken.userId r =? userId) && negb (RefreshToken.revoked r))
    (RefreshToken.setRevoked now)) ;;;
  ret "Logged out from all devices successfully".

Definition validateUser (payload : JwtPayload) : Async (option User.t) :=
  found <- UsersService.findByEmail (payload_email payload) ;;
  ret (match found with
       | Some u => if User.emailVerified u then Some u else None
       | None => None
       end).

Definition cleanupExpiredRefreshTokens (now : Date) : Async unit :=
  execRefreshTokens (Repo.delete (fun r => RefreshToken.expiresAt r <? now)) ;;;
  ret tt.

Definition toSession (r : RefreshToken.t) : Session :=
  mkSession (RefreshToken.id r)
            (orUnknown (RefreshToken.userAgent r))
            (orUnknown (RefreshToken.ipAddress r))
            (RefreshToken.createdAt r)
            (RefreshToken.expiresAt r).

Definition getActiveSessions (userId : Z) : Async (list Session) :=
  sessions <- queryRefreshTokens (fun repo =>
    Repo.orderDesc RefreshToken.createdAt
      (Repo.find (fun r => (RefreshToken.userId r =? userId)
                           && negb (RefreshToken.revoked r)) repo)) ;;
  ret (map toSession sessions).

Definition revokeSession (userId sessionId : Z) (now : Date) : Async string :=
  affected <- execRefreshTokens (Repo.update
    (fun r => (RefreshToken.id r =? sessionId)
              && (RefreshToken.userId r =? userId)
              && negb (RefreshToken.revoked r))
    (RefreshToken.setRevoked now)) ;;
  if Nat.eqb affected 0
  then throw (NotFoundException "Session not found")
  else ret "Session revoked successfully".
End AuthService.

(** ** Histories of calls *)

(** The calls that write to the database: the public methods of
    [AuthService] and [OtpService], and the token sweep that
    [generateTokens] leaves to a background task.  User administration
    ([UsersService.update], [UsersService.remove]) is not part of a
    history. *)
Inductive Request : Type :=
| Register (email password : string) (name : option string)
    (now sweptAt checkedAt stampedAt savedAt : Date) (draw : Number.t) (delivered : bool)
| VerifyEmail (email otp : string) (sweptAt now updatedAt : Date)
| ResendOtp (email : string) (sweptAt checkedAt stampedAt savedAt : Date)
    (draw : Number.t) (delivered : bool)
| Login (email password : string) (userAgent ipAddress : option string)
    (now : Date) (secret : string)
| Refresh (presented : string) (userAgent ipAddress : option string)
    (now : Date) (secret : string)
| Logout (presented : string) (now : Date)
| LogoutFromAllDevices (userId : Z) (now : Date)
| RevokeSession (userId sessionId : Z) (now : Date)
| CreateEmailVerificationOtp (email : string) (userId : option Z)
    (sweptAt checkedAt stampedAt savedAt : Date) (draw : Number.t)
| VerifyEmailOtp (email otp : string) (sweptAt now : Date)
| CleanupExpiredOtps (now : Date)
| CleanupExpiredRefreshTokens (now : Date).

(** The refresh secret a call draws, whether or not it gets to use it. *)
Definition drawn (q : Request) : list string :=
  match q with
  | Login _ _ _ _ _ secret => [secret]
  | Refresh _ _ _ _ secret => [secret]
  | _ => []
  end.

Section System.
Variable bcrypt_hash : string -> Z -> string.
Variable bcrypt_compare : string -> string -> bool.
Variable sha256 : string -> string.
Variable config : Config.
Variable LocalTZA : Z -> bool -> Z.

(** The database a call leaves, whatever it answers. *)
Definition handle (q : Request) (db : Database) : Database :=
  match q with
  | Register email password name now sweptAt checkedAt stampedAt savedAt draw delivered =>
      snd (AuthService.register bcrypt_hash config email password name
             now sweptAt checkedAt stampedAt savedAt draw delivered db)
  | VerifyEmail email otp sweptAt now updatedAt =>
      snd (AuthService.verifyEmail bcrypt_compare email otp sweptAt now updatedAt db)
  | ResendOtp email sweptAt checkedAt stampedAt savedAt draw delivered =>
      snd (AuthService.resendOtp bcrypt_hash config email
             sweptAt checkedAt stampedAt savedAt draw delivered db)
  | Login email password userAgent ipAddress now secret =>
      snd (AuthService.login bcrypt_compare sha256 config LocalTZA email password
             userAgent ipAddress now secret db)
  | Refresh presented userAgent ipAddress now secret =>
      snd (AuthService.refreshToken sha256 config LocalTZA presented
             userAgent ipAddress now secret db)
  | Logout presented now =>
      snd (AuthService.logout sha256 presented now db)
  | LogoutFromAllDevices userId now =>
      snd (AuthService.logoutFromAllDevices userId now db)
  | RevokeSession userId sessionId now =>
      snd (AuthService.revokeSession userId sessionId now db)
  | CreateEmailVerificationOtp email userId sweptAt checkedAt stampedAt savedAt draw =>
      snd (OtpService.createEmailVerificationOtp bcrypt_hash config email userId
             sweptAt checkedAt stampedAt savedAt draw db)
  | VerifyEmailOtp email otp sweptAt now =>
      snd (OtpService.verifyEmailOtp bcrypt_compare email otp sweptAt now db)
  | CleanupExpiredOtps now =>
      snd (OtpService.cleanupExpiredOtps now db)
  | CleanupExpiredRefreshTokens now =>
      snd (AuthService.cleanupExpiredRefreshTokens now db)
  end.

(** Calls served one after the other. *)
Fixpoint run (db : Database) (history : list Request) : Database :=
  match history with
  | [] => db
  | q :: history' => run (handle q db) history'
  end.

(** Two refreshes of one token whose reads both precede the writes: each
    caller is past its [findOne] before the other's [update]. *)
Definition racingRefresh (presented : string)
    (userAgent1 ipAddress1 : option string) (now1 : Date) (secret1 : string)
    (userAgent2 ipAddress2 : option string) (now2 : Date) (secret2 : string)
    (db : Database)
  : Promise AuthResult * Promise AuthResult * Database :=
  match AuthService.findTokenEntity sha256 presented db with
  | (Rejected e, db1) => (Rejected e, Rejected e, db1)
  | (Resolved read1, db1) =>
      match AuthService.findTokenEntity sha256 presented db1 with
      | (Rejected e, db2) => (Rejected e, Rejected e, db2)
      | (Resolved read2, db2) =>
          let (answer1, db3) :=
            AuthService.rotateTokenEntity sha256 config LocalTZA read1
              userAgent1 ipAddress1 now1 secret1 db2 in
          let (answer2, db4) :=
            AuthService.rotateTokenEntity sha256 config LocalTZA read2
              userAgent2 ipAddress2 now2 secret2 db3 in
          (answer1, answer2, db4)
      end
  end.

(** Two issuances whose marks both precede the saves: each caller is past
    its [update] before the other's [save]. *)
Definition racingIssuance
    (email1 : string) (userId1 : option Z)
    (sweptAt1 checkedAt1 stampedAt1 savedAt1 : Date) (draw1 : Number.t)
    (email2 : string) (userId2 : option Z)
    (sweptAt2 checkedAt2 stampedAt2 savedAt2 : Date) (draw2 : Number.t)
    (db : Database)
  : Promise string * Promise string * Database :=
  match OtpService.invalidatePendingOtps email1 sweptAt1 checkedAt1 db with
  | (Rejected e, db1) =>
      let (answer2, db2) :=
        OtpService.createEmailVerificationOtp bcrypt_hash config email2 userId2
          sweptAt2 checkedAt2 stampedAt2 savedAt2 draw2 db1 in
      (Rejected e, answer2, db2)
  | (Resolved _, db1) =>
      match OtpService.invalidatePendingOtps email2 sweptAt2 checkedAt2 db1 with
      | (Rejected e, db2) =>
          let (answer1, db3) :=
            OtpService.storeOtp bcrypt_hash config email1 userId1
              stampedAt1 savedAt1 draw1 db2 in
          (answer1, Rejected e, db3)
      | (Resolved _, db2) =>
          let (answer1, db3) :=
            OtpService.storeOtp bcrypt_hash config email1 userId1
              stampedAt1 savedAt1 draw1 db2 in
          let (answer2, db4) :=
            OtpService.storeOtp bcrypt_hash config email2 userId2
              stampedAt2 savedAt2 draw2 db3 in
          (answer1, answer2, db4)
      end
  end.
End System.

(** ** Predicates of the claims *)

(** The rows of one (email, purpose) pair that are unused and unexpired at
    [now]. *)
Definition outstanding (email : string) (purpose : OtpType) (now : Date)
    (db : Database) : list Otp.t :=
  filter
    (fun o => (Otp.email o =? email)%string
              && OtpType_eqb (Otp.type o) purpose
              && negb (Otp.used o)
              && negb (Otp.expiresAt o <? now))
    (rows (otpRepository db)).

(** The rows of one (email, purpose) pair that are unused. *)
Definition unused (email : string) (purpose : OtpType) (l : list Otp.t) : list Otp.t :=
  filter
    (fun o => (Otp.email o =? email)%string
              && OtpType_eqb (Otp.type o) purpose
              && negb (Otp.used o))
    l.

Definition hashes (db : Database) : list string :=
  map RefreshToken.hashedToken (rows (refreshTokenRepository db)).

(** The criteria of the three OTP statements and of [revokeSession]. *)
Definition expiredAt (now : Date) (o : Otp.t) : bool := Otp.expiresAt o <? now.

Definition pendingFor (email : string) (o : Otp.t) : bool :=
  (Otp.email o =? email)%string
  && OtpType_eqb (Otp.type o) email_verification
  && negb (Otp.used o).

(** The database after the sweep of [cleanupExpiredOtps]. *)
Definition swept (now : Date) (db : Database) : Database :=
  setOtps (mkRepository (filter (fun o => negb (expiredAt now o)) (rows (otpRepository db)))
                        (nextId (otpRepository db)))
          db.

(** The database after [update({ email, type, used: false }, { used: true })]. *)
Definition invalidated (email : string) (db : Database) : Database :=
  setOtps (mkRepository
             (map (fun o => if pendingFor email o then Otp.setUsed o else o)
                  (rows (otpRepository db)))
             (nextId (otpRepository db)))
          db.

(** The database after [update(id, { used: true })]. *)
Definition consumed (id : Z) (db : Database) : Database :=
  setOtps (mkRepository
             (map (fun o => if Otp.id o =? id then Otp.setUsed o else o)
                  (rows (otpRepository db)))
             (nextId (otpRepository db)))
          db.

Definition revocable (userId sessionId : Z) (r : RefreshToken.t) : bool :=
  (RefreshToken.id r =? sessionId)
  && (RefreshToken.userId r =? userId)
  && negb (RefreshToken.revoked r).

(** Every row with hash [h] is revoked. *)
Definition spent (h : string) (l : list RefreshToken.t) : Prop :=
  forall r, In r l -> RefreshToken.hashedToken r = h -> RefreshToken.revoked r = true.

(** At most one unused row per (email, purpose). *)
Definition singlePending (l : list Otp.t) : Prop :=
  forall email purpose, (List.length (unused email purpose l) <= 1)%nat.

(** What one call can do to the OTP table: nothing, a sweep, a sweep and
    marks, or a sweep, the marks of the email's pending rows and a new row
    for that email. *)
Inductive otps_step (l l' : list Otp.t) : Prop :=
| otps_same : l' = l -> otps_step l l'
| otps_swept (keep : Otp.t -> bool) : l' = filter keep l -> otps_step l l'
| otps_marked (c keep : Otp.t -> bool) :
    l' = map (fun x => if c x then Otp.setUsed x else x) (filter keep l) ->
    otps_step l l'
| otps_issued (email : string) (keep : Otp.t -> bool) (o : Otp.t) :
    Otp.email o = email ->
    Otp.type o = email_verification ->
    l' = (map (fun x => if pendingFor email x then Otp.setUsed x else x) (filter keep l)
          ++ [o])%list ->
    otps_step l l'.

(** What one call can do to the sessions table, [fresh] being the hashes
    of the secrets it draws: nothing, revocations, a new row, revocations
    and a new row, or deletions. *)
Inductive tokens_step (fresh : list string) (l l' : list RefreshToken.t) : Prop :=
| tokens_same : l' = l -> tokens_step fresh l l'
| tokens_revoked (c : RefreshToken.t -> bool) (now : Date) :
    l' = map (fun x => if c x then RefreshToken.setRevoked now x else x) l ->
    tokens_step fresh l l'
| tokens_minted (r : RefreshToken.t) :
    fresh = [RefreshToken.hashedToken r] ->
    l' = (l ++ [r])%list ->
    tokens_step fresh l l'
| tokens_rotated (c : RefreshToken.t -> bool) (now : Date) (r : RefreshToken.t) :
    fresh = [RefreshToken.hashedToken r] ->
    l' = (map (fun x => if c x then RefreshToken.setRevoked now x else x) l ++ [r])%list ->
    tokens_step fresh l l'
| tokens_deleted (keep : RefreshToken.t -> bool) :
    l' = filter keep l -> tokens_step fresh l l'.

(** ** config/configuration.ts *)

Module Configuration.
Record DatabaseConfig : Type := mkDatabaseConfig {
  host : string;
  port : Z;
  username : string;
  password : string;
  database : string
}.

Record JwtConfig : Type := mkJwtConfig {
  secret : string;
  accessExpiresIn : string;
  refreshExpiresIn : string
}.

Record OtpConfig : Type := mkOtpConfig {
  expiryMinutes : Z;
  rateLimitMinutes : Z
}.

Record SmtpConfig : Type := mkSmtpConfig {
  smtp_host : option string;
  smtp_port : Z;
  user : option string;
  pass : option string;
  from : option string
}.

Record RedisConfig : Type := mkRedisConfig {
  redis_host : string;
  redis_port : Z;
  redis_password : string
}.

Record t : Type := mk {
  app_port : Z;
  nodeEnv : string;
  corsOrigin : string;
  db : DatabaseConfig;
  jwt : JwtConfig;
  otp : OtpConfig;
  smtp : SmtpConfig;
  redis : RedisConfig
}.

Section WithEnvironment.
(** [process.env]; [parseInt(value, 10)], with [None] for [NaN]; and
    [value.length], the number of UTF-16 code units of a string. *)
Variable env : string -> option string.
Variable parseInt : option string -> option Z.
Variable length : string -> nat.

(** [value || fallback] on a string: [undefined] and the empty string are
    falsy. *)
Definition orString (value : option string) (fallback : string) : string :=
  match value with
  | Some s => if (s =? "")%string then fallback else s
  | None => fallback
  end.

(** [parseInt(value, 10) || fallback]: [NaN] and zero are falsy. *)
Definition orNumber (value : option string) (fallback : Z) : Z :=
  match parseInt value with
  | Some n => if n =? 0 then fallback else n
  | None => fallback
  end.

Definition configuration : Exception + t :=
  match env "JWT_SECRET" with
  | None => inl (Error "JWT_SECRET environment variable is required")
  | Some jwtSecret =>
      if (jwtSecret =? "")%string
      then inl (Error "JWT_SECRET environment variable is required")
      else if (length jwtSecret <? 32)%nat
      then inl (Error "JWT_SECRET must be at least 32 characters long")
      else inr (mk
        (orNumber (env "PORT") 3000)
        (orString (env "NODE_ENV") "development")
        (orString (env "CORS_ORIGIN") "*")
        (mkDatabaseConfig
           (orString (env "DATABASE_HOST") "localhost")
           (orNumber (env "DATABASE_PORT") 3306)
           (orString (env "DATABASE_USERNAME") "root")
           (orString (env "DATABASE_PASSWORD") "password")
           (orString (env "DATABASE_NAME") "nestjs_starter"))
        (mkJwtConfig jwtSecret
           (orString (env "JWT_ACCESS_EXPIRES_IN") "15m")
           (orString (env "JWT_REFRESH_EXPIRES_IN") "30d"))
        (mkOtpConfig
           (orNumber (env "OTP_EXPIRY_MINUTES") 10)
           (orNumber (env "OTP_RATE_LIMIT_MINUTES") 1))
        (mkSmtpConfig (env "SMTP_HOST") (orNumber (env "SMTP_PORT") 587)
           (env "SMTP_USER") (env "SMTP_PASS") (env "SMTP_FROM"))
        (mkRedisConfig
           (orString (env "REDIS_HOST") "localhost")
           (orNumber (env "REDIS_PORT") 6379)
           (orString (env "REDIS_PASSWORD") "")))
  end.
End WithEnvironment.
End Configuration.

(** ** Further predicates *)

(** The criteria of [logoutFromAllDevices] and [getActiveSessions]. *)
Definition activeFor (userId : Z) (r : RefreshToken.t) : bool :=
  (RefreshToken.userId r =? userId) && negb (RefreshToken.revoked r).

(** Greatest key first. *)
Inductive sortedDesc {A : Type} (key : A -> Z) : list A -> Prop :=
| sortedDesc_nil : sortedDesc key []
| sortedDesc_cons (x : A) (l : list A) :
    (forall y, In y l -> key y <= key x) ->
    sortedDesc key l ->
    sortedDesc key (x :: l).

(** What one call can do to the users table: nothing, the insertion of a
    new unverified user under an email no row has, or the verification of
    the rows with one id. *)
Inductive users_step (r r' : Repository User.t) : Prop :=
| users_same : r' = r -> users_step r r'
| users_created (u : User.t) :
    Repo.findOne (fun x => (User.email x =? User.email u)%string) r = None ->
    User.id u = nextId r ->
    User.emailVerified u = false ->
    r' = mkRepository (rows r ++ [u]) (nextId r + 1) ->
    users_step r r'
| users_verified (id : Z) (now : Date) :
    r' = mkRepository
           (map (fun x => if User.id x =? id then User.setEmailVerified now x else x)
                (rows r))
           (nextId r) ->
    users_step r r'.

(** Emails and ids are unique, and ids are below the counter. *)
Definition usersWellFormed (r : Repository User.t) : Prop :=
  NoDup (map User.email (rows r))
  /\ NoDup (map User.id (rows r))
  /\ forall u, In u (rows r) -> User.id u < nextId r.

(** Session ids are unique and below the counter. *)
Definition sessionsWellFormed (r : Repository RefreshToken.t) : Prop :=
  NoDup (map RefreshToken.id (rows r))
  /\ forall x, In x (rows r) -> RefreshToken.id x < nextId r.

(** A session row as it was, but for what a revocation changes. *)
Definition sameSession (r r' : RefreshToken.t) : Prop :=
  RefreshToken.id r' = RefreshToken.id r
  /\ RefreshToken.hashedToken r' = RefreshToken.hashedToken r
  /\ RefreshToken.userId r' = RefreshToken.userId r
  /\ RefreshToken.expiresAt r' = RefreshToken.expiresAt r
  /\ RefreshToken.createdAt r' = RefreshToken.createdAt r
  /\ RefreshToken.userAgent r' = RefreshToken.userAgent r
  /\ RefreshToken.ipAddress r' = RefreshToken.ipAddress r
  /\ (RefreshToken.revoked r = true -> RefreshToken.revoked r' = true).

(** A user row as it was, but for what a verification changes. *)
Definition sameUser (u u' : User.t) : Prop :=
  User.id u' = User.id u
  /\ User.email u' = User.email u
  /\ User.name u' = User.name u
  /\ User.password u' = User.password u
  /\ User.createdAt u' = User.createdAt u
  /\ (User.emailVerified u = true -> User.emailVerified u' = true).

(** What one call can do to the sessions table, counter included; [sweep]
    is the clock reading of the call when it is the expiry sweep. *)
Inductive sessions_step (sweep : option Date) (r r' : Repository RefreshToken.t) : Prop :=
| sessions_same : r' = r -> sessions_step sweep r r'
| sessions_revoked (c : RefreshToken.t -> bool) (now : Date) :
    r' = mkRepository
           (map (fun x => if c x then RefreshToken.setRevoked now x else x) (rows r))
           (nextId r) ->
    sessions_step sweep r r'
| sessions_minted (row : RefreshToken.t) :
    RefreshToken.id row = nextId r ->
    r' = mkRepository (rows r ++ [row]) (nextId r + 1) ->
    sessions_step sweep r r'
| sessions_rotated (c : RefreshToken.t -> bool) (now : Date) (row : RefreshToken.t) :
    RefreshToken.id row = nextId r ->
    r' = mkRepository
           (map (fun x => if c x then RefreshToken.setRevoked now x else x) (rows r)
            ++ [row])
           (nextId r + 1) ->
    sessions_step sweep r r'
| sessions_swept (now : Date) :
    sweep = Some now ->
    r' = mkRepository
           (filter (fun x => negb (RefreshToken.expiresAt x <? now)) (rows r))
           (nextId r) ->
    sessions_step sweep r r'.

(** The clock reading of a call that is the sessions sweep. *)
Definition sweepOf (q : Request) : option Date :=
  match q with
  | CleanupExpiredRefreshTokens now => Some now
  | _ => None
  end.

(** A session row is kept by a call, or swept because it had expired. *)
Definition sessionPersists (sweep : option Date) (r' : Repository RefreshToken.t)
    (x : RefreshToken.t) : Prop :=
  (exists x', In x' (rows r') /\ sameSession x x')
  \/ (exists now, sweep = Some now /\ RefreshToken.expiresAt x < now).

(** The number of sessions [getActiveSessions] lists for a user. *)
Definition activeCount (userId : Z) (db : Database) : nat :=
  match fst (AuthService.getActiveSessions userId db) with
  | Resolved sessions => List.length sessions
  | Rejected _ => 0
  end.

(** ** Fixtures *)

Module Fixture.
(** A stand-in for bcrypt: the hash of [p] is [p] behind a tag. *)
Definition bcrypt_hash (p : string) (rounds : Z) : string := "$2b$" ++ p.
Definition bcrypt_compare (p h : string) : bool := (h =? "$2b$" ++ p)%string.
(** A stand-in for SHA-256, injective as the digest is taken to be. *)
Definition sha256 (s : string) : string := "sha256:" ++ s.
Definition config : Config := defaultConfig "0123456789abcdef0123456789abcdef".
(** A process whose local time is UTC. *)
Definition LocalTZA (t : Z) (isUTC : bool) : Z := 0.

Definition alice (verified : bool) : User.t :=
  User.mk 1 "a@x.com" (Some "A") (Some (bcrypt_hash "Password1" 12)) verified 1000 1000.

Definition withUsers (l : list User.t) : Database :=
  setUsers (mkRepository l 2) emptyDatabase.

Definition session (id : Z) (secret : string) (expiresAt : Date) (revoked : bool)
    (userId : Z) : RefreshToken.t :=
  RefreshToken.mk id (sha256 secret) expiresAt revoked (Some "curl") None 1000 1000 userId.

Definition withSessions (l : list RefreshToken.t) (db : Database) : Database :=
  setRefreshTokens (mkRepository l 10) db.

Definition otp (id : Z) (email code : string) (expiresAt : Date) (used : bool)
    (createdAt : Date) : Otp.t :=
  Otp.mk id email (bcrypt_hash code 10) expiresAt used email_verification createdAt None.

(** A value of [Math.random()] for which [generateOtp] prints [code]: the
    Number nearest to the middle of the code's interval. *)
Definition randomFor (code : Z) : Number.t :=
  SFdiv Number.prec Number.emax
    (Number.ofZ (2 * (code - 100000) + 1)) (Number.ofZ 1800000).

Definition withOtps (l : list Otp.t) (db : Database) : Database :=
  setOtps (mkRepository l 10) db.
End Fixture.

(** * Properties *)

(** ** Lists and repositories *)

Lemma filter_nothing {A} (criteria : A -> bool) (l : list A) :
  (forall x, In x l -> criteria x = false) -> filter criteria l = [].
Proof.
  induction l as [|a l IH]; intros H; [reflexivity|].
  simpl. rewrite (H a (or_introl eq_refl)). apply IH.
  intros x Hx. apply H. now right.
Qed.

Lemma filter_something {A} (criteria : A -> bool) (l : list A) (x : A) :
  In x l -> criteria x = true -> filter criteria l <> [].
Proof.
  intros Hin Hc Hnil.
  assert (Hx : In x (filter criteria l)) by (apply filter_In; auto).
  rewrite Hnil in Hx. exact Hx.
Qed.

Lemma map_untouched {A} (criteria : A -> bool) (set : A -> A) (l : list A) :
  (forall x, In x l -> criteria x = false) ->
  map (fun x => if criteria x then set x else x) l = l.
Proof.
  induction l as [|a l IH]; intros H; [reflexivity|].
  simpl. rewrite (H a (or_introl eq_refl)). f_equal. apply IH.
  intros x Hx. apply H. now right.
Qed.

Lemma update_nothing {A} (criteria : A -> bool) (set : A -> A) (r : Repository A) :
  (forall x, In x (rows r) -> criteria x = false) ->
  Repo.update criteria set r = (r, 0%nat).
Proof.
  intros H. unfold Repo.update.
  rewrite (map_untouched _ _ _ H), (filter_nothing _ _ H).
  now destruct r.
Qed.

Lemma delete_nothing {A} (criteria : A -> bool) (r : Repository A) :
  (forall x, In x (rows r) -> criteria x = false) ->
  Repo.delete criteria r = (r, 0%nat).
Proof.
  intros H. unfold Repo.delete.
  rewrite (filter_nothing _ _ H).
  assert (E : filter (fun x => negb (criteria x)) (rows r) = rows r).
  { clear - H. induction (rows r) as [|a l IH]; [reflexivity|].
    simpl. rewrite (H a (or_introl eq_refl)). simpl. f_equal.
    apply IH. intros x Hx. apply H. now right. }
  rewrite E. now destruct r.
Qed.

Lemma setUsers_same (db : Database) : setUsers (usersRepository db) db = db.
Proof. now destruct db. Qed.

Lemma setOtps_same (db : Database) : setOtps (otpRepository db) db = db.
Proof. now destruct db. Qed.

Lemma setRefreshTokens_same (db : Database) :
  setRefreshTokens (refreshTokenRepository db) db = db.
Proof. now destruct db. Qed.

Lemma insertDesc_In {A} (key : A -> Z) (x y : A) (l : list A) :
  In y (Repo.insertDesc key x l) <-> y = x \/ In y l.
Proof.
  induction l as [|a l IH]; simpl.
  - intuition congruence.
  - destruct (key x <? key a); simpl; [rewrite IH|]; intuition congruence.
Qed.

Lemma orderDesc_In {A} (key : A -> Z) (y : A) (l : list A) :
  In y (Repo.orderDesc key l) <-> In y l.
Proof.
  induction l as [|a l IH]; simpl; [tauto|].
  rewrite insertDesc_In, IH. intuition congruence.
Qed.

Lemma greatest_In {A} (key : A -> Z) (l : list A) (best : option A) (x : A) :
  Repo.greatest key best l = Some x -> best = Some x \/ In x l.
Proof.
  revert best. induction l as [|a l IH]; intros best H; simpl in H; [now left|].
  destruct best as [b|].
  - apply IH in H. destruct H as [H|H]; [|right; now right].
    destruct (key b <? key a); injection H as <-; [right|left]; simpl; auto.
  - apply IH in H. destruct H as [H|H]; [injection H as <-|]; right; simpl; auto.
Qed.

Lemma greatest_None {A} (key : A -> Z) (l : list A) (best : option A) :
  Repo.greatest key best l = None -> best = None /\ l = [].
Proof.
  revert best. induction l as [|a l IH]; intros best H; simpl in H; [auto|].
  destruct best as [b|]; apply IH in H; destruct H; discriminate.
Qed.

Lemma findOneDesc_Some {A} (criteria : A -> bool) (key : A -> Z)
    (r : Repository A) (x : A) :
  Repo.findOneDesc criteria key r = Some x -> In x (rows r) /\ criteria x = true.
Proof.
  unfold Repo.findOneDesc. intros H.
  apply greatest_In in H. destruct H as [H|H]; [discriminate|].
  now apply filter_In in H.
Qed.

Lemma findOneDesc_None {A} (criteria : A -> bool) (key : A -> Z)
    (r : Repository A) :
  Repo.findOneDesc criteria key r = None ->
  forall x, In x (rows r) -> criteria x = false.
Proof.
  unfold Repo.findOneDesc. intros H x Hx.
  apply greatest_None in H. destruct H as [_ H].
  destruct (criteria x) eqn:E; [|reflexivity].
  exfalso. exact (filter_something _ _ _ Hx E H).
Qed.

(** ** Session listing *)

(** A row is listed exactly when it belongs to the user and is not revoked. *)
Lemma getActiveSessions_rows (db : Database) (userId : Z) :
  AuthService.getActiveSessions userId db =
    (Resolved
       (map AuthService.toSession
          (Repo.orderDesc RefreshToken.createdAt
             (filter (fun r => (RefreshToken.userId r =? userId)
                               && negb (RefreshToken.revoked r))
                     (rows (refreshTokenRepository db))))),
     db).
Proof. reflexivity. Qed.

(** C10.  [getActiveSessions] tests the [revoked] flag and nothing else:
    a session is listed exactly when it is a row of the user that is not
    revoked.  So a session of the user that was never revoked is listed
    even when its [expiresAt] is in the past, and a revoked one is not
    listed even when it has not expired. *)
Theorem getActiveSessions_lists_expired (db : Database) (userId now : Z) :
  exists sessions,
    AuthService.getActiveSessions userId db = (Resolved sessions, db)
    /\ (forall s,
          In s sessions
          <-> exists r, In r (rows (refreshTokenRepository db))
                        /\ RefreshToken.userId r = userId
                        /\ RefreshToken.revoked r = false
                        /\ s = AuthService.toSession r)
    /\ (forall r,
          In r (rows (refreshTokenRepository db)) ->
          RefreshToken.userId r = userId ->
          RefreshToken.revoked r = false ->
          RefreshToken.expiresAt r < now ->
          In (AuthService.toSession r) sessions
          /\ session_expiresAt (AuthService.toSession r) < now).
Proof.
  rewrite getActiveSessions_rows. eexists. split; [reflexivity|].
  assert (Hlisted : forall r,
             In r (filter (fun r => (RefreshToken.userId r =? userId)
                                    && negb (RefreshToken.revoked r))
                          (rows (refreshTokenRepository db)))
             <-> In r (rows (refreshTokenRepository db))
                 /\ RefreshToken.userId r = userId
                 /\ RefreshToken.revoked r = false).
  { intros r. rewrite filter_In, andb_true_iff, Z.eqb_eq, negb_true_iff. tauto. }
  split.
  - intros s. rewrite in_map_iff. split.
    + intros (r & <- & Hr). apply orderDesc_In, Hlisted in Hr.
      exists r. tauto.
    + intros (r & Hin & Hu & Hr & ->). exists r. split; [reflexivity|].
      apply orderDesc_In, Hlisted. tauto.
  - intros r Hin Hu Hr Hexp. split; [|exact Hexp].
    apply in_map, orderDesc_In, Hlisted. tauto.
Qed.

Lemma getActiveSessions_lists_expired_witness :
  exists sessions,
    AuthService.getActiveSessions 1
      (Fixture.withSessions [Fixture.session 1 "t1" 9000 true 1;
                             Fixture.session 2 "t2" 100 false 1]
         (Fixture.withUsers [Fixture.alice true]))
    = (Resolved sessions,
       Fixture.withSessions [Fixture.session 1 "t1" 9000 true 1;
                             Fixture.session 2 "t2" 100 false 1]
         (Fixture.withUsers [Fixture.alice true]))
    /\ In (AuthService.toSession (Fixture.session 2 "t2" 100 false 1)) sessions
    /\ ~ In (AuthService.toSession (Fixture.session 1 "t1" 9000 true 1)) sessions.
Proof.
  destruct (getActiveSessions_lists_expired
              (Fixture.withSessions [Fixture.session 1 "t1" 9000 true 1;
                                     Fixture.session 2 "t2" 100 false 1]
                 (Fixture.withUsers [Fixture.alice true]))
              1 5000) as (sessions & Hlist & Hiff & Hexpired).
  exists sessions. split; [exact Hlist|]. split.
  - apply (Hexpired (Fixture.session 2 "t2" 100 false 1)).
    + simpl. right. left. reflexivity.
    + reflexivity.
    + reflexivity.
    + simpl. lia.
  - intros Hin. apply Hiff in Hin. destruct Hin as (r & Hr & _ & Hrev & Hs).
    destruct Hr as [<-|[<-|[]]]; [discriminate Hrev|discriminate Hs].
Defined.

(** ** Revoking one session *)

(** The claim of C7 fails on a session of the caller that is already
    revoked: the second revocation is answered [NotFound], not success. *)
Lemma revokeSession_twice_not_found :
  let db := Fixture.withSessions [Fixture.session 1 "t1" 9000 false 7] emptyDatabase in
  let once := AuthService.revokeSession 7 1 5000 db in
  fst once = Resolved "Session revoked successfully"
  /\ fst (AuthService.revokeSession 7 1 5001 (snd once))
     = Rejected (NotFoundException "Session not found").
Proof. split; reflexivity. Qed.

(** C7, amended.  [revokeSession] succeeds exactly when the caller owns an
    unrevoked session with that id, and then leaves it revoked.  In every
    other case (no such id, a session of another user, a session already
    revoked) it throws the same [NotFound] and writes nothing. *)
Theorem revokeSession_outcome (db : Database) (userId sessionId now : Z) :
  ((exists r, In r (rows (refreshTokenRepository db))
              /\ RefreshToken.id r = sessionId
              /\ RefreshToken.userId r = userId
              /\ RefreshToken.revoked r = false) ->
   fst (AuthService.revokeSession userId sessionId now db)
     = Resolved "Session revoked successfully"
   /\ forall r, In r (rows (refreshTokenRepository
                             (snd (AuthService.revokeSession userId sessionId now db)))) ->
                RefreshToken.id r = sessionId ->
                RefreshToken.userId r = userId ->
                RefreshToken.revoked r = true)
  /\
  ((forall r, In r (rows (refreshTokenRepository db)) ->
              RefreshToken.id r = sessionId ->
              RefreshToken.userId r = userId ->
              RefreshToken.revoked r = true) ->
   AuthService.revokeSession userId sessionId now db
     = (Rejected (NotFoundException "Session not found"), db)).
Proof.
  unfold AuthService.revokeSession, bind, execRefreshTokens.
  fold (revocable userId sessionId).
  split.
  - intros (r & Hin & Hid & Hu & Hr).
    assert (Hc : revocable userId sessionId r = true).
    { unfold revocable. now rewrite Hid, Hu, Hr, !Z.eqb_refl. }
    pose proof (filter_something _ _ _ Hin Hc) as Hne.
    unfold Repo.update. simpl.
    destruct (filter (revocable userId sessionId) (rows (refreshTokenRepository db)))
      as [|x l]; [congruence|].
    simpl. split; [reflexivity|].
    intros r' Hin' Hid' Hu'.
    apply in_map_iff in Hin'. destruct Hin' as (r0 & E & _).
    destruct (revocable userId sessionId r0) eqn:Hc0; subst r'; [reflexivity|].
    unfold revocable in Hc0. rewrite Hid', Hu', !Z.eqb_refl in Hc0.
    simpl in Hc0. now destruct (RefreshToken.revoked r0).
  - intros H.
    rewrite update_nothing.
    + simpl. unfold throw. now rewrite setRefreshTokens_same.
    + intros r Hin. unfold revocable.
      destruct (RefreshToken.id r =? sessionId) eqn:E1; [|reflexivity].
      destruct (RefreshToken.userId r =? userId) eqn:E2; [|reflexivity].
      apply Z.eqb_eq in E1, E2. now rewrite (H r Hin E1 E2).
Qed.

Lemma revokeSession_outcome_witness :
  AuthService.revokeSession 7 1 5000
    (Fixture.withSessions [Fixture.session 1 "t1" 9000 false 8] emptyDatabase)
  = (Rejected (NotFoundException "Session not found"),
     Fixture.withSessions [Fixture.session 1 "t1" 9000 false 8] emptyDatabase).
Proof.
  apply (proj2 (revokeSession_outcome
                  (Fixture.withSessions [Fixture.session 1 "t1" 9000 false 8] emptyDatabase)
                  7 1 5000)).
  intros r [<-|[]] _ Hu. simpl in Hu. lia.
Defined.

(** ** Login *)

(** The claim of C3 fails on an unverified account: its message differs
    from the one an absent account gets. *)
Lemma login_unverified_message_differs :
  exists m1 m2,
    fst (AuthService.login Fixture.bcrypt_compare Fixture.sha256 Fixture.config Fixture.LocalTZA
           "a@x.com" "Password1" None None 5000 "s1"
           (Fixture.withUsers [Fixture.alice false]))
      = Rejected (UnauthorizedException m1)
    /\ fst (AuthService.login Fixture.bcrypt_compare Fixture.sha256 Fixture.config Fixture.LocalTZA
              "a@x.com" "Password1" None None 5000 "s1"
              (Fixture.withUsers []))
      = Rejected (UnauthorizedException m2)
    /\ m1 <> m2.
Proof.
  exists "Please verify your email before logging in", "Invalid email or password".
  repeat split; try reflexivity. discriminate.
Qed.

(** C3, amended.  A login fails [Unauthorized] and writes nothing when the
    user is absent, unverified, or the password does not match.  An absent
    user and a wrong password share the message "Invalid email or
    password"; an unverified user is told "Please verify your email before
    logging in", before the password is looked at. *)
Theorem login_failure_messages
    (bcrypt_compare : string -> string -> bool) (sha256 : string -> string)
    (config : Config) (LocalTZA : Z -> bool -> Z) (db : Database) (email password : string)
    (userAgent ipAddress : option string) (now : Date) (secret : string) :
  let found := Repo.findOne (fun u => (User.email u =? email)%string) (usersRepository db) in
  let answer := AuthService.login bcrypt_compare sha256 config LocalTZA email password
                  userAgent ipAddress now secret db in
  (found = None ->
   answer = (Rejected (UnauthorizedException "Invalid email or password"), db))
  /\ (forall u, found = Some u -> User.emailVerified u = false ->
      answer = (Rejected (UnauthorizedException
                            "Please verify your email before logging in"), db))
  /\ (forall u hash, found = Some u -> User.emailVerified u = true ->
      User.password u = Some hash -> bcrypt_compare password hash = false ->
      answer = (Rejected (UnauthorizedException "Invalid email or password"), db)).
Proof.
  cbv zeta.
  unfold AuthService.login, UsersService.findByEmailWithPassword, bind, queryUsers, throw.
  cbv beta.
  split; [|split].
  - intros ->. reflexivity.
  - intros u -> Hv. now rewrite Hv.
  - intros u hash -> Hv Hp Hc. now rewrite Hv, Hp, Hc.
Qed.

Lemma login_failure_messages_witness :
  AuthService.login Fixture.bcrypt_compare Fixture.sha256 Fixture.config Fixture.LocalTZA
    "a@x.com" "Password2" None None 5000 "s1" (Fixture.withUsers [Fixture.alice true])
  = (Rejected (UnauthorizedException "Invalid email or password"),
     Fixture.withUsers [Fixture.alice true]).
Proof.
  apply (proj2 (proj2 (login_failure_messages Fixture.bcrypt_compare Fixture.sha256
                         Fixture.config Fixture.LocalTZA (Fixture.withUsers [Fixture.alice true])
                         "a@x.com" "Password2" None None 5000 "s1"))
           (Fixture.alice true) (Fixture.bcrypt_hash "Password1" 12));
    reflexivity.
Defined.

(** ** Per-request authentication *)

(** [validateUser] answers from the users table. *)
Lemma validateUser_reads_users (db : Database) (payload : JwtPayload) :
  AuthService.validateUser payload db =
    (Resolved
       match Repo.findOne (fun u => (User.email u =? payload_email payload)%string)
               (usersRepository db) with
       | Some row => if User.emailVerified row
                     then Some (User.withoutPassword row) else None
       | None => None
       end,
     db).
Proof.
  unfold AuthService.validateUser, UsersService.findByEmail, bind, queryUsers, ret.
  destruct (Repo.findOne _ _); reflexivity.
Qed.

(** The claim of C8 fails for the payload of an access token that
    [generateTokens] minted for a verified user, whose signature and expiry
    are as they were: [validateUser] accepts it while the user is in the
    store and verified, and answers [null] once the user is missing or
    unverified there. *)
Lemma validateUser_depends_on_store :
  let payload := mkJwtPayload 1 "a@x.com" true in
  fst (AuthService.validateUser payload (Fixture.withUsers [Fixture.alice true]))
    = Resolved (Some (User.withoutPassword (Fixture.alice true)))
  /\ fst (AuthService.validateUser payload (Fixture.withUsers [])) = Resolved None
  /\ fst (AuthService.validateUser payload (Fixture.withUsers [Fixture.alice false]))
     = Resolved None.
Proof. repeat split; reflexivity. Qed.

(** C8, amended.  For the payload of a token whose signature and expiry
    are valid, [validateUser] accepts exactly when the store currently
    holds a user with the payload's email whose [emailVerified] is true; it
    answers with that row, without the password, and never writes.  The
    flag carried by the token is not consulted. *)
Theorem validateUser_accepts_iff (payload : JwtPayload) (db : Database) (u : User.t) :
  snd (AuthService.validateUser payload db) = db
  /\ (fst (AuthService.validateUser payload db) = Resolved (Some u)
      <->
      exists row,
        Repo.findOne (fun x => (User.email x =? payload_email payload)%string)
          (usersRepository db) = Some row
        /\ User.emailVerified row = true
        /\ u = User.withoutPassword row).
Proof.
  rewrite validateUser_reads_users. cbn [fst snd]. split; [reflexivity|].
  destruct (Repo.findOne _ _) as [row|].
  - destruct (User.emailVerified row) eqn:Ev.
    + split.
      * intros H. exists row. repeat split; congruence.
      * intros (row' & E & _ & ->). now injection E as <-.
    + split; [discriminate|].
      intros (row' & E & Ev' & _). injection E as <-. congruence.
  - split; [discriminate|]. intros (row' & E & _). discriminate.
Qed.

(** ** The OTP ledger, call by call *)

Lemma cleanupExpiredOtps_swept (now : Date) (db : Database) :
  OtpService.cleanupExpiredOtps now db = (Resolved tt, swept now db).
Proof. reflexivity. Qed.

Lemma verifyEmailOtp_cases (bcrypt_compare : string -> string -> bool)
    (email otp : string) (sweptAt now : Date) (db : Database) :
  OtpService.verifyEmailOtp bcrypt_compare email otp sweptAt now db =
    match Repo.findOneDesc (pendingFor email) Otp.createdAt
            (otpRepository (swept sweptAt db)) with
    | None => (Resolved false, swept sweptAt db)
    | Some entity =>
        if Otp.expiresAt entity <? now then (Resolved false, swept sweptAt db)
        else if bcrypt_compare otp (Otp.hashedOtp entity)
             then (Resolved true, consumed (Otp.id entity) (swept sweptAt db))
             else (Resolved false, swept sweptAt db)
    end.
Proof.
  unfold OtpService.verifyEmailOtp, bind.
  rewrite cleanupExpiredOtps_swept.
  unfold queryOtps, OtpService.verifyOtp. fold (pendingFor email).
  destruct (Repo.findOneDesc _ _ _) as [entity|]; [|reflexivity].
  destruct (Otp.expiresAt entity <? now); [reflexivity|].
  destruct (bcrypt_compare otp (Otp.hashedOtp entity)); reflexivity.
Qed.

(** The claim of C4 fails when the table holds an expired row: a verify
    that returns false has deleted it. *)
Lemma verifyEmailOtp_false_deletes_expired :
  let db := Fixture.withOtps [Fixture.otp 1 "b@x.com" "123456" 4000 false 1000]
              emptyDatabase in
  let answer := OtpService.verifyEmailOtp Fixture.bcrypt_compare
                  "a@x.com" "000000" 5000 5000 db in
  fst answer = Resolved false
  /\ rows (otpRepository db) = [Fixture.otp 1 "b@x.com" "123456" 4000 false 1000]
  /\ rows (otpRepository (snd answer)) = []
  /\ snd answer <> db.
Proof. repeat split; try reflexivity. discriminate. Qed.

(** C4, amended.  A verify that returns false leaves the database as the
    expiry sweep it starts with leaves it: the rows whose [expiresAt] is
    before the sweep's clock reading are deleted, whatever their email, and
    every other row is kept as it was; no row is marked used and none is
    created.  Where no row is expired the store is unchanged. *)
Theorem verifyEmailOtp_false_only_sweeps (bcrypt_compare : string -> string -> bool)
    (email otp : string) (sweptAt now : Date) (db : Database) :
  fst (OtpService.verifyEmailOtp bcrypt_compare email otp sweptAt now db) = Resolved false ->
  snd (OtpService.verifyEmailOtp bcrypt_compare email otp sweptAt now db)
    = snd (OtpService.cleanupExpiredOtps sweptAt db)
  /\ rows (otpRepository
             (snd (OtpService.verifyEmailOtp bcrypt_compare email otp sweptAt now db)))
     = filter (fun o => negb (Otp.expiresAt o <? sweptAt)) (rows (otpRepository db))
  /\ ((forall o, In o (rows (otpRepository db)) -> sweptAt <= Otp.expiresAt o) ->
      snd (OtpService.verifyEmailOtp bcrypt_compare email otp sweptAt now db) = db).
Proof.
  rewrite verifyEmailOtp_cases, cleanupExpiredOtps_swept.
  intros H.
  assert (E : snd (match Repo.findOneDesc (pendingFor email) Otp.createdAt
                           (otpRepository (swept sweptAt db)) with
                   | None => (Resolved false, swept sweptAt db)
                   | Some entity =>
                       if Otp.expiresAt entity <? now
                       then (Resolved false, swept sweptAt db)
                       else if bcrypt_compare otp (Otp.hashedOtp entity)
                            then (Resolved true,
                                  consumed (Otp.id entity) (swept sweptAt db))
                            else (Resolved false, swept sweptAt db)
                   end) = swept sweptAt db).
  { destruct (Repo.findOneDesc _ _ _) as [entity|]; [|reflexivity].
    destruct (Otp.expiresAt entity <? now); [reflexivity|].
    destruct (bcrypt_compare otp (Otp.hashedOtp entity)); [discriminate|reflexivity]. }
  rewrite E. cbn [snd]. split; [reflexivity|]. split; [reflexivity|].
  intros Hlive. unfold swept.
  assert (F : filter (fun o => negb (expiredAt sweptAt o)) (rows (otpRepository db))
              = rows (otpRepository db)).
  { clear - Hlive. induction (rows (otpRepository db)) as [|a l IH]; [reflexivity|].
    simpl. unfold expiredAt at 1.
    assert (Ha : sweptAt <= Otp.expiresAt a) by (apply Hlive; now left).
    apply Z.ltb_ge in Ha. rewrite Ha. simpl. f_equal.
    apply IH. intros o Ho. apply Hlive. now right. }
  rewrite F. destruct db as [u [ro no] t]. reflexivity.
Qed.

Lemma verifyEmailOtp_false_only_sweeps_witness :
  let db := Fixture.withOtps [Fixture.otp 1 "a@x.com" "123456" 9000 false 1000;
                              Fixture.otp 2 "b@x.com" "654321" 4000 false 1000]
              emptyDatabase in
  rows (otpRepository
          (snd (OtpService.verifyEmailOtp Fixture.bcrypt_compare
                  "a@x.com" "000000" 5000 5000 db)))
  = filter (fun o => negb (Otp.expiresAt o <? 5000)) (rows (otpRepository db)).
Proof.
  cbv zeta.
  apply (verifyEmailOtp_false_only_sweeps Fixture.bcrypt_compare "a@x.com" "000000"
           5000 5000).
  reflexivity.
Defined.

(** The marks never take the cooldown branch: the row they look up was
    created before [oneMinuteAgo], and the branch asks for one created
    after. *)
Lemma invalidatePendingOtps_effect (email : string) (sweptAt checkedAt : Date)
    (db : Database) :
  OtpService.invalidatePendingOtps email sweptAt checkedAt db
  = (Resolved tt, invalidated email (swept sweptAt db)).
Proof.
  unfold OtpService.invalidatePendingOtps, bind.
  rewrite cleanupExpiredOtps_swept.
  unfold queryOtps.
  destruct (Repo.findOneDesc _ _ _) as [recent|] eqn:Efind.
  - apply findOneDesc_Some in Efind. destruct Efind as [_ Hc].
    apply andb_prop in Hc. destruct Hc as [_ Hc]. apply Z.ltb_lt in Hc.
    assert (Hn : (checkedAt - 60 * 1000 <? Otp.createdAt recent) = false)
      by (apply Z.ltb_ge; lia).
    rewrite Hn. reflexivity.
  - reflexivity.
Qed.

Lemma storeOtp_effect (bcrypt_hash : string -> Z -> string) (config : Config)
    (email : string) (userId : option Z) (stampedAt savedAt : Date)
    (draw : Number.t) (db : Database) :
  OtpService.storeOtp bcrypt_hash config email userId stampedAt savedAt draw db
  = if references userId (usersRepository db)
    then (Resolved (OtpService.generateOtp draw),
          setOtps
            (mkRepository
               (rows (otpRepository db)
                ++ [Otp.mk (nextId (otpRepository db)) email
                      (bcrypt_hash (OtpService.generateOtp draw) 10)
                      (stampedAt + OTP_EXPIRY_MINUTES config * 60 * 1000)
                      false email_verification savedAt userId])
               (nextId (otpRepository db) + 1))
            db)
    else (Rejected (Error "Cannot add or update a child row: a foreign key constraint fails"),
          db).
Proof.
  unfold OtpService.storeOtp, bind, saveOtp.
  destruct (references userId (usersRepository db)); reflexivity.
Qed.

Lemma references_In (u : User.t) (users : Repository User.t) :
  In u (rows users) -> references (Some (User.id u)) users = true.
Proof.
  intros Hin. unfold references. apply existsb_exists.
  exists u. split; [exact Hin|apply Z.eqb_refl].
Qed.

(** An issuance for no user, or for a user the table has. *)
Lemma createEmailVerificationOtp_effect (bcrypt_hash : string -> Z -> string)
    (config : Config) (email : string) (userId : option Z)
    (sweptAt checkedAt stampedAt savedAt : Date) (draw : Number.t) (db : Database) :
  references userId (usersRepository db) = true ->
  OtpService.createEmailVerificationOtp bcrypt_hash config email userId
    sweptAt checkedAt stampedAt savedAt draw db
  = (Resolved (OtpService.generateOtp draw),
     setOtps
       (mkRepository
          (map (fun o => if pendingFor email o then Otp.setUsed o else o)
               (rows (otpRepository (swept sweptAt db)))
           ++ [Otp.mk (nextId (otpRepository db)) email
                 (bcrypt_hash (OtpService.generateOtp draw) 10)
                 (stampedAt + OTP_EXPIRY_MINUTES config * 60 * 1000)
                 false email_verification savedAt userId])
          (nextId (otpRepository db) + 1))
       db).
Proof.
  intros Href.
  unfold OtpService.createEmailVerificationOtp, bind.
  rewrite invalidatePendingOtps_effect, storeOtp_effect.
  change (usersRepository (invalidated email (swept sweptAt db)))
    with (usersRepository db).
  rewrite Href. destruct db as [u [ro no] t]. reflexivity.
Qed.

(** An issuance for a user the table does not have: the marks are kept,
    the row is not stored. *)
Lemma createEmailVerificationOtp_refused (bcrypt_hash : string -> Z -> string)
    (config : Config) (email : string) (userId : option Z)
    (sweptAt checkedAt stampedAt savedAt : Date) (draw : Number.t) (db : Database) :
  references userId (usersRepository db) = false ->
  OtpService.createEmailVerificationOtp bcrypt_hash config email userId
    sweptAt checkedAt stampedAt savedAt draw db
  = (Rejected (Error "Cannot add or update a child row: a foreign key constraint fails"),
     invalidated email (swept sweptAt db)).
Proof.
  intros Href.
  unfold OtpService.createEmailVerificationOtp, bind.
  rewrite invalidatePendingOtps_effect, storeOtp_effect.
  change (usersRepository (invalidated email (swept sweptAt db)))
    with (usersRepository db).
  now rewrite Href.
Qed.

(** C2: the code at the failing input.  Two issuances for one email, one
    second apart: the second resolves with a fresh code and stores a second
    row, where the claim has it fail. *)
Theorem createEmailVerificationOtp_twice_within_cooldown :
  let first := OtpService.createEmailVerificationOtp Fixture.bcrypt_hash Fixture.config
                 "a@x.com" (Some 1) 1000000 1000000 1000000 1000000
                 (Fixture.randomFor 123456)
                 (Fixture.withUsers [Fixture.alice false]) in
  let second := OtpService.createEmailVerificationOtp Fixture.bcrypt_hash Fixture.config
                  "a@x.com" (Some 1) 1001000 1001000 1001000 1001000
                  (Fixture.randomFor 100777)
                  (snd first) in
  fst first = Resolved "123456"
  /\ fst second = Resolved "100777"
  /\ map Otp.createdAt (rows (otpRepository (snd second))) = [1000000; 1001000]
  /\ map Otp.used (rows (otpRepository (snd second))) = [true; false].
Proof. repeat split; vm_compute; reflexivity. Qed.

(** The cooldown never refuses an issuance, whatever the table holds and
    whatever the clock reads: only the foreign key can. *)
Lemma createEmailVerificationOtp_never_refuses (bcrypt_hash : string -> Z -> string)
    (config : Config) (email : string) (userId : option Z)
    (sweptAt checkedAt stampedAt savedAt : Date) (draw : Number.t) (db : Database) :
  fst (OtpService.createEmailVerificationOtp bcrypt_hash config email userId
         sweptAt checkedAt stampedAt savedAt draw db)
  = if references userId (usersRepository db)
    then Resolved (OtpService.generateOtp draw)
    else Rejected (Error "Cannot add or update a child row: a foreign key constraint fails").
Proof.
  destruct (references userId (usersRepository db)) eqn:Href.
  - now rewrite createEmailVerificationOtp_effect.
  - now rewrite createEmailVerificationOtp_refused.
Qed.

(** ** Email verification *)

Lemma find_after_update {A} (criteria : A -> bool) (set : A -> A) (l : list A) (x : A) :
  (forall y, criteria (set y) = criteria y) ->
  List.find criteria l = Some x ->
  List.find criteria (map (fun y => if criteria y then set y else y) l) = Some (set x).
Proof.
  intros Hset. induction l as [|a l IH]; simpl; [discriminate|].
  destruct (criteria a) eqn:Ea.
  - intros H. injection H as <-. now rewrite Hset, Ea.
  - rewrite Ea. exact IH.
Qed.

(** Marking a user verified by id and reading it back cannot fail when a
    row with that id is in the table. *)
Lemma UsersService_verifyEmail_resolves (db : Database) (u : User.t) (updatedAt : Date) :
  In u (rows (usersRepository db)) ->
  exists v,
    UsersService.verifyEmail (User.id u) updatedAt db
    = (Resolved v,
       setUsers (fst (Repo.update (fun x => User.id x =? User.id u)
                        (User.setEmailVerified updatedAt) (usersRepository db)))
                db).
Proof.
  intros Hin.
  unfold UsersService.verifyEmail, bind, execUsers, UsersService.findOne, bind, queryUsers.
  unfold Repo.update, Repo.findOne.
  cbn [fst snd usersRepository setUsers rows].
  destruct (List.find (fun x => User.id x =? User.id u)
              (map (fun x => if User.id x =? User.id u
                             then User.setEmailVerified updatedAt x else x)
                   (rows (usersRepository db)))) as [v|] eqn:Ev.
  - eexists. reflexivity.
  - exfalso.
    pose proof (find_none _ _ Ev (User.setEmailVerified updatedAt u)) as Hnone.
    cbn [User.id User.setEmailVerified] in Hnone. rewrite Z.eqb_refl in Hnone.
    assert (Hset : In (User.setEmailVerified updatedAt u)
                      (map (fun x => if User.id x =? User.id u
                                     then User.setEmailVerified updatedAt x else x)
                           (rows (usersRepository db)))).
    { apply in_map_iff. exists u. now rewrite Z.eqb_refl. }
    specialize (Hnone Hset). discriminate.
Qed.

Lemma verifyEmail_cases (bcrypt_compare : string -> string -> bool)
    (email otp : string) (sweptAt now updatedAt : Date) (db : Database) :
  AuthService.verifyEmail bcrypt_compare email otp sweptAt now updatedAt db =
    match OtpService.verifyEmailOtp bcrypt_compare email otp sweptAt now db with
    | (Resolved false, db1) =>
        (Rejected (BadRequestException "Invalid or expired OTP"), db1)
    | (Resolved true, db1) =>
        match Repo.findOne (fun u => (User.email u =? email)%string)
                (usersRepository db1) with
        | None => (Rejected (NotFoundException "User not found"), db1)
        | Some u =>
            if User.emailVerified u
            then (Rejected (BadRequestException "Email is already verified"), db1)
            else
              match UsersService.verifyEmail (User.id u) updatedAt db1 with
              | (Resolved verifiedUser, db2) =>
                  (Resolved ("Email verified successfully",
                             User.withoutPassword verifiedUser), db2)
              | (Rejected e, db2) => (Rejected e, db2)
              end
        end
    | (Rejected e, db1) => (Rejected e, db1)
    end.
Proof.
  unfold AuthService.verifyEmail.
  unfold bind at 1.
  destruct (OtpService.verifyEmailOtp _ _ _ _ _ db) as [[[|]|e] db1]; try reflexivity.
  cbn [negb].
  unfold bind at 1. unfold UsersService.findByEmail, queryUsers, ret.
  unfold bind at 1.
  destruct (Repo.findOne _ (usersRepository db1)) as [u|]; [|reflexivity].
  cbn [option_map].
  change (User.emailVerified (User.withoutPassword u)) with (User.emailVerified u).
  destruct (User.emailVerified u); reflexivity.
Qed.

(** The claim of C6 fails when the code is right and the user is missing
    or already verified: the call throws after the OTP has been marked
    used. *)
Lemma verifyEmail_failure_consumes_otp :
  let absent := Fixture.withOtps [Fixture.otp 1 "a@x.com" "123456" 9000 false 1000]
                  emptyDatabase in
  let verified := Fixture.withOtps [Fixture.otp 1 "a@x.com" "123456" 9000 false 1000]
                    (Fixture.withUsers [Fixture.alice true]) in
  let answer1 := AuthService.verifyEmail Fixture.bcrypt_compare
                   "a@x.com" "123456" 5000 5000 5000 absent in
  let answer2 := AuthService.verifyEmail Fixture.bcrypt_compare
                   "a@x.com" "123456" 5000 5000 5000 verified in
  fst answer1 = Rejected (NotFoundException "User not found")
  /\ map Otp.used (rows (otpRepository absent)) = [false]
  /\ map Otp.used (rows (otpRepository (snd answer1))) = [true]
  /\ fst answer2 = Rejected (BadRequestException "Email is already verified")
  /\ map Otp.used (rows (otpRepository verified)) = [false]
  /\ map Otp.used (rows (otpRepository (snd answer2))) = [true].
Proof. repeat split; reflexivity. Qed.

(** C6, amended.  A failing [verifyEmail] never writes to the users or the
    sessions and creates no OTP row.  When it fails because the OTP is
    invalid or expired, the OTP table is left as the expiry sweep leaves
    it, with no row marked used.  When it fails because the user is absent
    or already verified, the OTP check has already succeeded: the table is
    swept and the matched row is marked used. *)
Theorem verifyEmail_failure_writes (bcrypt_compare : string -> string -> bool)
    (email otp : string) (sweptAt now updatedAt : Date) (db : Database) (e : Exception) :
  let answer := AuthService.verifyEmail bcrypt_compare email otp sweptAt now updatedAt db in
  fst answer = Rejected e ->
  usersRepository (snd answer) = usersRepository db
  /\ refreshTokenRepository (snd answer) = refreshTokenRepository db
  /\ ((e = BadRequestException "Invalid or expired OTP"
       /\ snd answer = snd (OtpService.cleanupExpiredOtps sweptAt db))
      \/
      ((e = NotFoundException "User not found"
        \/ e = BadRequestException "Email is already verified")
       /\ exists entity,
            In entity (rows (otpRepository (snd (OtpService.cleanupExpiredOtps sweptAt db))))
            /\ Otp.email entity = email
            /\ Otp.used entity = false
            /\ bcrypt_compare otp (Otp.hashedOtp entity) = true
            /\ otpRepository (snd answer)
               = fst (Repo.update (fun o => Otp.id o =? Otp.id entity) Otp.setUsed
                        (otpRepository (snd (OtpService.cleanupExpiredOtps sweptAt db)))))).
Proof.
  cbv zeta.
  rewrite verifyEmail_cases, verifyEmailOtp_cases, cleanupExpiredOtps_swept.
  cbn [snd].
  destruct (Repo.findOneDesc (pendingFor email) Otp.createdAt
              (otpRepository (swept sweptAt db))) as [entity|] eqn:Efind.
  - apply findOneDesc_Some in Efind. destruct Efind as [Hin Hp].
    destruct (Otp.expiresAt entity <? now).
    + cbn [fst snd]. intros Hfail. injection Hfail as <-.
      repeat split. left. split; reflexivity.
    + destruct (bcrypt_compare otp (Otp.hashedOtp entity)) eqn:Ecmp.
      * assert (Hent : exists entity0,
                  In entity0 (rows (otpRepository (swept sweptAt db)))
                  /\ Otp.email entity0 = email
                  /\ Otp.used entity0 = false
                  /\ bcrypt_compare otp (Otp.hashedOtp entity0) = true
                  /\ otpRepository (consumed (Otp.id entity) (swept sweptAt db))
                     = fst (Repo.update (fun o => Otp.id o =? Otp.id entity0) Otp.setUsed
                              (otpRepository (swept sweptAt db)))).
        { exists entity. unfold pendingFor in Hp.
          apply andb_prop in Hp. destruct Hp as [Hp Hu].
          apply andb_prop in Hp. destruct Hp as [He _].
          apply String.eqb_eq in He. apply negb_true_iff in Hu.
          repeat split; auto. }
        change (usersRepository (consumed (Otp.id entity) (swept sweptAt db)))
          with (usersRepository db).
        destruct (Repo.findOne _ (usersRepository db)) as [u|] eqn:Eu.
        -- destruct (User.emailVerified u).
           ++ cbn [fst snd]. intros Hfail. injection Hfail as <-.
              repeat split. right. split; [now right|exact Hent].
           ++ apply find_some in Eu. destruct Eu as [Hu _].
              destruct (UsersService_verifyEmail_resolves
                          (consumed (Otp.id entity) (swept sweptAt db)) u updatedAt Hu)
                as [v Hv].
              rewrite Hv. cbn [fst]. discriminate.
        -- cbn [fst snd]. intros Hfail. injection Hfail as <-.
           repeat split. right. split; [now left|exact Hent].
      * cbn [fst snd]. intros Hfail. injection Hfail as <-.
        repeat split. left. split; reflexivity.
  - cbn [fst snd]. intros Hfail. injection Hfail as <-.
    repeat split. left. split; reflexivity.
Qed.

Lemma verifyEmail_failure_writes_witness :
  let db := Fixture.withOtps [Fixture.otp 1 "a@x.com" "123456" 9000 false 1000]
              (Fixture.withUsers [Fixture.alice false]) in
  usersRepository
    (snd (AuthService.verifyEmail Fixture.bcrypt_compare
            "a@x.com" "000000" 5000 5000 5000 db))
  = usersRepository db.
Proof.
  cbv zeta.
  apply (verifyEmail_failure_writes Fixture.bcrypt_compare "a@x.com" "000000"
           5000 5000 5000
           (Fixture.withOtps [Fixture.otp 1 "a@x.com" "123456" 9000 false 1000]
              (Fixture.withUsers [Fixture.alice false]))
           (BadRequestException "Invalid or expired OTP")).
  reflexivity.
Defined.

(** ** One call, table by table *)

Ltac unfold_services :=
  unfold handle,
    AuthService.register, AuthService.verifyEmail, AuthService.resendOtp,
    AuthService.login, AuthService.refreshToken, AuthService.findTokenEntity,
    AuthService.rotateTokenEntity, AuthService.generateTokens, AuthService.logout,
    AuthService.logoutFromAllDevices, AuthService.revokeSession,
    AuthService.cleanupExpiredRefreshTokens,
    OtpService.createEmailVerificationOtp, OtpService.invalidatePendingOtps,
    OtpService.storeOtp, saveOtp, OtpService.verifyEmailOtp,
    OtpService.cleanupExpiredOtps, OtpService.verifyOtp,
    UsersService.findByEmail, UsersService.findByEmailWithPassword,
    UsersService.create, UsersService.verifyEmail, UsersService.findOne,
    sendMail, tryCatch, bind, ret, throw,
    queryUsers, queryOtps, queryRefreshTokens,
    execUsers, execOtps, execRefreshTokens,
    Repo.update, Repo.delete, Repo.insert.

Ltac branch :=
  match goal with
  | |- context [match Repo.findOne ?c ?r with _ => _ end] =>
      destruct (Repo.findOne c r) eqn:?
  | |- context [match Repo.findOneDesc ?c ?k ?r with _ => _ end] =>
      destruct (Repo.findOneDesc c k r) eqn:?
  | |- context [match ?x with _ => _ end] =>
      lazymatch x with
      | context [match _ with _ => _ end] => fail
      | _ => destruct x eqn:?
      end
  end.

Ltac crunch :=
  unfold_services;
  cbn [fst snd usersRepository otpRepository refreshTokenRepository
       setUsers setOtps setRefreshTokens rows nextId];
  repeat (branch;
          cbn [fst snd usersRepository otpRepository refreshTokenRepository
               setUsers setOtps setRefreshTokens rows nextId option_map negb]).

Lemma handle_otps (bcrypt_hash : string -> Z -> string)
    (bcrypt_compare : string -> string -> bool) (sha256 : string -> string)
    (config : Config) (LocalTZA : Z -> bool -> Z) (q : Request) (db : Database) :
  otps_step (rows (otpRepository db))
    (rows (otpRepository (handle bcrypt_hash bcrypt_compare sha256 config LocalTZA q db))).
Proof.
  destruct q; crunch.
  all: try (apply otps_same; reflexivity).
  all: try (eapply otps_swept; reflexivity).
  all: try (eapply otps_marked; reflexivity).
  all: try (eapply otps_issued; [| |reflexivity]; reflexivity).
Qed.

Lemma handle_tokens (bcrypt_hash : string -> Z -> string)
    (bcrypt_compare : string -> string -> bool) (sha256 : string -> string)
    (config : Config) (LocalTZA : Z -> bool -> Z) (q : Request) (db : Database) :
  tokens_step (map sha256 (drawn q)) (rows (refreshTokenRepository db))
    (rows (refreshTokenRepository (handle bcrypt_hash bcrypt_compare sha256 config LocalTZA q db))).
Proof.
  destruct q; crunch.
  all: try (apply tokens_same; reflexivity).
  all: try (eapply tokens_revoked; reflexivity).
  all: try (eapply tokens_deleted; reflexivity).
  all: try (eapply tokens_minted; [|reflexivity]; reflexivity).
  all: try (eapply tokens_rotated; [|reflexivity]; reflexivity).
Qed.

Lemma run_app (bcrypt_hash : string -> Z -> string)
    (bcrypt_compare : string -> string -> bool) (sha256 : string -> string)
    (config : Config) (LocalTZA : Z -> bool -> Z) (h1 h2 : list Request) (db : Database) :
  run bcrypt_hash bcrypt_compare sha256 config LocalTZA db (h1 ++ h2)
  = run bcrypt_hash bcrypt_compare sha256 config LocalTZA
      (run bcrypt_hash bcrypt_compare sha256 config LocalTZA db h1) h2.
Proof.
  revert db. induction h1 as [|q h1 IH]; intros db; simpl; [reflexivity|apply IH].
Qed.

(** ** The OTP invariant *)

Lemma filter_length_le {A} (f g : A -> bool) (l : list A) :
  (forall x, f x = true -> g x = true) ->
  (List.length (filter f l) <= List.length (filter g l))%nat.
Proof.
  intros H. induction l as [|a l IH]; simpl; [lia|].
  destruct (f a) eqn:Ef.
  - rewrite (H a Ef). simpl. lia.
  - destruct (g a); simpl; lia.
Qed.

Lemma unused_filter_le (email : string) (purpose : OtpType) (keep : Otp.t -> bool)
    (l : list Otp.t) :
  (List.length (unused email purpose (filter keep l))
   <= List.length (unused email purpose l))%nat.
Proof.
  unfold unused. induction l as [|a l IH]; simpl; [lia|].
  destruct (keep a); simpl;
    destruct ((Otp.email a =? email)%string && OtpType_eqb (Otp.type a) purpose
              && negb (Otp.used a)); simpl; lia.
Qed.

Lemma unused_marked_le (email : string) (purpose : OtpType) (c : Otp.t -> bool)
    (l : list Otp.t) :
  (List.length (unused email purpose
                  (map (fun x => if c x then Otp.setUsed x else x) l))
   <= List.length (unused email purpose l))%nat.
Proof.
  unfold unused. induction l as [|a l IH]; simpl; [lia|].
  destruct (c a); simpl.
  - rewrite andb_false_r. simpl.
    destruct ((Otp.email a =? email)%string && OtpType_eqb (Otp.type a) purpose
              && negb (Otp.used a)); simpl; lia.
  - destruct ((Otp.email a =? email)%string && OtpType_eqb (Otp.type a) purpose
              && negb (Otp.used a)); simpl; lia.
Qed.

Lemma unused_marked_pending (email : string) (l : list Otp.t) :
  unused email email_verification
    (map (fun x => if pendingFor email x then Otp.setUsed x else x) l) = [].
Proof.
  unfold unused. induction l as [|a l IH]; simpl; [reflexivity|].
  destruct (pendingFor email a) eqn:Ep; simpl.
  - rewrite andb_false_r. exact IH.
  - unfold pendingFor in Ep. rewrite Ep. exact IH.
Qed.

Lemma OtpType_eqb_eq (a b : OtpType) : OtpType_eqb a b = true <-> a = b.
Proof. destruct a, b; simpl; split; congruence. Qed.

Lemma otps_step_singlePending (l l' : list Otp.t) :
  otps_step l l' -> singlePending l -> singlePending l'.
Proof.
  intros Hstep Hinv email purpose.
  specialize (Hinv email purpose).
  destruct Hstep as [-> | keep -> | c keep -> | email0 keep o He Ht ->].
  - exact Hinv.
  - pose proof (unused_filter_le email purpose keep l). lia.
  - pose proof (unused_marked_le email purpose c (filter keep l)).
    pose proof (unused_filter_le email purpose keep l). lia.
  - unfold unused. rewrite filter_app, length_app. fold (unused email purpose).
    simpl.
    destruct ((Otp.email o =? email)%string && OtpType_eqb (Otp.type o) purpose
              && negb (Otp.used o)) eqn:Eo.
    + apply andb_prop in Eo. destruct Eo as [Eo _].
      apply andb_prop in Eo. destruct Eo as [E1 E2].
      apply String.eqb_eq in E1. apply OtpType_eqb_eq in E2.
      rewrite E1 in He. rewrite E2 in Ht. subst email0 purpose.
      fold (unused email email_verification
              (map (fun x => if pendingFor email x then Otp.setUsed x else x)
                   (filter keep l))).
      rewrite unused_marked_pending. simpl. lia.
    + simpl.
      pose proof (unused_marked_le email purpose (pendingFor email0) (filter keep l)).
      pose proof (unused_filter_le email purpose keep l).
      fold (unused email purpose
              (map (fun x => if pendingFor email0 x then Otp.setUsed x else x)
                   (filter keep l))).
      lia.
Qed.

Lemma run_singlePending (bcrypt_hash : string -> Z -> string)
    (bcrypt_compare : string -> string -> bool) (sha256 : string -> string)
    (config : Config) (LocalTZA : Z -> bool -> Z) (history : list Request) (db : Database) :
  singlePending (rows (otpRepository db)) ->
  singlePending (rows (otpRepository
                         (run bcrypt_hash bcrypt_compare sha256 config LocalTZA db history))).
Proof.
  revert db. induction history as [|q history IH]; intros db H; simpl; [exact H|].
  apply IH. eapply otps_step_singlePending; [apply handle_otps|exact H].
Qed.



(** The claim of C5 fails for two issuances that overlap: when each caller
    has marked the email's unused rows before the other saves, both new
    rows are stored unused.  Served one after the other, the same two
    calls leave one. *)
Lemma racingIssuance_two_outstanding :
  let db := Fixture.withUsers [Fixture.alice false] in
  let racing :=
    racingIssuance Fixture.bcrypt_hash Fixture.config
      "a@x.com" (Some 1) 1000 1000 1000 1000 (Fixture.randomFor 123456)
      "a@x.com" (Some 1) 1001 1001 1001 1001 (Fixture.randomFor 100777)
      db in
  let serial :=
    run Fixture.bcrypt_hash Fixture.bcrypt_compare Fixture.sha256 Fixture.config
      Fixture.LocalTZA db
      [CreateEmailVerificationOtp "a@x.com" (Some 1) 1000 1000 1000 1000
         (Fixture.randomFor 123456);
       CreateEmailVerificationOtp "a@x.com" (Some 1) 1001 1001 1001 1001
         (Fixture.randomFor 100777)] in
  fst racing = (Resolved "123456", Resolved "100777")
  /\ map Otp.used (rows (otpRepository (snd racing))) = [false; false]
  /\ List.length (outstanding "a@x.com" email_verification 5000 (snd racing)) = 2%nat
  /\ map Otp.used (rows (otpRepository serial)) = [true; false]
  /\ List.length (outstanding "a@x.com" email_verification 5000 serial) = 1%nat.
Proof. repeat split; vm_compute; reflexivity. Qed.



(** ** Sessions: distinct hashes and spent tokens *)

Lemma NoDup_app_disjoint {A} (l1 l2 : list A) (x : A) :
  NoDup (l1 ++ l2) -> In x l1 -> ~ In x l2.
Proof.
  induction l1 as [|a l1 IH]; simpl; intros Hnd Hin; [contradiction|].
  inversion Hnd as [|? ? Hna Hrest]; subst.
  destruct Hin as [<-|Hin].
  - intros Hx. apply Hna. apply in_or_app. now right.
  - now apply IH.
Qed.

Lemma NoDup_app_drop_middle {A} (l1 l2 l3 : list A) :
  NoDup (l1 ++ l2 ++ l3) -> NoDup (l1 ++ l3).
Proof.
  induction l2 as [|a l2 IH]; simpl; intros H; [exact H|].
  apply IH. eapply NoDup_remove_1. exact H.
Qed.

Lemma NoDup_map_same {A B} (f : A -> B) (l : list A) (x y : A) :
  NoDup (map f l) -> In x l -> In y l -> f x = f y -> x = y.
Proof.
  induction l as [|a l IH]; simpl; intros Hnd Hx Hy E; [contradiction|].
  inversion Hnd as [|? ? Hna Hrest]; subst.
  destruct Hx as [<-|Hx], Hy as [<-|Hy]; auto.
  - exfalso. apply Hna. rewrite E. now apply in_map.
  - exfalso. apply Hna. rewrite <- E. now apply in_map.
Qed.

Lemma NoDup_map_filter {A B} (f : A -> B) (keep : A -> bool) (l : list A) (rest : list B) :
  NoDup (map f l ++ rest) -> NoDup (map f (filter keep l) ++ rest).
Proof.
  induction l as [|a l IH]; simpl; intros H; [exact H|].
  inversion H as [|? ? Hna Hrest]; subst.
  destruct (keep a); simpl; [|now apply IH].
  constructor; [|now apply IH].
  intros Hin. apply Hna.
  apply in_app_or in Hin. apply in_or_app.
  destruct Hin as [Hin|Hin]; [left|now right].
  apply in_map_iff in Hin. destruct Hin as (x & <- & Hx).
  apply in_map. apply filter_In in Hx. tauto.
Qed.

Lemma find_nothing {A} (criteria : A -> bool) (l : list A) :
  (forall x, In x l -> criteria x = false) -> List.find criteria l = None.
Proof.
  induction l as [|a l IH]; simpl; intros H; [reflexivity|].
  rewrite (H a (or_introl eq_refl)). apply IH. intros x Hx. apply H. now right.
Qed.

Lemma hashedToken_after_revocations (c : RefreshToken.t -> bool) (now : Date)
    (l : list RefreshToken.t) :
  map RefreshToken.hashedToken
    (map (fun x => if c x then RefreshToken.setRevoked now x else x) l)
  = map RefreshToken.hashedToken l.
Proof.
  rewrite map_map. apply map_ext. intros x. now destruct (c x).
Qed.

Lemma tokens_step_NoDup (fresh : list string) (l l' : list RefreshToken.t)
    (future : list string) :
  tokens_step fresh l l' ->
  NoDup (map RefreshToken.hashedToken l ++ fresh ++ future) ->
  NoDup (map RefreshToken.hashedToken l' ++ future).
Proof.
  intros Hstep Hnd.
  destruct Hstep as [-> | c now -> | r -> -> | c now r -> -> | keep ->].
  - eapply NoDup_app_drop_middle; exact Hnd.
  - rewrite hashedToken_after_revocations. eapply NoDup_app_drop_middle; exact Hnd.
  - rewrite map_app. simpl. now rewrite <- app_assoc.
  - rewrite map_app, hashedToken_after_revocations. simpl. now rewrite <- app_assoc.
  - apply NoDup_map_filter. eapply NoDup_app_drop_middle; exact Hnd.
Qed.

Lemma tokens_step_spent (fresh : list string) (l l' : list RefreshToken.t) (h : string) :
  tokens_step fresh l l' -> ~ In h fresh -> spent h l -> spent h l'.
Proof.
  intros Hstep Hfresh Hspent.
  assert (Hrev : forall (c : RefreshToken.t -> bool) (now : Date) (r : RefreshToken.t),
             In r (map (fun x => if c x then RefreshToken.setRevoked now x else x) l) ->
             RefreshToken.hashedToken r = h -> RefreshToken.revoked r = true).
  { intros c now r Hin Hh. apply in_map_iff in Hin. destruct Hin as (x & E & Hx).
    destruct (c x); subst r; [reflexivity|]. now apply Hspent. }
  destruct Hstep as [-> | c now -> | r0 -> -> | c now r0 -> -> | keep ->]; intros r Hin Hh.
  - now apply Hspent.
  - now apply (Hrev c now).
  - apply in_app_or in Hin. destruct Hin as [Hin|[<-|[]]]; [now apply Hspent|].
    exfalso. apply Hfresh. left. exact Hh.
  - apply in_app_or in Hin. destruct Hin as [Hin|[<-|[]]]; [now apply (Hrev c now)|].
    exfalso. apply Hfresh. left. exact Hh.
  - apply filter_In in Hin. apply Hspent; tauto.
Qed.

Section Histories.
Variable bcrypt_hash : string -> Z -> string.
Variable bcrypt_compare : string -> string -> bool.
Variable sha256 : string -> string.
Variable config : Config.
Variable LocalTZA : Z -> bool -> Z.

Let run' := run bcrypt_hash bcrypt_compare sha256 config LocalTZA.

Lemma run_NoDup (history : list Request) (db : Database) (future : list string) :
  NoDup (hashes db ++ map sha256 (flat_map drawn history) ++ future) ->
  NoDup (hashes (run' db history) ++ future).
Proof.
  revert db. induction history as [|q history IH]; intros db H; simpl in *; [exact H|].
  apply IH. unfold hashes.
  apply (tokens_step_NoDup (map sha256 (drawn q)) (rows (refreshTokenRepository db))).
  - apply handle_tokens.
  - rewrite map_app, <- app_assoc in H. exact H.
Qed.

Lemma run_spent (history : list Request) (db : Database) (h : string) :
  spent h (rows (refreshTokenRepository db)) ->
  ~ In h (map sha256 (flat_map drawn history)) ->
  spent h (rows (refreshTokenRepository (run' db history))).
Proof.
  revert db. induction history as [|q history IH]; intros db Hs Hf; simpl in *;
    [exact Hs|].
  rewrite map_app in Hf.
  apply IH.
  - apply (tokens_step_spent (map sha256 (drawn q)) (rows (refreshTokenRepository db))).
    + apply handle_tokens.
    + intros Hin. apply Hf. apply in_or_app. now left.
    + exact Hs.
  - intros Hin. apply Hf. apply in_or_app. now right.
Qed.

(** A refresh of a token whose rows are all revoked is refused and
    writes nothing. *)
Lemma refreshToken_spent_refused (presented : string)
    (userAgent ipAddress : option string) (now : Date) (secret : string)
    (db : Database) :
  spent (sha256 presented) (rows (refreshTokenRepository db)) ->
  AuthService.refreshToken sha256 config LocalTZA presented userAgent ipAddress now secret db
  = (Rejected (UnauthorizedException "Invalid refresh token"), db).
Proof.
  intros Hs.
  unfold AuthService.refreshToken, AuthService.findTokenEntity, bind,
    queryRefreshTokens, Repo.findOne, AuthService.hashToken.
  rewrite find_nothing; [reflexivity|].
  intros x Hx.
  destruct (RefreshToken.hashedToken x =? sha256 presented)%string eqn:E;
    [|reflexivity].
  apply String.eqb_eq in E. now rewrite (Hs x Hx E).
Qed.

(** The writes of a rotation, on the entity [t] read with owner [u]. *)
Lemma rotateTokenEntity_cases (t : RefreshToken.t) (owner : option User.t)
    (userAgent ipAddress : option string) (now : Date) (secret : string)
    (db : Database) :
  AuthService.rotateTokenEntity sha256 config LocalTZA (Some (t, owner))
    userAgent ipAddress now secret db
  = let revoked :=
      map (fun x => if RefreshToken.id x =? RefreshToken.id t
                    then RefreshToken.setRevoked now x else x)
          (rows (refreshTokenRepository db)) in
    let counter := nextId (refreshTokenRepository db) in
    if RefreshToken.expiresAt t <? now
    then (Rejected (UnauthorizedException "Refresh token expired"),
          setRefreshTokens (mkRepository revoked counter) db)
    else
      match owner with
      | None => (Rejected (Error "Cannot read properties of null (reading 'id')"),
                 setRefreshTokens (mkRepository revoked counter) db)
      | Some u =>
          (Resolved
             (mkAuthResult (User.withoutPassword u)
                (jwtSign (JWT_SECRET config)
                   (mkJwtPayload (User.id u) (User.email u) (User.emailVerified u))
                   now (JWT_ACCESS_EXPIRES_IN config))
                secret),
           setRefreshTokens
             (mkRepository
                (revoked ++
                 [RefreshToken.mk counter (sha256 secret) (JsDate.addDays LocalTZA 30 now) false
                    userAgent ipAddress now now (User.id u)])
                (counter + 1))
             db)
      end.
Proof.
  unfold AuthService.rotateTokenEntity.
  destruct (RefreshToken.expiresAt t <? now); [reflexivity|].
  destruct owner as [u|]; reflexivity.
Qed.

Lemma refreshToken_cases (presented : string)
    (userAgent ipAddress : option string) (now : Date) (secret : string)
    (db : Database) :
  AuthService.refreshToken sha256 config LocalTZA presented userAgent ipAddress now secret db
  = match Repo.findOne
            (fun t => (RefreshToken.hashedToken t =? sha256 presented)%string
                      && negb (RefreshToken.revoked t))
            (refreshTokenRepository db) with
    | None => (Rejected (UnauthorizedException "Invalid refresh token"), db)
    | Some t =>
        AuthService.rotateTokenEntity sha256 config LocalTZA
          (Some (t, option_map User.withoutPassword
                      (Repo.findOne (fun u => User.id u =? RefreshToken.userId t)
                         (usersRepository db))))
          userAgent ipAddress now secret db
    end.
Proof.
  unfold AuthService.refreshToken, AuthService.findTokenEntity, bind,
    queryRefreshTokens, queryUsers, ret, AuthService.hashToken.
  destruct (Repo.findOne _ (refreshTokenRepository db)); reflexivity.
Qed.

(** A rotation that succeeds found an unrevoked row with the token's
    hash, revoked the rows with its id and appended the successor. *)
Lemma refreshToken_resolved (presented : string)
    (userAgent ipAddress : option string) (now : Date) (secret : string)
    (db : Database) (result : AuthResult) :
  fst (AuthService.refreshToken sha256 config LocalTZA presented userAgent ipAddress
         now secret db) = Resolved result ->
  exists t successor,
    In t (rows (refreshTokenRepository db))
    /\ RefreshToken.hashedToken t = sha256 presented
    /\ RefreshToken.revoked t = false
    /\ RefreshToken.hashedToken successor = sha256 secret
    /\ rows (refreshTokenRepository
               (snd (AuthService.refreshToken sha256 config LocalTZA presented
                       userAgent ipAddress now secret db)))
       = (map (fun x => if RefreshToken.id x =? RefreshToken.id t
                        then RefreshToken.setRevoked now x else x)
              (rows (refreshTokenRepository db))
          ++ [successor])%list.
Proof.
  rewrite refreshToken_cases.
  destruct (Repo.findOne _ (refreshTokenRepository db)) as [t|] eqn:Ef;
    [|discriminate].
  apply find_some in Ef. destruct Ef as [Hin Hc].
  apply andb_prop in Hc. destruct Hc as [Hh Hr].
  apply String.eqb_eq in Hh. apply negb_true_iff in Hr.
  rewrite rotateTokenEntity_cases. cbv zeta.
  destruct (RefreshToken.expiresAt t <? now); [discriminate|].
  destruct (option_map User.withoutPassword _) as [u|]; [|discriminate].
  intros _. exists t. eexists.
  split; [exact Hin|]. split; [exact Hh|]. split; [exact Hr|].
  split; [|reflexivity]. reflexivity.
Qed.

(** C1.  Calls are served one after the other, starting from the empty
    database, and the refresh secrets they draw have pairwise distinct
    hashes.  Once a rotation of token [T] has succeeded, a rotation of
    [T] after any further calls is refused with [Unauthorized] and writes
    nothing: no unrevoked row with the hash of [T] is left to match. *)
Theorem refreshToken_single_use (before after : list Request) (T : string)
    (userAgent ipAddress : option string) (now : Date) (secret : string)
    (userAgent' ipAddress' : option string) (now' : Date) (secret' : string) :
  let rotation := Refresh T userAgent ipAddress now secret in
  NoDup (map sha256 (flat_map drawn (before ++ rotation :: after))) ->
  (exists result,
     fst (AuthService.refreshToken sha256 config LocalTZA T userAgent ipAddress now secret
            (run' emptyDatabase before)) = Resolved result) ->
  AuthService.refreshToken sha256 config LocalTZA T userAgent' ipAddress' now' secret'
    (run' emptyDatabase (before ++ rotation :: after))
  = (Rejected (UnauthorizedException "Invalid refresh token"),
     run' emptyDatabase (before ++ rotation :: after)).
Proof.
  cbv zeta. intros Hnd [result Hok].
  apply refreshToken_spent_refused.
  unfold run'. rewrite run_app. cbn [run]. fold run'.
  set (db := run' emptyDatabase before) in *.
  rewrite flat_map_app, map_app in Hnd. simpl in Hnd.
  assert (Hdb : NoDup (hashes db ++ sha256 secret
                         :: map sha256 (flat_map drawn after))).
  { apply (run_NoDup before emptyDatabase). exact Hnd. }
  destruct (refreshToken_resolved _ _ _ _ _ _ _ Hok)
    as (t & successor & Hin & Hh & Hr & Hsucc & Hrows).
  assert (HT : In (sha256 T) (hashes db)).
  { unfold hashes. rewrite <- Hh. now apply in_map. }
  pose proof (NoDup_app_disjoint _ _ _ Hdb HT) as Hout.
  apply run_spent.
  - change (spent (sha256 T)
              (rows (refreshTokenRepository
                       (snd (AuthService.refreshToken sha256 config LocalTZA T
                               userAgent ipAddress now secret db))))).
    rewrite Hrows.
    intros r Hr' Hhr.
    apply in_app_or in Hr'. destruct Hr' as [Hr'|[<-|[]]].
    + apply in_map_iff in Hr'. destruct Hr' as (x & E & Hx).
      assert (Hxh : RefreshToken.hashedToken x = sha256 T).
      { destruct (RefreshToken.id x =? RefreshToken.id t); subst r; exact Hhr. }
      assert (x = t).
      { apply (NoDup_map_same RefreshToken.hashedToken
                 (rows (refreshTokenRepository db))); auto.
        - apply NoDup_app_remove_r in Hdb. exact Hdb.
        - congruence. }
      subst x. rewrite Z.eqb_refl in E. now subst r.
    + exfalso. apply Hout. left. congruence.
  - intros Hin'. apply Hout. now right.
Qed.
End Histories.

Lemma refreshToken_single_use_witness :
  let before :=
    [Register "a@x.com" "Password1" (Some "A") 1000 1000 1000 1000 1000 (Fixture.randomFor 123456) true;
     VerifyEmail "a@x.com" "123456" 2000 2000 2000;
     Login "a@x.com" "Password1" (Some "curl") None 3000 "s1"] in
  let after :=
    [Login "a@x.com" "Password1" (Some "curl") None 5000 "s3";
     Logout "s3" 6000] in
  let history := (before ++ Refresh "s1" (Some "curl") None 4000 "s2" :: after)%list in
  let db := run Fixture.bcrypt_hash Fixture.bcrypt_compare Fixture.sha256 Fixture.config Fixture.LocalTZA
              emptyDatabase history in
  AuthService.refreshToken Fixture.sha256 Fixture.config Fixture.LocalTZA "s1" (Some "curl") None 7000 "s4" db
  = (Rejected (UnauthorizedException "Invalid refresh token"), db).
Proof.
  cbv zeta.
  apply (refreshToken_single_use Fixture.bcrypt_hash Fixture.bcrypt_compare
           Fixture.sha256 Fixture.config Fixture.LocalTZA
           [Register "a@x.com" "Password1" (Some "A") 1000 1000 1000 1000 1000 (Fixture.randomFor 123456) true;
            VerifyEmail "a@x.com" "123456" 2000 2000 2000;
            Login "a@x.com" "Password1" (Some "curl") None 3000 "s1"]
           [Login "a@x.com" "Password1" (Some "curl") None 5000 "s3";
            Logout "s3" 6000]
           "s1" (Some "curl") None 4000 "s2" (Some "curl") None 7000 "s4").
  - simpl. repeat constructor; simpl; intuition discriminate.
  - eexists. vm_compute. reflexivity.
Defined.

(** ** Rotation under a race *)

Section Race.
Variable sha256 : string -> string.
Variable config : Config.
Variable LocalTZA : Z -> bool -> Z.

Lemma findTokenEntity_reads (presented : string) (db : Database) :
  exists entity, AuthService.findTokenEntity sha256 presented db = (Resolved entity, db).
Proof.
  unfold AuthService.findTokenEntity, bind, queryRefreshTokens, queryUsers, ret.
  destruct (Repo.findOne _ (refreshTokenRepository db)); eexists; reflexivity.
Qed.

(** The answer of the writes depends on the entity read, not on the
    store they are applied to. *)
Lemma rotateTokenEntity_answer (entity : option (RefreshToken.t * option User.t))
    (userAgent ipAddress : option string) (now : Date) (secret : string)
    (db db' : Database) :
  fst (AuthService.rotateTokenEntity sha256 config LocalTZA entity
         userAgent ipAddress now secret db)
  = fst (AuthService.rotateTokenEntity sha256 config LocalTZA entity
           userAgent ipAddress now secret db').
Proof.
  destruct entity as [[t owner]|]; [|reflexivity].
  rewrite !rotateTokenEntity_cases. cbv zeta.
  destruct (RefreshToken.expiresAt t <? now); [reflexivity|].
  destruct owner; reflexivity.
Qed.

(** C9, amended.  A rotation looks the row up among the unrevoked rows
    with the token's hash, then marks the rows with its id revoked by an
    update that is not conditioned on the flag and whose affected count
    is not read, and inserts the successor in a further write.  So a
    rotation that runs after another has revoked every row of the token
    is refused with "Invalid refresh token" and writes nothing; and two
    rotations that would each succeed alone both succeed, with the same
    answers, when their lookups both precede the updates. *)
Theorem rotation_reads_then_writes (presented : string)
    (userAgent1 ipAddress1 : option string) (now1 : Date) (secret1 : string)
    (userAgent2 ipAddress2 : option string) (now2 : Date) (secret2 : string)
    (db : Database) :
  (spent (sha256 presented) (rows (refreshTokenRepository db)) ->
   AuthService.refreshToken sha256 config LocalTZA presented
     userAgent1 ipAddress1 now1 secret1 db
   = (Rejected (UnauthorizedException "Invalid refresh token"), db))
  /\
  (forall answer1 answer2,
     fst (AuthService.refreshToken sha256 config LocalTZA presented
            userAgent1 ipAddress1 now1 secret1 db) = Resolved answer1 ->
     fst (AuthService.refreshToken sha256 config LocalTZA presented
            userAgent2 ipAddress2 now2 secret2 db) = Resolved answer2 ->
     fst (racingRefresh sha256 config LocalTZA presented
            userAgent1 ipAddress1 now1 secret1
            userAgent2 ipAddress2 now2 secret2 db)
     = (Resolved answer1, Resolved answer2)).
Proof.
  split.
  - apply refreshToken_spent_refused.
  - intros answer1 answer2 H1 H2.
    unfold AuthService.refreshToken, bind in H1, H2.
    unfold racingRefresh.
    destruct (findTokenEntity_reads presented db) as [entity E].
    rewrite E in H1, H2. rewrite E, E.
    destruct (AuthService.rotateTokenEntity sha256 config LocalTZA entity
                userAgent1 ipAddress1 now1 secret1 db) as [a1 db3] eqn:R1.
    cbn [fst] in H1. subst a1.
    pose proof (rotateTokenEntity_answer entity userAgent2 ipAddress2 now2 secret2
                  db3 db) as Hsame.
    destruct (AuthService.rotateTokenEntity sha256 config LocalTZA entity
                userAgent2 ipAddress2 now2 secret2 db3) as [a2 db4].
    cbn [fst] in Hsame |- *. rewrite Hsame, H2. reflexivity.
Qed.
End Race.

(** The claim of C9 fails on two refreshes of one valid token whose
    lookups both run before either update: both succeed, and both
    successors are left unrevoked. *)
Lemma racingRefresh_both_succeed :
  let db := Fixture.withSessions [Fixture.session 1 "tok" 9000 false 1]
              (Fixture.withUsers [Fixture.alice true]) in
  exists answer1 answer2 db',
    racingRefresh Fixture.sha256 Fixture.config Fixture.LocalTZA "tok"
      None None 5000 "s1" None None 5001 "s2" db
    = (Resolved answer1, Resolved answer2, db')
    /\ refreshToken answer1 = "s1"
    /\ refreshToken answer2 = "s2"
    /\ map RefreshToken.hashedToken (rows (refreshTokenRepository db'))
       = [Fixture.sha256 "tok"; Fixture.sha256 "s1"; Fixture.sha256 "s2"]
    /\ map RefreshToken.revoked (rows (refreshTokenRepository db'))
       = [true; false; false].
Proof.
  cbv zeta. eexists. eexists. eexists.
  split; [vm_compute; reflexivity|].
  repeat split; reflexivity.
Qed.

Lemma rotation_reads_then_writes_witness :
  let db := Fixture.withSessions [Fixture.session 1 "tok" 9000 true 1]
              (Fixture.withUsers [Fixture.alice true]) in
  AuthService.refreshToken Fixture.sha256 Fixture.config Fixture.LocalTZA "tok" None None 5000 "s1" db
  = (Rejected (UnauthorizedException "Invalid refresh token"), db).
Proof.
  cbv zeta.
  apply (proj1 (rotation_reads_then_writes Fixture.sha256 Fixture.config Fixture.LocalTZA "tok"
                  None None 5000 "s1" None None 5001 "s2"
                  (Fixture.withSessions [Fixture.session 1 "tok" 9000 true 1]
                     (Fixture.withUsers [Fixture.alice true])))).
  intros r [<-|[]] _. reflexivity.
Defined.

(** * Further properties of the services *)

(** ** The OTP ledger: issue, verify, sweep *)

Lemma pendingFor_after_marks (email : string) (l : list Otp.t) (x : Otp.t) :
  In x (map (fun o => if pendingFor email o then Otp.setUsed o else o) l) ->
  pendingFor email x = false.
Proof.
  intros Hin. apply in_map_iff in Hin. destruct Hin as (o & E & _).
  destruct (pendingFor email o) eqn:Ep; subst x; [|exact Ep].
  unfold pendingFor. simpl. apply andb_false_r.
Qed.

(** A verify on a table whose only pending row for the email is its last
    row. *)
Lemma verifyEmailOtp_sole_pending (bcrypt_compare : string -> string -> bool)
    (email otp : string) (sweptAt now : Date) (db : Database)
    (l : list Otp.t) (new : Otp.t) :
  rows (otpRepository db) = (l ++ [new])%list ->
  (forall x, In x l -> pendingFor email x = false) ->
  pendingFor email new = true ->
  OtpService.verifyEmailOtp bcrypt_compare email otp sweptAt now db
  = if Otp.expiresAt new <? sweptAt then (Resolved false, swept sweptAt db)
    else if Otp.expiresAt new <? now then (Resolved false, swept sweptAt db)
    else if bcrypt_compare otp (Otp.hashedOtp new)
         then (Resolved true, consumed (Otp.id new) (swept sweptAt db))
         else (Resolved false, swept sweptAt db).
Proof.
  intros Hrows Hl Hnew.
  rewrite verifyEmailOtp_cases.
  unfold Repo.findOneDesc, swept at 1. cbn [otpRepository setOtps rows].
  rewrite Hrows, !filter_app.
  rewrite (filter_nothing (pendingFor email)
             (filter (fun o => negb (expiredAt sweptAt o)) l)).
  2:{ intros x Hx. apply filter_In in Hx. apply Hl. tauto. }
  cbn [filter app]. unfold expiredAt at 1.
  destruct (Otp.expiresAt new <? sweptAt); cbn [negb filter]; [reflexivity|].
  rewrite Hnew. cbn [Repo.greatest]. reflexivity.
Qed.

Lemma createEmailVerificationOtp_rows (bcrypt_hash : string -> Z -> string)
    (config : Config) (email : string) (userId : option Z)
    (sweptAt checkedAt stampedAt savedAt : Date) (draw : Number.t) (db : Database) :
  references userId (usersRepository db) = true ->
  exists l new,
    rows (otpRepository
            (snd (OtpService.createEmailVerificationOtp bcrypt_hash config email userId
                    sweptAt checkedAt stampedAt savedAt draw db)))
    = (l ++ [new])%list
    /\ (forall x, In x l -> pendingFor email x = false)
    /\ pendingFor email new = true
    /\ Otp.hashedOtp new = bcrypt_hash (OtpService.generateOtp draw) 10
    /\ Otp.expiresAt new = stampedAt + OTP_EXPIRY_MINUTES config * 60 * 1000.
Proof.
  intros Href.
  rewrite createEmailVerificationOtp_effect by exact Href.
  cbn [snd otpRepository setOtps rows].
  eexists. eexists. split; [reflexivity|].
  split; [apply pendingFor_after_marks|].
  split; [|split; reflexivity].
  unfold pendingFor. cbn. now rewrite String.eqb_refl.
Qed.

(** A verify on a table with no pending row for the email. *)
Lemma verifyEmailOtp_none_pending (bcrypt_compare : string -> string -> bool)
    (email otp : string) (sweptAt now : Date) (db : Database) :
  (forall x, In x (rows (otpRepository db)) -> pendingFor email x = false) ->
  OtpService.verifyEmailOtp bcrypt_compare email otp sweptAt now db
  = (Resolved false, swept sweptAt db).
Proof.
  intros Hnone.
  rewrite verifyEmailOtp_cases.
  unfold Repo.findOneDesc, swept at 1. cbn [otpRepository setOtps rows].
  rewrite (filter_nothing (pendingFor email)).
  - reflexivity.
  - intros x Hx. apply filter_In in Hx. apply Hnone. tauto.
Qed.

(** X1.  After an issuance for an email, a verify for that email returns
    true exactly when the issuance was stored (its user id is absent or
    that of a stored user), the new row is unexpired at the sweep and at
    the check, and the presented code matches the new hash: the codes
    issued before no longer count, also when the issuance was refused. *)
Theorem verifyEmailOtp_after_issue (bcrypt_hash : string -> Z -> string)
    (bcrypt_compare : string -> string -> bool) (config : Config)
    (email : string) (userId : option Z)
    (sweptAt checkedAt stampedAt savedAt : Date) (draw : Number.t) (db : Database)
    (otp : string) (sweptAt' now' : Date) :
  let issued := OtpService.createEmailVerificationOtp bcrypt_hash config email userId
                  sweptAt checkedAt stampedAt savedAt draw db in
  let expiresAt := stampedAt + OTP_EXPIRY_MINUTES config * 60 * 1000 in
  fst (OtpService.verifyEmailOtp bcrypt_compare email otp sweptAt' now' (snd issued))
  = Resolved (references userId (usersRepository db)
              && negb (expiresAt <? sweptAt') && negb (expiresAt <? now')
              && bcrypt_compare otp (bcrypt_hash (OtpService.generateOtp draw) 10)).
Proof.
  cbv zeta.
  destruct (references userId (usersRepository db)) eqn:Href.
  - destruct (createEmailVerificationOtp_rows bcrypt_hash config email userId
                sweptAt checkedAt stampedAt savedAt draw db Href)
      as (l & new & Hrows & Hl & Hnew & Hhash & Hexp).
    rewrite (verifyEmailOtp_sole_pending _ _ _ _ _ _ l new Hrows Hl Hnew).
    rewrite Hexp, Hhash. cbn [andb].
    destruct (_ <? sweptAt'); [reflexivity|].
    destruct (_ <? now'); [reflexivity|].
    destruct (bcrypt_compare _ _); reflexivity.
  - rewrite createEmailVerificationOtp_refused by exact Href. cbn [snd andb].
    rewrite verifyEmailOtp_none_pending; [reflexivity|].
    unfold invalidated. cbn [otpRepository setOtps rows].
    apply pendingFor_after_marks.
Qed.

(** X2.  A wrong code does not burn the OTP: after an issuance for no
    user or for a stored user, a verify with a code that does not match
    returns false, and a later verify with the issued code still returns
    true, as long as the row has not expired. *)
Theorem verifyEmailOtp_wrong_then_right (bcrypt_hash : string -> Z -> string)
    (bcrypt_compare : string -> string -> bool) (config : Config)
    (email : string) (userId : option Z)
    (sweptAt checkedAt stampedAt savedAt : Date) (draw : Number.t) (db : Database)
    (wrong : string) (sweptAt1 now1 sweptAt2 now2 : Date) :
  let issued := OtpService.createEmailVerificationOtp bcrypt_hash config email userId
                  sweptAt checkedAt stampedAt savedAt draw db in
  let code := OtpService.generateOtp draw in
  let expiresAt := stampedAt + OTP_EXPIRY_MINUTES config * 60 * 1000 in
  let attempt := OtpService.verifyEmailOtp bcrypt_compare email wrong sweptAt1 now1
                   (snd issued) in
  references userId (usersRepository db) = true ->
  bcrypt_compare wrong (bcrypt_hash code 10) = false ->
  bcrypt_compare code (bcrypt_hash code 10) = true ->
  sweptAt1 <= expiresAt -> sweptAt2 <= expiresAt -> now2 <= expiresAt ->
  fst issued = Resolved code
  /\ fst attempt = Resolved false
  /\ fst (OtpService.verifyEmailOtp bcrypt_compare email code sweptAt2 now2 (snd attempt))
     = Resolved true.
Proof.
  cbv zeta. intros Href Hwrong Hright H1 H2 H3.
  split; [now rewrite createEmailVerificationOtp_effect|].
  destruct (createEmailVerificationOtp_rows bcrypt_hash config email userId
              sweptAt checkedAt stampedAt savedAt draw db Href)
    as (l & new & Hrows & Hl & Hnew & Hhash & Hexp).
  rewrite (verifyEmailOtp_sole_pending _ _ _ _ _ _ l new Hrows Hl Hnew).
  rewrite Hexp, Hhash, Hwrong.
  apply Z.ltb_ge in H1. rewrite H1.
  assert (Hattempt :
            (if stampedAt + OTP_EXPIRY_MINUTES config * 60 * 1000 <? now1
             then (Resolved false,
                   swept sweptAt1
                     (snd (OtpService.createEmailVerificationOtp bcrypt_hash config
                             email userId sweptAt checkedAt stampedAt savedAt draw db)))
             else (Resolved false,
                   swept sweptAt1
                     (snd (OtpService.createEmailVerificationOtp bcrypt_hash config
                             email userId sweptAt checkedAt stampedAt savedAt draw db))))
            = (Resolved false,
               swept sweptAt1
                 (snd (OtpService.createEmailVerificationOtp bcrypt_hash config
                         email userId sweptAt checkedAt stampedAt savedAt draw db)))).
  { destruct (_ <? now1); reflexivity. }
  rewrite Hattempt. cbn [fst snd]. split; [reflexivity|].
  rewrite (verifyEmailOtp_sole_pending _ _ _ _ _ _
             (filter (fun o => negb (expiredAt sweptAt1 o)) l) new).
  - rewrite Hexp, Hhash, Hright.
    apply Z.ltb_ge in H2, H3. now rewrite H2, H3.
  - unfold swept. cbn [otpRepository setOtps rows].
    rewrite Hrows, filter_app. cbn [filter]. unfold expiredAt at 2.
    rewrite Hexp, H1. reflexivity.
  - intros x Hx. apply filter_In in Hx. apply Hl. tauto.
  - exact Hnew.
Qed.

Lemma verifyEmailOtp_wrong_then_right_witness :
  let issued := OtpService.createEmailVerificationOtp Fixture.bcrypt_hash Fixture.config
                  "a@x.com" (Some 1) 1000 1000 1000 1000 (Fixture.randomFor 123456)
                  (Fixture.withUsers [Fixture.alice false]) in
  let attempt := OtpService.verifyEmailOtp Fixture.bcrypt_compare "a@x.com" "000000"
                   2000 2000 (snd issued) in
  fst issued = Resolved "123456"
  /\ fst attempt = Resolved false
  /\ fst (OtpService.verifyEmailOtp Fixture.bcrypt_compare "a@x.com" "123456"
            3000 3000 (snd attempt))
     = Resolved true.
Proof.
  cbv zeta.
  apply (verifyEmailOtp_wrong_then_right Fixture.bcrypt_hash Fixture.bcrypt_compare
           Fixture.config "a@x.com" (Some 1) 1000 1000 1000 1000
           (Fixture.randomFor 123456) (Fixture.withUsers [Fixture.alice false])
           "000000" 2000 2000 3000 3000).
  - reflexivity.
  - reflexivity.
  - reflexivity.
  - vm_compute. discriminate.
  - vm_compute. discriminate.
  - vm_compute. discriminate.
Defined.

Lemma filter_at_most_one {A} (f : A -> bool) (l : list A) (a b : A) :
  (List.length (filter f l) <= 1)%nat ->
  In a l -> In b l -> f a = true -> f b = true -> a = b.
Proof.
  intros Hlen Ha Hb Hfa Hfb.
  assert (Ia : In a (filter f l)) by (apply filter_In; auto).
  assert (Ib : In b (filter f l)) by (apply filter_In; auto).
  destruct (filter f l) as [|x [|y l']]; simpl in *.
  - contradiction.
  - destruct Ia as [<-|[]], Ib as [<-|[]]. reflexivity.
  - lia.
Qed.

(** X3.  An OTP is consumed at most once: in a database reached from the
    empty one by calls served one after the other, once a verify for an
    email has returned true, the next verify for that email returns false,
    whatever the code and the clock. *)
Theorem verifyEmailOtp_single_use (bcrypt_hash : string -> Z -> string)
    (bcrypt_compare : string -> string -> bool) (sha256 : string -> string)
    (config : Config) (LocalTZA : Z -> bool -> Z) (history : list Request)
    (email otp : string) (sweptAt now : Date) (otp' : string) (sweptAt' now' : Date) :
  let db := run bcrypt_hash bcrypt_compare sha256 config LocalTZA emptyDatabase history in
  let first := OtpService.verifyEmailOtp bcrypt_compare email otp sweptAt now db in
  fst first = Resolved true ->
  fst (OtpService.verifyEmailOtp bcrypt_compare email otp' sweptAt' now' (snd first))
  = Resolved false.
Proof.
  cbv zeta.
  set (db := run bcrypt_hash bcrypt_compare sha256 config LocalTZA emptyDatabase history).
  assert (Hsingle : singlePending (rows (otpRepository db))).
  { apply run_singlePending. intros e p. simpl. lia. }
  specialize (Hsingle email email_verification). unfold unused in Hsingle.
  rewrite (verifyEmailOtp_cases bcrypt_compare email otp sweptAt now db).
  destruct (Repo.findOneDesc (pendingFor email) Otp.createdAt
              (otpRepository (swept sweptAt db))) as [entity|] eqn:Efind;
    [|discriminate].
  apply findOneDesc_Some in Efind. destruct Efind as [Hin Hp].
  destruct (Otp.expiresAt entity <? now); [discriminate|].
  destruct (bcrypt_compare otp (Otp.hashedOtp entity)); [|discriminate].
  intros _. cbn [snd].
  assert (Hnone : forall x,
             In x (rows (otpRepository (consumed (Otp.id entity) (swept sweptAt db)))) ->
             pendingFor email x = false).
  { intros x Hx. unfold consumed, swept in Hx. cbn [otpRepository setOtps rows] in Hx.
    apply in_map_iff in Hx. destruct Hx as (y & E & Hy).
    destruct (Otp.id y =? Otp.id entity) eqn:Eid; subst x.
    - unfold pendingFor. simpl. apply andb_false_r.
    - destruct (pendingFor email y) eqn:Epy; [|reflexivity].
      exfalso.
      unfold swept in Hin. cbn [otpRepository setOtps rows] in Hin.
      apply filter_In in Hin. apply filter_In in Hy.
      assert (y = entity).
      { apply (filter_at_most_one _ _ _ _ Hsingle); tauto. }
      subst y. rewrite Z.eqb_refl in Eid. discriminate. }
  rewrite verifyEmailOtp_cases.
  destruct (Repo.findOneDesc (pendingFor email) Otp.createdAt
              (otpRepository
                 (swept sweptAt' (consumed (Otp.id entity) (swept sweptAt db)))))
    as [again|] eqn:Eagain; [|reflexivity].
  exfalso. apply findOneDesc_Some in Eagain. destruct Eagain as [Hin' Hp'].
  unfold swept at 1 in Hin'. cbn [otpRepository setOtps rows] in Hin'.
  apply filter_In in Hin'. destruct Hin' as [Hin' _].
  rewrite (Hnone again Hin') in Hp'. discriminate.
Qed.

Lemma verifyEmailOtp_single_use_witness :
  let db := run Fixture.bcrypt_hash Fixture.bcrypt_compare Fixture.sha256 Fixture.config Fixture.LocalTZA
              emptyDatabase
              [CreateEmailVerificationOtp "a@x.com" None 1000 1000 1000 1000
                 (Fixture.randomFor 123456)] in
  let first := OtpService.verifyEmailOtp Fixture.bcrypt_compare "a@x.com" "123456"
                 2000 2000 db in
  fst (OtpService.verifyEmailOtp Fixture.bcrypt_compare "a@x.com" "123456"
         3000 3000 (snd first))
  = Resolved false.
Proof.
  cbv zeta.
  apply (verifyEmailOtp_single_use Fixture.bcrypt_hash Fixture.bcrypt_compare
           Fixture.sha256 Fixture.config Fixture.LocalTZA
           [CreateEmailVerificationOtp "a@x.com" None 1000 1000 1000 1000
                 (Fixture.randomFor 123456)]
           "a@x.com" "123456" 2000 2000 "123456" 3000 3000).
  reflexivity.
Defined.

(** X4.  A verify that returns true matched a stored row: a row of that
    email and of type [email_verification], unused, whose expiry is not
    before the sweep nor before the check, and whose hash the presented
    code matches; the rows with its id are left used.  So an expired OTP
    fails whatever the code. *)
Theorem verifyEmailOtp_true_matched (bcrypt_compare : string -> string -> bool)
    (email otp : string) (sweptAt now : Date) (db : Database) :
  fst (OtpService.verifyEmailOtp bcrypt_compare email otp sweptAt now db) = Resolved true ->
  exists row,
    In row (rows (otpRepository db))
    /\ Otp.email row = email
    /\ Otp.type row = email_verification
    /\ Otp.used row = false
    /\ sweptAt <= Otp.expiresAt row
    /\ now <= Otp.expiresAt row
    /\ bcrypt_compare otp (Otp.hashedOtp row) = true
    /\ forall x,
         In x (rows (otpRepository
                       (snd (OtpService.verifyEmailOtp bcrypt_compare email otp
                               sweptAt now db)))) ->
         Otp.id x = Otp.id row -> Otp.used x = true.
Proof.
  rewrite verifyEmailOtp_cases.
  destruct (Repo.findOneDesc (pendingFor email) Otp.createdAt
              (otpRepository (swept sweptAt db))) as [entity|] eqn:Efind;
    [|discriminate].
  apply findOneDesc_Some in Efind. destruct Efind as [Hin Hp].
  destruct (Otp.expiresAt entity <? now) eqn:Enow; [discriminate|].
  destruct (bcrypt_compare otp (Otp.hashedOtp entity)) eqn:Ecmp; [|discriminate].
  intros _. exists entity.
  unfold swept in Hin. cbn [otpRepository setOtps rows] in Hin.
  apply filter_In in Hin. destruct Hin as [Hin Hlive].
  unfold expiredAt in Hlive. apply negb_true_iff in Hlive.
  apply Z.ltb_ge in Hlive, Enow.
  unfold pendingFor in Hp.
  apply andb_prop in Hp. destruct Hp as [Hp Hu].
  apply andb_prop in Hp. destruct Hp as [He Ht].
  apply String.eqb_eq in He. apply OtpType_eqb_eq in Ht. apply negb_true_iff in Hu.
  repeat split; auto.
  cbn [snd]. unfold consumed. cbn [otpRepository setOtps rows].
  intros x Hx Hid. apply in_map_iff in Hx. destruct Hx as (y & E & _).
  destruct (Otp.id y =? Otp.id entity) eqn:Eid; subst x; [reflexivity|].
  apply Z.eqb_neq in Eid. contradiction.
Qed.

Lemma verifyEmailOtp_true_matched_witness :
  exists row,
    In row (rows (otpRepository
                    (Fixture.withOtps [Fixture.otp 1 "a@x.com" "123456" 9000 false 1000]
                       emptyDatabase)))
    /\ Otp.email row = "a@x.com"
    /\ Otp.type row = email_verification
    /\ Otp.used row = false
    /\ 5000 <= Otp.expiresAt row
    /\ 5000 <= Otp.expiresAt row
    /\ Fixture.bcrypt_compare "123456" (Otp.hashedOtp row) = true
    /\ forall x,
         In x (rows (otpRepository
                       (snd (OtpService.verifyEmailOtp Fixture.bcrypt_compare
                               "a@x.com" "123456" 5000 5000
                               (Fixture.withOtps
                                  [Fixture.otp 1 "a@x.com" "123456" 9000 false 1000]
                                  emptyDatabase))))) ->
         Otp.id x = Otp.id row -> Otp.used x = true.
Proof.
  apply (verifyEmailOtp_true_matched Fixture.bcrypt_compare "a@x.com" "123456" 5000 5000
           (Fixture.withOtps [Fixture.otp 1 "a@x.com" "123456" 9000 false 1000]
              emptyDatabase)).
  reflexivity.
Defined.

Lemma filter_filter_both {A} (f g : A -> bool) (l : list A) :
  filter f (filter g l) = filter (fun x => g x && f x) l.
Proof.
  induction l as [|a l IH]; simpl; [reflexivity|].
  destruct (g a); simpl; [destruct (f a)|]; now rewrite IH.
Qed.

(** X5.  The expiry sweep is idempotent and composes: two sweeps are the
    sweep at the later of their clock readings.  A sweep touches the OTP
    table only, deletes exactly the rows that expired before its reading,
    and leaves the auto-increment counter alone. *)
Theorem cleanupExpiredOtps_composes (t1 t2 : Date) (db : Database) :
  let once := snd (OtpService.cleanupExpiredOtps t1 db) in
  snd (OtpService.cleanupExpiredOtps t2 once)
    = snd (OtpService.cleanupExpiredOtps (Z.max t1 t2) db)
  /\ snd (OtpService.cleanupExpiredOtps t1 once) = once
  /\ (forall o, In o (rows (otpRepository once))
                <-> In o (rows (otpRepository db)) /\ t1 <= Otp.expiresAt o)
  /\ nextId (otpRepository once) = nextId (otpRepository db)
  /\ usersRepository once = usersRepository db
  /\ refreshTokenRepository once = refreshTokenRepository db.
Proof.
  cbv zeta. rewrite !cleanupExpiredOtps_swept. cbn [snd].
  assert (Hcompose : forall a b,
            filter (fun o => negb (expiredAt b o))
              (filter (fun o => negb (expiredAt a o)) (rows (otpRepository db)))
            = filter (fun o => negb (expiredAt (Z.max a b) o)) (rows (otpRepository db))).
  { intros a b. rewrite filter_filter_both. apply filter_ext. intros o.
    unfold expiredAt.
    destruct (Otp.expiresAt o <? a) eqn:Ea, (Otp.expiresAt o <? b) eqn:Eb,
             (Otp.expiresAt o <? Z.max a b) eqn:Em; try reflexivity;
      rewrite ?Z.ltb_lt, ?Z.ltb_ge in *; lia. }
  split; [|split; [|split; [|repeat split]]].
  - unfold swept. cbn [otpRepository setOtps rows nextId usersRepository
                       refreshTokenRepository].
    now rewrite Hcompose.
  - unfold swept. cbn [otpRepository setOtps rows nextId usersRepository
                       refreshTokenRepository].
    now rewrite Hcompose, Z.max_id.
  - intros o. unfold swept. cbn [otpRepository setOtps rows].
    rewrite filter_In. unfold expiredAt. rewrite negb_true_iff, Z.ltb_ge. tauto.
Qed.

(** X6.  [getOtpStats] reads without writing.  Its [active] count is the
    number of unused rows that have already expired, so it never exceeds
    [expired]; an unused row that has not expired is counted neither as
    active nor as used, only in [total].  Right after a sweep at the same
    clock reading both [active] and [expired] are zero. *)
Theorem getOtpStats_counts (now : Date) (db : Database) :
  let pending :=
    List.length
      (filter (fun o => negb (Otp.used o) && negb (Otp.expiresAt o <? now))
              (rows (otpRepository db))) in
  let sweptDb := snd (OtpService.cleanupExpiredOtps now db) in
  exists stats sweptStats,
    OtpService.getOtpStats now db = (Resolved stats, db)
    /\ (OtpService.active stats <= OtpService.expired stats)%nat
    /\ (OtpService.expired stats <= OtpService.total stats)%nat
    /\ OtpService.total stats
       = (OtpService.used stats + OtpService.active stats + pending)%nat
    /\ OtpService.getOtpStats now sweptDb = (Resolved sweptStats, sweptDb)
    /\ OtpService.active sweptStats = 0%nat
    /\ OtpService.expired sweptStats = 0%nat.
Proof.
  cbv zeta. eexists. eexists. split; [reflexivity|].
  cbn [OtpService.active OtpService.expired OtpService.total OtpService.used].
  unfold Repo.find.
  split; [|split; [|split; [|split; [reflexivity|]]]].
  - apply filter_length_le. intros x Hx. apply andb_prop in Hx. tauto.
  - generalize (rows (otpRepository db)). intros l.
    induction l as [|a l IH]; simpl; [lia|].
    destruct (Otp.expiresAt a <? now); simpl; lia.
  - generalize (rows (otpRepository db)). intros l.
    induction l as [|a l IH]; simpl; [reflexivity|].
    destruct (Otp.used a), (Otp.expiresAt a <? now); simpl; lia.
  - cbn [OtpService.active OtpService.expired].
    rewrite cleanupExpiredOtps_swept. cbn [snd]. unfold swept.
    cbn [otpRepository setOtps rows]. unfold Repo.find. cbn [rows].
    rewrite !filter_filter_both. unfold expiredAt.
    split; rewrite filter_nothing; try reflexivity;
      intros x _; destruct (Otp.expiresAt x <? now), (Otp.used x); reflexivity.
Qed.

(** ** Sessions: login, rotation, logout *)

Lemma find_app_skip {A} (f : A -> bool) (l1 l2 : list A) :
  (forall x, In x l1 -> f x = false) ->
  List.find f (l1 ++ l2) = List.find f l2.
Proof.
  induction l1 as [|a l1 IH]; simpl; intros H; [reflexivity|].
  rewrite (H a (or_introl eq_refl)). apply IH. intros x Hx. apply H. now right.
Qed.

Section Sessions.
Variable bcrypt_compare : string -> string -> bool.
Variable sha256 : string -> string.
Variable config : Config.
Variable LocalTZA : Z -> bool -> Z.

(** The row [generateTokens] saves. *)
Let saved (id : Z) (secret : string) (userAgent ipAddress : option string)
    (now : Date) (userId : Z) : RefreshToken.t :=
  RefreshToken.mk id (sha256 secret) (JsDate.addDays LocalTZA 30 now) false userAgent ipAddress
    now now userId.

Lemma login_resolved (email password : string) (userAgent ipAddress : option string)
    (now : Date) (secret : string) (db : Database) (u : User.t) (hash : string) :
  Repo.findOne (fun x => (User.email x =? email)%string) (usersRepository db) = Some u ->
  User.emailVerified u = true ->
  User.password u = Some hash ->
  bcrypt_compare password hash = true ->
  AuthService.login bcrypt_compare sha256 config LocalTZA email password
    userAgent ipAddress now secret db
  = (Resolved
       (mkAuthResult (User.withoutPassword u)
          (jwtSign (JWT_SECRET config)
             (mkJwtPayload (User.id u) (User.email u) (User.emailVerified u))
             now (JWT_ACCESS_EXPIRES_IN config))
          secret),
     setRefreshTokens
       (mkRepository
          (rows (refreshTokenRepository db)
           ++ [saved (nextId (refreshTokenRepository db)) secret userAgent ipAddress
                 now (User.id u)])
          (nextId (refreshTokenRepository db) + 1))
       db).
Proof.
  intros Hfind Hv Hp Hc.
  unfold AuthService.login, UsersService.findByEmailWithPassword,
    AuthService.generateTokens, bind, queryUsers.
  cbv beta. rewrite Hfind, Hp, Hc.
  destruct (User.emailVerified u); [reflexivity|discriminate].
Qed.

(** X7.  Login and rotation round trip: the refresh token a successful
    login returns is accepted by [refreshToken] at any clock reading up to
    thirty days later, provided its hash is not already in the table; the
    rotation answers for the same user and returns the newly drawn
    secret. *)
Theorem login_then_refresh (email password : string)
    (userAgent ipAddress : option string) (now : Date) (secret : string)
    (db : Database) (u : User.t) (hash : string)
    (userAgent' ipAddress' : option string) (now' : Date) (secret' : string) :
  Repo.findOne (fun x => (User.email x =? email)%string) (usersRepository db) = Some u ->
  User.emailVerified u = true ->
  User.password u = Some hash ->
  bcrypt_compare password hash = true ->
  ~ In (sha256 secret) (hashes db) ->
  now' <= JsDate.addDays LocalTZA 30 now ->
  exists session rotated,
    fst (AuthService.login bcrypt_compare sha256 config LocalTZA email password
           userAgent ipAddress now secret db) = Resolved session
    /\ refreshToken session = secret
    /\ fst (AuthService.refreshToken sha256 config LocalTZA (refreshToken session)
              userAgent' ipAddress' now' secret'
              (snd (AuthService.login bcrypt_compare sha256 config LocalTZA email password
                      userAgent ipAddress now secret db)))
       = Resolved rotated
    /\ refreshToken rotated = secret'
    /\ User.id (user rotated) = User.id (user session).
Proof.
  intros Hfind Hv Hp Hc Hfresh Hnow.
  rewrite (login_resolved _ _ _ _ _ _ _ _ _ Hfind Hv Hp Hc).
  destruct (Repo.findOne (fun x => User.id x =? User.id u) (usersRepository db))
    as [owner|] eqn:Eowner.
  2:{ exfalso. apply find_some in Hfind. destruct Hfind as [Hin _].
      pose proof (find_none _ _ Eowner u Hin) as Hno. cbv beta in Hno.
      rewrite Z.eqb_refl in Hno. discriminate. }
  eexists. eexists. split; [reflexivity|]. split; [reflexivity|].
  cbn [fst snd refreshToken user].
  rewrite refreshToken_cases.
  unfold Repo.findOne at 1. cbn [refreshTokenRepository setRefreshTokens rows].
  rewrite find_app_skip.
  2:{ intros x Hx.
      destruct (RefreshToken.hashedToken x =? sha256 secret)%string eqn:E;
        [|reflexivity].
      exfalso. apply Hfresh. apply String.eqb_eq in E. rewrite <- E.
      unfold hashes. now apply in_map. }
  unfold saved at 1.
  cbn [List.find RefreshToken.hashedToken RefreshToken.revoked negb].
  rewrite String.eqb_refl. cbn [andb].
  rewrite rotateTokenEntity_cases. cbv zeta.
  cbn [RefreshToken.expiresAt RefreshToken.userId usersRepository setRefreshTokens].
  unfold saved. cbn [RefreshToken.expiresAt RefreshToken.userId].
  apply Z.ltb_ge in Hnow. rewrite Hnow, Eowner.
  apply find_some in Eowner. destruct Eowner as [_ Eid]. apply Z.eqb_eq in Eid.
  cbn [option_map fst].
  split; [reflexivity|]. split; [reflexivity|].
  cbn [user User.withoutPassword User.id]. exact Eid.
Qed.
End Sessions.

Lemma login_then_refresh_witness :
  exists session rotated,
    fst (AuthService.login Fixture.bcrypt_compare Fixture.sha256 Fixture.config Fixture.LocalTZA
           "a@x.com" "Password1" None None 5000 "s1"
           (Fixture.withUsers [Fixture.alice true])) = Resolved session
    /\ refreshToken session = "s1"
    /\ fst (AuthService.refreshToken Fixture.sha256 Fixture.config Fixture.LocalTZA (refreshToken session)
              None None 6000 "s2"
              (snd (AuthService.login Fixture.bcrypt_compare Fixture.sha256 Fixture.config Fixture.LocalTZA
                      "a@x.com" "Password1" None None 5000 "s1"
                      (Fixture.withUsers [Fixture.alice true]))))
       = Resolved rotated
    /\ refreshToken rotated = "s2"
    /\ User.id (user rotated) = User.id (user session).
Proof.
  apply (login_then_refresh Fixture.bcrypt_compare Fixture.sha256 Fixture.config
           Fixture.LocalTZA "a@x.com" "Password1" None None 5000 "s1"
           (Fixture.withUsers [Fixture.alice true])
           (Fixture.alice true) (Fixture.bcrypt_hash "Password1" 12)
           None None 6000 "s2").
  - reflexivity.
  - reflexivity.
  - reflexivity.
  - reflexivity.
  - simpl. tauto.
  - vm_compute. discriminate.
Defined.

Section Revocation.
Variable sha256 : string -> string.
Variable config : Config.
Variable LocalTZA : Z -> bool -> Z.

(** X8.  [logout] rejects the empty token without writing.  Any other
    token is answered with success, known or not: afterwards every row
    with its hash is revoked, so a rotation of it is refused, and the rows
    with another hash are untouched; when no row has its hash the database
    is unchanged. *)
Theorem logout_outcome (presented : string) (now : Date) (db : Database)
    (userAgent ipAddress : option string) (now' : Date) (secret : string) :
  (presented = "" ->
   AuthService.logout sha256 presented now db
   = (Rejected (BadRequestException "Refresh token is required"), db))
  /\
  (presented <> "" ->
   let after := snd (AuthService.logout sha256 presented now db) in
   fst (AuthService.logout sha256 presented now db) = Resolved "Logged out successfully"
   /\ spent (sha256 presented) (rows (refreshTokenRepository after))
   /\ (forall r, In r (rows (refreshTokenRepository db)) ->
                 RefreshToken.hashedToken r <> sha256 presented ->
                 In r (rows (refreshTokenRepository after)))
   /\ ((forall r, In r (rows (refreshTokenRepository db)) ->
                  RefreshToken.hashedToken r <> sha256 presented) ->
       after = db)
   /\ AuthService.refreshToken sha256 config LocalTZA presented userAgent ipAddress now' secret after
      = (Rejected (UnauthorizedException "Invalid refresh token"), after)).
Proof.
  split.
  - intros ->. reflexivity.
  - intros Hne. cbv zeta.
    unfold AuthService.logout.
    destruct (presented =? "")%string eqn:E; [apply String.eqb_eq in E; contradiction|].
    unfold bind, execRefreshTokens, Repo.update, ret, AuthService.hashToken.
    cbn [fst snd refreshTokenRepository setRefreshTokens rows].
    assert (Hspent : spent (sha256 presented)
              (map (fun x => if (RefreshToken.hashedToken x =? sha256 presented)%string
                             then RefreshToken.setRevoked now x else x)
                   (rows (refreshTokenRepository db)))).
    { intros r Hr Hh. apply in_map_iff in Hr. destruct Hr as (x & Ex & _).
      destruct (RefreshToken.hashedToken x =? sha256 presented)%string eqn:Eh;
        subst r; [reflexivity|].
      apply String.eqb_neq in Eh. contradiction. }
    split; [reflexivity|]. split; [exact Hspent|]. split; [|split].
    + intros r Hr Hh. apply in_map_iff. exists r. split; [|exact Hr].
      apply String.eqb_neq in Hh. now rewrite Hh.
    + intros Hnone. rewrite map_untouched.
      * destruct db as [u o [rs n]]. reflexivity.
      * intros x Hx. apply String.eqb_neq. now apply Hnone.
    + apply refreshToken_spent_refused. exact Hspent.
Qed.

(** X9.  [logoutFromAllDevices] always succeeds and leaves every session
    of the user revoked: the user's listing is empty, and a rotation of a
    token whose rows all belong to the user is refused.  The sessions of
    other users are untouched. *)
Theorem logoutFromAllDevices_outcome (userId : Z) (now : Date) (db : Database)
    (presented : string) (userAgent ipAddress : option string) (now' : Date)
    (secret : string) :
  let after := snd (AuthService.logoutFromAllDevices userId now db) in
  fst (AuthService.logoutFromAllDevices userId now db)
    = Resolved "Logged out from all devices successfully"
  /\ (forall r, In r (rows (refreshTokenRepository after)) ->
                RefreshToken.userId r = userId -> RefreshToken.revoked r = true)
  /\ AuthService.getActiveSessions userId after = (Resolved [], after)
  /\ (forall r, In r (rows (refreshTokenRepository db)) ->
                RefreshToken.userId r <> userId ->
                In r (rows (refreshTokenRepository after)))
  /\ ((forall r, In r (rows (refreshTokenRepository db)) ->
                 RefreshToken.hashedToken r = sha256 presented ->
                 RefreshToken.userId r = userId) ->
      AuthService.refreshToken sha256 config LocalTZA presented userAgent ipAddress now' secret after
      = (Rejected (UnauthorizedException "Invalid refresh token"), after)).
Proof.
  cbv zeta.
  unfold AuthService.logoutFromAllDevices, bind, execRefreshTokens, Repo.update, ret.
  cbn [fst snd refreshTokenRepository setRefreshTokens rows].
  fold (activeFor userId).
  assert (Hall : forall r,
            In r (map (fun x => if activeFor userId x
                                then RefreshToken.setRevoked now x else x)
                      (rows (refreshTokenRepository db))) ->
            RefreshToken.userId r = userId -> RefreshToken.revoked r = true).
  { intros r Hr Hu. apply in_map_iff in Hr. destruct Hr as (x & Ex & _).
    destruct (activeFor userId x) eqn:Ea; subst r; [reflexivity|].
    unfold activeFor in Ea. rewrite Hu, Z.eqb_refl in Ea. simpl in Ea.
    now destruct (RefreshToken.revoked x). }
  split; [reflexivity|]. split; [exact Hall|]. split; [|split].
  - rewrite getActiveSessions_rows.
    cbn [refreshTokenRepository setRefreshTokens rows].
    rewrite filter_nothing; [reflexivity|].
    intros r Hr.
    destruct (RefreshToken.userId r =? userId) eqn:Eu; [|reflexivity].
    apply Z.eqb_eq in Eu. now rewrite (Hall r Hr Eu).
  - intros r Hr Hu. apply in_map_iff. exists r. split; [|exact Hr].
    unfold activeFor. apply Z.eqb_neq in Hu. now rewrite Hu.
  - intros Hown. apply refreshToken_spent_refused.
    cbn [refreshTokenRepository setRefreshTokens rows].
    intros r Hr Hh. apply Hall; [exact Hr|].
    apply in_map_iff in Hr. destruct Hr as (x & Ex & Hx).
    assert (Hsame : RefreshToken.hashedToken r = RefreshToken.hashedToken x
                    /\ RefreshToken.userId r = RefreshToken.userId x).
    { rewrite <- Ex.
      destruct ((RefreshToken.userId x =? userId) && negb (RefreshToken.revoked x));
        split; reflexivity. }
    destruct Hsame as [H1 H2]. rewrite H2. apply Hown; congruence.
Qed.

(** X12.  A rotation of an expired token is refused as expired and
    revokes the row it found, without a successor; where hashes are
    unique, the next rotation of the token is refused as invalid. *)
Theorem refreshToken_expired (presented : string)
    (userAgent ipAddress : option string) (now : Date) (secret : string)
    (db : Database) (t : RefreshToken.t)
    (userAgent' ipAddress' : option string) (now' : Date) (secret' : string) :
  NoDup (hashes db) ->
  In t (rows (refreshTokenRepository db)) ->
  RefreshToken.hashedToken t = sha256 presented ->
  RefreshToken.revoked t = false ->
  RefreshToken.expiresAt t < now ->
  let answer := AuthService.refreshToken sha256 config LocalTZA presented
                  userAgent ipAddress now secret db in
  fst answer = Rejected (UnauthorizedException "Refresh token expired")
  /\ rows (refreshTokenRepository (snd answer))
     = map (fun x => if RefreshToken.id x =? RefreshToken.id t
                     then RefreshToken.setRevoked now x else x)
           (rows (refreshTokenRepository db))
  /\ nextId (refreshTokenRepository (snd answer)) = nextId (refreshTokenRepository db)
  /\ fst (AuthService.refreshToken sha256 config LocalTZA presented
            userAgent' ipAddress' now' secret' (snd answer))
     = Rejected (UnauthorizedException "Invalid refresh token").
Proof.
  intros Hnd Hin Hh Hr Hexp. cbv zeta.
  assert (Hfind : Repo.findOne
                    (fun x => (RefreshToken.hashedToken x =? sha256 presented)%string
                              && negb (RefreshToken.revoked x))
                    (refreshTokenRepository db) = Some t).
  { destruct (Repo.findOne _ (refreshTokenRepository db)) as [t'|] eqn:E.
    - apply find_some in E. destruct E as [Hin' Hc].
      apply andb_prop in Hc. destruct Hc as [Hh' _]. apply String.eqb_eq in Hh'.
      f_equal. apply (NoDup_map_same RefreshToken.hashedToken
                        (rows (refreshTokenRepository db))); auto. congruence.
    - pose proof (find_none _ _ E t Hin) as Hno. cbv beta in Hno.
      rewrite Hh, String.eqb_refl, Hr in Hno. discriminate. }
  rewrite refreshToken_cases, Hfind, rotateTokenEntity_cases. cbv zeta.
  apply Z.ltb_lt in Hexp. rewrite Hexp.
  cbn [fst snd refreshTokenRepository setRefreshTokens rows nextId].
  split; [reflexivity|]. split; [reflexivity|]. split; [reflexivity|].
  rewrite refreshToken_spent_refused; [reflexivity|].
  cbn [refreshTokenRepository setRefreshTokens rows].
  intros r Hr' Hhr. apply in_map_iff in Hr'. destruct Hr' as (x & Ex & Hx).
  assert (Hxh : RefreshToken.hashedToken x = sha256 presented).
  { destruct (RefreshToken.id x =? RefreshToken.id t); subst r; exact Hhr. }
  assert (x = t).
  { apply (NoDup_map_same RefreshToken.hashedToken
             (rows (refreshTokenRepository db))); auto. congruence. }
  subst x. rewrite Z.eqb_refl in Ex. now subst r.
Qed.
End Revocation.

Lemma logout_outcome_witness :
  let db := Fixture.withSessions [Fixture.session 1 "s1" 9000 false 1]
              (Fixture.withUsers [Fixture.alice true]) in
  let after := snd (AuthService.logout Fixture.sha256 "s1" 5000 db) in
  AuthService.refreshToken Fixture.sha256 Fixture.config Fixture.LocalTZA "s1" None None 6000 "s2" after
  = (Rejected (UnauthorizedException "Invalid refresh token"), after).
Proof.
  cbv zeta.
  apply (proj2 (logout_outcome Fixture.sha256 Fixture.config Fixture.LocalTZA "s1" 5000
                  (Fixture.withSessions [Fixture.session 1 "s1" 9000 false 1]
                     (Fixture.withUsers [Fixture.alice true]))
                  None None 6000 "s2")).
  discriminate.
Defined.

Lemma refreshToken_expired_witness :
  let db := Fixture.withSessions [Fixture.session 1 "s1" 4000 false 1]
              (Fixture.withUsers [Fixture.alice true]) in
  let answer := AuthService.refreshToken Fixture.sha256 Fixture.config Fixture.LocalTZA "s1"
                  None None 5000 "s2" db in
  fst answer = Rejected (UnauthorizedException "Refresh token expired")
  /\ fst (AuthService.refreshToken Fixture.sha256 Fixture.config Fixture.LocalTZA "s1"
            None None 6000 "s3" (snd answer))
     = Rejected (UnauthorizedException "Invalid refresh token").
Proof.
  cbv zeta.
  destruct (refreshToken_expired Fixture.sha256 Fixture.config Fixture.LocalTZA "s1" None None 5000 "s2"
              (Fixture.withSessions [Fixture.session 1 "s1" 4000 false 1]
                 (Fixture.withUsers [Fixture.alice true]))
              (Fixture.session 1 "s1" 4000 false 1) None None 6000 "s3")
    as (H1 & _ & _ & H4).
  - simpl. repeat constructor. simpl. tauto.
  - simpl. now left.
  - reflexivity.
  - reflexivity.
  - simpl. lia.
  - split; [exact H1|exact H4].
Defined.

(** ** Session listing: order and revocation *)

Lemma insertDesc_sorted {A} (key : A -> Z) (x : A) (l : list A) :
  sortedDesc key l -> sortedDesc key (Repo.insertDesc key x l).
Proof.
  induction 1 as [|y l Hy Hl IH]; simpl.
  - constructor; [intros y []|constructor].
  - destruct (key x <? key y) eqn:E.
    + constructor; [|exact IH].
      intros z Hz. apply insertDesc_In in Hz. destruct Hz as [->|Hz].
      * apply Z.ltb_lt in E. lia.
      * now apply Hy.
    + apply Z.ltb_ge in E. constructor.
      * intros z [<-|Hz]; [exact E|]. specialize (Hy z Hz). lia.
      * now constructor.
Qed.

Lemma orderDesc_sorted {A} (key : A -> Z) (l : list A) :
  sortedDesc key (Repo.orderDesc key l).
Proof.
  induction l as [|a l IH]; simpl; [constructor|]. now apply insertDesc_sorted.
Qed.

Lemma insertDesc_length {A} (key : A -> Z) (x : A) (l : list A) :
  List.length (Repo.insertDesc key x l) = S (List.length l).
Proof.
  induction l as [|a l IH]; simpl; [reflexivity|].
  destruct (key x <? key a); simpl; [now rewrite IH|reflexivity].
Qed.

Lemma orderDesc_length {A} (key : A -> Z) (l : list A) :
  List.length (Repo.orderDesc key l) = List.length l.
Proof.
  induction l as [|a l IH]; simpl; [reflexivity|].
  now rewrite insertDesc_length, IH.
Qed.

Lemma sortedDesc_filter {A} (key : A -> Z) (g : A -> bool) (l : list A) :
  sortedDesc key l -> sortedDesc key (filter g l).
Proof.
  induction 1 as [|y l Hy Hl IH]; simpl; [constructor|].
  destruct (g y); [|exact IH].
  constructor; [|exact IH].
  intros z Hz. apply filter_In in Hz. apply Hy. tauto.
Qed.

Lemma insertDesc_filter {A} (key : A -> Z) (g : A -> bool) (x : A) (l : list A) :
  sortedDesc key l ->
  filter g (Repo.insertDesc key x l)
  = if g x then Repo.insertDesc key x (filter g l) else filter g l.
Proof.
  induction 1 as [|y l Hy Hl IH]; simpl.
  - now destruct (g x).
  - destruct (key x <? key y) eqn:E; simpl.
    + rewrite IH. destruct (g y), (g x); simpl; rewrite ?E; reflexivity.
    + destruct (g x) eqn:Ex; [|reflexivity].
      destruct (g y); simpl; [now rewrite E|].
      (* [y] is dropped: [x] still goes in front of what is left *)
      apply Z.ltb_ge in E.
      assert (Hfront : forall l', (forall z, In z l' -> key z <= key x) ->
                                  Repo.insertDesc key x l' = x :: l').
      { intros [|z l'] Hz; simpl; [reflexivity|].
        assert (Hzx : key z <= key x) by (apply Hz; now left).
        apply Z.ltb_ge in Hzx. now rewrite Hzx. }
      rewrite Hfront; [reflexivity|].
      intros z Hz. apply filter_In in Hz. destruct Hz as [Hz _].
      specialize (Hy z Hz). lia.
Qed.

Lemma orderDesc_filter {A} (key : A -> Z) (g : A -> bool) (l : list A) :
  filter g (Repo.orderDesc key l) = Repo.orderDesc key (filter g l).
Proof.
  induction l as [|a l IH]; simpl; [reflexivity|].
  rewrite insertDesc_filter by apply orderDesc_sorted.
  destruct (g a); simpl; now rewrite IH.
Qed.

Lemma sortedDesc_map {A B} (f : A -> B) (keyA : A -> Z) (keyB : B -> Z) (l : list A) :
  (forall x, keyB (f x) = keyA x) ->
  sortedDesc keyA l -> sortedDesc keyB (map f l).
Proof.
  intros Hk. induction 1 as [|y l Hy Hl IH]; simpl; constructor; [|exact IH].
  intros z Hz. apply in_map_iff in Hz. destruct Hz as (w & <- & Hw).
  rewrite !Hk. now apply Hy.
Qed.

(** X11.  [getActiveSessions] reads without writing and lists exactly the
    unrevoked sessions of the user, one entry per row, the most recently
    created first. *)
Theorem getActiveSessions_sorted (userId : Z) (db : Database) :
  exists sessions,
    AuthService.getActiveSessions userId db = (Resolved sessions, db)
    /\ sortedDesc session_createdAt sessions
    /\ List.length sessions
       = List.length (filter (activeFor userId) (rows (refreshTokenRepository db)))
    /\ forall s, In s sessions
                 <-> exists r, In r (rows (refreshTokenRepository db))
                               /\ RefreshToken.userId r = userId
                               /\ RefreshToken.revoked r = false
                               /\ s = AuthService.toSession r.
Proof.
  rewrite getActiveSessions_rows. eexists. split; [reflexivity|].
  fold (activeFor userId).
  split; [|split].
  - apply (sortedDesc_map AuthService.toSession RefreshToken.createdAt);
      [reflexivity|apply orderDesc_sorted].
  - now rewrite length_map, orderDesc_length.
  - intros s. rewrite in_map_iff. split.
    + intros (r & <- & Hr). apply orderDesc_In in Hr. apply filter_In in Hr.
      destruct Hr as [Hr Ha]. unfold activeFor in Ha.
      apply andb_prop in Ha. destruct Ha as [Hu Hv].
      apply Z.eqb_eq in Hu. apply negb_true_iff in Hv.
      exists r. auto.
    + intros (r & Hr & Hu & Hv & ->). exists r. split; [reflexivity|].
      apply orderDesc_In. apply filter_In. split; [exact Hr|].
      unfold activeFor. now rewrite Hu, Hv, Z.eqb_refl.
Qed.

Lemma filter_map_swap' {A B} (f : A -> B) (g : B -> bool) (l : list A) :
  filter g (map f l) = map f (filter (fun x => g (f x)) l).
Proof.
  induction l as [|a l IH]; simpl; [reflexivity|].
  destruct (g (f a)); simpl; now rewrite IH.
Qed.

(** X10.  After [revokeSession], whether it succeeded or not, the user's
    listing is the listing before without the entries of that session id,
    in the same order; the listings of other users are as before. *)
Theorem revokeSession_listing (userId sessionId : Z) (now : Date) (db : Database) :
  let after := snd (AuthService.revokeSession userId sessionId now db) in
  fst (AuthService.getActiveSessions userId after)
    = match fst (AuthService.getActiveSessions userId db) with
      | Resolved before =>
          Resolved (filter (fun s => negb (session_id s =? sessionId)) before)
      | Rejected e => Rejected e
      end
  /\ forall other, other <> userId ->
       fst (AuthService.getActiveSessions other after)
       = fst (AuthService.getActiveSessions other db).
Proof.
  cbv zeta.
  assert (Hrows : rows (refreshTokenRepository
                          (snd (AuthService.revokeSession userId sessionId now db)))
                  = map (fun x => if revocable userId sessionId x
                                  then RefreshToken.setRevoked now x else x)
                        (rows (refreshTokenRepository db))).
  { unfold AuthService.revokeSession, bind, execRefreshTokens, Repo.update.
    fold (revocable userId sessionId).
    cbn [fst snd].
    destruct (Nat.eqb _ 0); reflexivity. }
  rewrite !getActiveSessions_rows. cbn [fst]. rewrite Hrows.
  split.
  - assert (Hleft : filter (activeFor userId)
                      (map (fun x => if revocable userId sessionId x
                                     then RefreshToken.setRevoked now x else x)
                           (rows (refreshTokenRepository db)))
                    = filter (fun x => activeFor userId x
                                       && negb (RefreshToken.id x =? sessionId))
                             (rows (refreshTokenRepository db))).
    { generalize (rows (refreshTokenRepository db)). intros l.
      induction l as [|a l IH]; simpl; [reflexivity|].
      rewrite IH. unfold revocable, activeFor.
      destruct (RefreshToken.id a =? sessionId) eqn:E1,
               (RefreshToken.userId a =? userId) eqn:E2,
               (RefreshToken.revoked a) eqn:E3;
        cbn [andb negb RefreshToken.userId RefreshToken.revoked RefreshToken.setRevoked];
        rewrite ?E1, ?E2, ?E3; cbn [andb negb]; reflexivity. }
    fold (activeFor userId). rewrite Hleft.
    rewrite (filter_map_swap' AuthService.toSession).
    rewrite orderDesc_filter, filter_filter_both. reflexivity.
  - intros other Hother. rewrite !getActiveSessions_rows. cbn [fst]. rewrite Hrows.
    fold (activeFor other).
    assert (Hsame : filter (activeFor other)
                      (map (fun x => if revocable userId sessionId x
                                     then RefreshToken.setRevoked now x else x)
                           (rows (refreshTokenRepository db)))
                    = filter (activeFor other) (rows (refreshTokenRepository db))).
    { generalize (rows (refreshTokenRepository db)). intros l.
      induction l as [|a l IH]; simpl; [reflexivity|].
      rewrite IH. unfold revocable, activeFor.
      destruct (RefreshToken.userId a =? userId) eqn:Eu.
      - apply Z.eqb_eq in Eu.
        assert (Eo : (RefreshToken.userId a =? other) = false)
          by (apply Z.eqb_neq; congruence).
        destruct (RefreshToken.id a =? sessionId), (RefreshToken.revoked a);
          cbn [andb negb RefreshToken.userId RefreshToken.revoked
               RefreshToken.setRevoked];
          rewrite ?Eo; reflexivity.
      - rewrite andb_false_r. reflexivity. }
    now rewrite Hsame.
Qed.

(** ** What a rotation and the other answers carry *)

(** What a successful rotation read and wrote. *)
Lemma refreshToken_rotated (sha256 : string -> string) (config : Config) (LocalTZA : Z -> bool -> Z)
    (presented : string) (userAgent ipAddress : option string) (now : Date)
    (secret : string) (db : Database) (result : AuthResult) :
  fst (AuthService.refreshToken sha256 config LocalTZA presented userAgent ipAddress
         now secret db) = Resolved result ->
  exists t owner,
    In t (rows (refreshTokenRepository db))
    /\ RefreshToken.hashedToken t = sha256 presented
    /\ RefreshToken.revoked t = false
    /\ now <= RefreshToken.expiresAt t
    /\ In owner (rows (usersRepository db))
    /\ User.id owner = RefreshToken.userId t
    /\ result = mkAuthResult (User.withoutPassword owner)
                  (jwtSign (JWT_SECRET config)
                     (mkJwtPayload (User.id owner) (User.email owner)
                        (User.emailVerified owner))
                     now (JWT_ACCESS_EXPIRES_IN config))
                  secret
    /\ refreshTokenRepository
         (snd (AuthService.refreshToken sha256 config LocalTZA presented userAgent ipAddress
                 now secret db))
       = mkRepository
           (map (fun x => if RefreshToken.id x =? RefreshToken.id t
                          then RefreshToken.setRevoked now x else x)
                (rows (refreshTokenRepository db))
            ++ [RefreshToken.mk (nextId (refreshTokenRepository db)) (sha256 secret)
                  (JsDate.addDays LocalTZA 30 now) false userAgent ipAddress now now
                  (RefreshToken.userId t)])
           (nextId (refreshTokenRepository db) + 1)
    /\ usersRepository
         (snd (AuthService.refreshToken sha256 config LocalTZA presented userAgent ipAddress
                 now secret db)) = usersRepository db.
Proof.
  rewrite refreshToken_cases.
  destruct (Repo.findOne _ (refreshTokenRepository db)) as [t|] eqn:Ef;
    [|discriminate].
  apply find_some in Ef. destruct Ef as [Hin Hc].
  apply andb_prop in Hc. destruct Hc as [Hh Hr].
  apply String.eqb_eq in Hh. apply negb_true_iff in Hr.
  rewrite rotateTokenEntity_cases. cbv zeta.
  destruct (RefreshToken.expiresAt t <? now) eqn:Eexp; [discriminate|].
  apply Z.ltb_ge in Eexp.
  destruct (Repo.findOne (fun u => User.id u =? RefreshToken.userId t)
              (usersRepository db)) as [owner|] eqn:Eo; cbn [option_map];
    [|discriminate].
  apply find_some in Eo. destruct Eo as [Ho Hid]. apply Z.eqb_eq in Hid.
  cbn [fst snd]. intros H. injection H as <-.
  exists t, owner.
  cbn [User.withoutPassword User.id User.email User.emailVerified
       refreshTokenRepository usersRepository setRefreshTokens].
  rewrite Hid. repeat split; auto.
Qed.

(** X13.  A rotation that succeeds read an unrevoked, unexpired row of the
    presented token and its owner from the users table.  Its answer is
    built from the owner as the table has it at that moment, with the
    newly drawn secret; the successor row belongs to the same user and
    expires thirty days after the rotation, whatever the expiry of the row
    it replaces. *)
Theorem refreshToken_successor (sha256 : string -> string) (config : Config) (LocalTZA : Z -> bool -> Z)
    (presented : string) (userAgent ipAddress : option string) (now : Date)
    (secret : string) (db : Database) (result : AuthResult) :
  fst (AuthService.refreshToken sha256 config LocalTZA presented userAgent ipAddress
         now secret db) = Resolved result ->
  exists t owner,
    In t (rows (refreshTokenRepository db))
    /\ RefreshToken.hashedToken t = sha256 presented
    /\ RefreshToken.revoked t = false
    /\ now <= RefreshToken.expiresAt t
    /\ In owner (rows (usersRepository db))
    /\ User.id owner = RefreshToken.userId t
    /\ result = mkAuthResult (User.withoutPassword owner)
                  (jwtSign (JWT_SECRET config)
                     (mkJwtPayload (User.id owner) (User.email owner)
                        (User.emailVerified owner))
                     now (JWT_ACCESS_EXPIRES_IN config))
                  secret
    /\ refreshTokenRepository
         (snd (AuthService.refreshToken sha256 config LocalTZA presented userAgent ipAddress
                 now secret db))
       = mkRepository
           (map (fun x => if RefreshToken.id x =? RefreshToken.id t
                          then RefreshToken.setRevoked now x else x)
                (rows (refreshTokenRepository db))
            ++ [RefreshToken.mk (nextId (refreshTokenRepository db)) (sha256 secret)
                  (JsDate.addDays LocalTZA 30 now) false userAgent ipAddress now now
                  (RefreshToken.userId t)])
           (nextId (refreshTokenRepository db) + 1)
    /\ usersRepository
         (snd (AuthService.refreshToken sha256 config LocalTZA presented userAgent ipAddress
                 now secret db)) = usersRepository db.
Proof.
  intros Hok.
  destruct (refreshToken_rotated _ _ _ _ _ _ _ _ _ _ Hok) as (t & owner & Hfacts).
  exists t, owner. exact Hfacts.
Qed.

Lemma refreshToken_successor_witness :
  exists t owner,
    In t (rows (refreshTokenRepository
                  (Fixture.withSessions [Fixture.session 1 "s1" 9000 false 1]
                     (Fixture.withUsers [Fixture.alice true]))))
    /\ RefreshToken.expiresAt t = 9000
    /\ User.id owner = RefreshToken.userId t
    /\ map RefreshToken.expiresAt
         (rows (refreshTokenRepository
                  (snd (AuthService.refreshToken Fixture.sha256 Fixture.config Fixture.LocalTZA "s1"
                          None None 5000 "s2"
                          (Fixture.withSessions [Fixture.session 1 "s1" 9000 false 1]
                             (Fixture.withUsers [Fixture.alice true]))))))
       = [9000; JsDate.addDays Fixture.LocalTZA 30 5000].
Proof.
  destruct (refreshToken_successor Fixture.sha256 Fixture.config Fixture.LocalTZA "s1" None None 5000 "s2"
              (Fixture.withSessions [Fixture.session 1 "s1" 9000 false 1]
                 (Fixture.withUsers [Fixture.alice true]))
              (mkAuthResult (User.withoutPassword (Fixture.alice true))
                 (jwtSign (JWT_SECRET Fixture.config)
                    (mkJwtPayload 1 "a@x.com" true) 5000
                    (JWT_ACCESS_EXPIRES_IN Fixture.config))
                 "s2"))
    as (t & owner & Hin & _ & _ & _ & _ & Hid & _ & _ & _).
  - reflexivity.
  - exists t, owner. split; [exact Hin|].
    destruct Hin as [<-|[]]. split; [reflexivity|]. split; [exact Hid|]. reflexivity.
Defined.

(** X14.  No answer carries a password hash: the user in the answer of
    [login], [refreshToken] and [verifyEmail], the user [validateUser]
    accepts, and the user [findByEmail] and [findOne] return, all have the
    password field absent. *)
Theorem answers_carry_no_password (bcrypt_compare : string -> string -> bool)
    (sha256 : string -> string) (config : Config) (LocalTZA : Z -> bool -> Z) (db : Database) :
  (forall email password userAgent ipAddress now secret result,
     fst (AuthService.login bcrypt_compare sha256 config LocalTZA email password
            userAgent ipAddress now secret db) = Resolved result ->
     User.password (user result) = None)
  /\ (forall presented userAgent ipAddress now secret result,
        fst (AuthService.refreshToken sha256 config LocalTZA presented
               userAgent ipAddress now secret db) = Resolved result ->
        User.password (user result) = None)
  /\ (forall email otp sweptAt now updatedAt message verified,
        fst (AuthService.verifyEmail bcrypt_compare email otp sweptAt now updatedAt db)
          = Resolved (message, verified) ->
        User.password verified = None)
  /\ (forall payload u,
        fst (AuthService.validateUser payload db) = Resolved (Some u) ->
        User.password u = None)
  /\ (forall email u,
        fst (UsersService.findByEmail email db) = Resolved (Some u) ->
        User.password u = None)
  /\ (forall id u,
        fst (UsersService.findOne id db) = Resolved u ->
        User.password u = None).
Proof.
  split; [|split; [|split; [|split; [|split]]]].
  - intros email password userAgent ipAddress now secret result.
    unfold AuthService.login, UsersService.findByEmailWithPassword,
      AuthService.generateTokens, bind, queryUsers, throw, ret. cbv beta.
    destruct (Repo.findOne _ (usersRepository db)) as [u|]; [|discriminate].
    destruct (User.emailVerified u); [|discriminate]. cbn [negb].
    destruct (User.password u); [|discriminate].
    destruct (bcrypt_compare _ _); [|discriminate]. cbn [negb fst snd].
    intros H. injection H as <-. reflexivity.
  - intros presented userAgent ipAddress now secret result H.
    destruct (refreshToken_rotated _ _ _ _ _ _ _ _ _ _ H)
      as (t & owner & _ & _ & _ & _ & _ & _ & -> & _).
    reflexivity.
  - intros email otp sweptAt now updatedAt message verified.
    rewrite verifyEmail_cases.
    destruct (OtpService.verifyEmailOtp _ _ _ _ _ db) as [[[|]|e] db1];
      try discriminate.
    destruct (Repo.findOne _ (usersRepository db1)) as [u|]; [|discriminate].
    destruct (User.emailVerified u); [discriminate|].
    destruct (UsersService.verifyEmail (User.id u) updatedAt db1) as [[v|e] db2];
      [|discriminate].
    cbn [fst]. intros H. injection H as _ <-. reflexivity.
  - intros payload u. rewrite validateUser_reads_users. cbn [fst].
    destruct (Repo.findOne _ _) as [row|]; [|discriminate].
    destruct (User.emailVerified row); [|discriminate].
    intros H. injection H as <-. reflexivity.
  - intros email u.
    unfold UsersService.findByEmail, bind, queryUsers, ret. cbn [fst].
    destruct (Repo.findOne _ _) as [row|]; [|discriminate].
    cbn [option_map]. intros H. injection H as <-. reflexivity.
  - intros id u.
    unfold UsersService.findOne, bind, queryUsers, ret, throw. cbv beta.
    destruct (Repo.findOne _ _) as [row|]; [|discriminate].
    cbn [fst]. intros H. injection H as <-. reflexivity.
Qed.

(** ** Users across calls *)

Lemma handle_users (bcrypt_hash : string -> Z -> string)
    (bcrypt_compare : string -> string -> bool) (sha256 : string -> string)
    (config : Config) (LocalTZA : Z -> bool -> Z) (q : Request) (db : Database) :
  users_step (usersRepository db)
    (usersRepository (handle bcrypt_hash bcrypt_compare sha256 config LocalTZA q db)).
Proof.
  destruct q; crunch.
  all: try (apply users_same; reflexivity).
  all: try (eapply users_verified; reflexivity).
  all: try (eapply users_created; [| | |reflexivity];
            [cbn; eassumption|reflexivity|reflexivity]).
Qed.

Lemma handle_sessions (bcrypt_hash : string -> Z -> string)
    (bcrypt_compare : string -> string -> bool) (sha256 : string -> string)
    (config : Config) (LocalTZA : Z -> bool -> Z) (q : Request) (db : Database) :
  sessions_step (sweepOf q) (refreshTokenRepository db)
    (refreshTokenRepository (handle bcrypt_hash bcrypt_compare sha256 config LocalTZA q db)).
Proof.
  destruct q; crunch.
  all: try (apply sessions_same; reflexivity).
  all: try (eapply sessions_revoked; reflexivity).
  all: try (eapply sessions_swept; reflexivity).
  all: try (eapply sessions_minted; [|reflexivity]; reflexivity).
  all: try (eapply sessions_rotated; [|reflexivity]; reflexivity).
Qed.

Lemma NoDup_snoc {A} (l : list A) (a : A) :
  NoDup l -> ~ In a l -> NoDup (l ++ [a]).
Proof.
  intros Hl Ha. apply NoDup_app; [exact Hl|repeat constructor; intros []|].
  intros x Hx [<-|[]]. contradiction.
Qed.

Lemma users_step_wellFormed (r r' : Repository User.t) :
  users_step r r' -> usersWellFormed r -> usersWellFormed r'.
Proof.
  intros Hstep (Hemails & Hids & Hbound).
  destruct Hstep as [-> | u Hfind Hid Hv -> | id now ->].
  - repeat split; assumption.
  - unfold usersWellFormed. cbn [rows nextId]. rewrite !map_app. cbn [map].
    split; [|split].
    + apply NoDup_snoc; [exact Hemails|].
      intros Hin. apply in_map_iff in Hin. destruct Hin as (x & Ex & Hx).
      pose proof (find_none _ _ Hfind x Hx) as Hno. cbv beta in Hno.
      rewrite Ex, String.eqb_refl in Hno. discriminate.
    + apply NoDup_snoc; [exact Hids|].
      intros Hin. apply in_map_iff in Hin. destruct Hin as (x & Ex & Hx).
      specialize (Hbound x Hx). lia.
    + intros x Hx. apply in_app_or in Hx. destruct Hx as [Hx|[<-|[]]].
      * specialize (Hbound x Hx). lia.
      * lia.
  - unfold usersWellFormed. cbn [rows nextId].
    assert (Hsame : forall (T : Type) (f : User.t -> T),
               (forall x, f (User.setEmailVerified now x) = f x) ->
               map f (map (fun x => if User.id x =? id
                                    then User.setEmailVerified now x else x) (rows r))
               = map f (rows r)).
    { intros T f Hf. rewrite map_map. apply map_ext. intros x.
      destruct (User.id x =? id); [apply Hf|reflexivity]. }
    rewrite (Hsame _ User.email), (Hsame _ User.id) by reflexivity.
    split; [exact Hemails|]. split; [exact Hids|].
    intros x Hx. apply in_map_iff in Hx. destruct Hx as (y & Ey & Hy).
    specialize (Hbound y Hy).
    destruct (User.id y =? id); subst x; exact Hbound.
Qed.

Lemma sameUser_refl (u : User.t) : sameUser u u.
Proof. repeat split; auto. Qed.

Lemma sameUser_trans (u v w : User.t) : sameUser u v -> sameUser v w -> sameUser u w.
Proof.
  intros (A1 & A2 & A3 & A4 & A5 & A6) (B1 & B2 & B3 & B4 & B5 & B6).
  repeat split; try congruence. auto.
Qed.

Lemma users_step_persist (r r' : Repository User.t) (u : User.t) :
  users_step r r' -> In u (rows r) ->
  exists u', In u' (rows r') /\ sameUser u u'.
Proof.
  intros Hstep Hin.
  destruct Hstep as [-> | n Hfind Hid Hv -> | id now ->].
  - exists u. split; [exact Hin|apply sameUser_refl].
  - exists u. split; [cbn [rows]; apply in_or_app; now left|apply sameUser_refl].
  - exists (if User.id u =? id then User.setEmailVerified now u else u).
    split.
    + cbn [rows]. apply in_map_iff. exists u. auto.
    + destruct (User.id u =? id); [|apply sameUser_refl].
      repeat split; reflexivity.
Qed.

Section UsersHistories.
Variable bcrypt_hash : string -> Z -> string.
Variable bcrypt_compare : string -> string -> bool.
Variable sha256 : string -> string.
Variable config : Config.
Variable LocalTZA : Z -> bool -> Z.

(** X15.  In every database reached from the empty one, no two users
    share an email, no two share an id, and every id is below the
    auto-increment counter. *)
Theorem users_stay_wellFormed (history : list Request) :
  usersWellFormed
    (usersRepository (run bcrypt_hash bcrypt_compare sha256 config LocalTZA emptyDatabase history)).
Proof.
  assert (H : forall db, usersWellFormed (usersRepository db) ->
                         usersWellFormed
                           (usersRepository
                              (run bcrypt_hash bcrypt_compare sha256 config LocalTZA db history))).
  { induction history as [|q history IH]; intros db Hdb; simpl; [exact Hdb|].
    apply IH. eapply users_step_wellFormed; [apply handle_users|exact Hdb]. }
  apply H. repeat split; try constructor. intros u [].
Qed.

(** X16.  No call of the authentication or OTP services deletes a user,
    changes its id, email, name, password hash or creation time, or turns
    [emailVerified] back to false: every user row of a database has its
    counterpart after any history of calls. *)
Theorem users_persist (history : list Request) (db : Database) (u : User.t) :
  In u (rows (usersRepository db)) ->
  exists u',
    In u' (rows (usersRepository
                   (run bcrypt_hash bcrypt_compare sha256 config LocalTZA db history)))
    /\ sameUser u u'.
Proof.
  revert db u. induction history as [|q history IH]; intros db u Hin; simpl.
  - exists u. split; [exact Hin|apply sameUser_refl].
  - destruct (users_step_persist _ _ u
                (handle_users bcrypt_hash bcrypt_compare sha256 config LocalTZA q db) Hin)
      as (v & Hv & Huv).
    destruct (IH _ v Hv) as (w & Hw & Hvw).
    exists w. split; [exact Hw|]. eapply sameUser_trans; eassumption.
Qed.
End UsersHistories.

Lemma users_persist_witness :
  exists u',
    In u' (rows (usersRepository
                   (run Fixture.bcrypt_hash Fixture.bcrypt_compare Fixture.sha256
                      Fixture.config Fixture.LocalTZA (Fixture.withUsers [Fixture.alice true])
                      [Login "a@x.com" "Password1" None None 3000 "s1";
                       Logout "s1" 4000])))
    /\ sameUser (Fixture.alice true) u'.
Proof.
  apply (users_persist Fixture.bcrypt_hash Fixture.bcrypt_compare Fixture.sha256
           Fixture.config
           Fixture.LocalTZA [Login "a@x.com" "Password1" None None 3000 "s1"; Logout "s1" 4000]
           (Fixture.withUsers [Fixture.alice true]) (Fixture.alice true)).
  simpl. now left.
Defined.

(** ** Sessions across calls *)

Lemma sameSession_refl (x : RefreshToken.t) : sameSession x x.
Proof. repeat split; auto. Qed.

Lemma sessions_step_wellFormed (sweep : option Date) (r r' : Repository RefreshToken.t) :
  sessions_step sweep r r' -> sessionsWellFormed r -> sessionsWellFormed r'.
Proof.
  intros Hstep (Hids & Hbound).
  assert (Hmap : forall (c : RefreshToken.t -> bool) (now : Date),
             map RefreshToken.id
               (map (fun x => if c x then RefreshToken.setRevoked now x else x) (rows r))
             = map RefreshToken.id (rows r)).
  { intros c now. rewrite map_map. apply map_ext. intros x. now destruct (c x). }
  assert (Hmapbound : forall (c : RefreshToken.t -> bool) (now : Date) x,
             In x (map (fun x => if c x then RefreshToken.setRevoked now x else x) (rows r)) ->
             RefreshToken.id x < nextId r).
  { intros c now x Hx. apply in_map_iff in Hx. destruct Hx as (y & Ey & Hy).
    specialize (Hbound y Hy). destruct (c y); subst x; exact Hbound. }
  destruct Hstep as [-> | c now -> | row Hid -> | c now row Hid -> | now _ ->];
    unfold sessionsWellFormed; cbn [rows nextId].
  - split; assumption.
  - rewrite Hmap. split; [exact Hids|apply Hmapbound].
  - rewrite map_app. cbn [map]. split.
    + apply NoDup_snoc; [exact Hids|].
      intros Hin. apply in_map_iff in Hin. destruct Hin as (x & Ex & Hx).
      specialize (Hbound x Hx). lia.
    + intros x Hx. apply in_app_or in Hx. destruct Hx as [Hx|[<-|[]]].
      * specialize (Hbound x Hx). lia.
      * lia.
  - rewrite map_app, Hmap. cbn [map]. split.
    + apply NoDup_snoc; [exact Hids|].
      intros Hin. apply in_map_iff in Hin. destruct Hin as (x & Ex & Hx).
      specialize (Hbound x Hx). lia.
    + intros x Hx. apply in_app_or in Hx. destruct Hx as [Hx|[<-|[]]].
      * specialize (Hmapbound c now x Hx). lia.
      * lia.
  - split.
    + pose proof (NoDup_map_filter RefreshToken.id
                    (fun x => negb (RefreshToken.expiresAt x <? now)) (rows r) []) as H.
      rewrite !app_nil_r in H. now apply H.
    + intros x Hx. apply filter_In in Hx. apply Hbound. tauto.
Qed.

Lemma sessions_step_persist (sweep : option Date) (r r' : Repository RefreshToken.t)
    (x : RefreshToken.t) :
  sessions_step sweep r r' -> In x (rows r) -> sessionPersists sweep r' x.
Proof.
  intros Hstep Hin.
  assert (Hrev : forall (c : RefreshToken.t -> bool) (now : Date),
             sameSession x (if c x then RefreshToken.setRevoked now x else x)).
  { intros c now. destruct (c x); repeat split; auto. }
  destruct Hstep as [-> | c now -> | row Hid -> | c now row Hid -> | now Hs ->];
    cbn [rows].
  - left. exists x. split; [exact Hin|apply sameSession_refl].
  - left. eexists. split; [apply in_map_iff; exists x; split; [reflexivity|exact Hin]|].
    apply Hrev.
  - left. exists x. split; [apply in_or_app; now left|apply sameSession_refl].
  - left. eexists. split; [|apply (Hrev c now)].
    apply in_or_app. left. apply in_map_iff. exists x. auto.
  - destruct (RefreshToken.expiresAt x <? now) eqn:E.
    + right. exists now. split; [exact Hs|]. now apply Z.ltb_lt.
    + left. exists x. split; [|apply sameSession_refl].
      cbn [rows]. apply filter_In. rewrite E. auto.
Qed.

Section SessionsHistories.
Variable bcrypt_hash : string -> Z -> string.
Variable bcrypt_compare : string -> string -> bool.
Variable sha256 : string -> string.
Variable config : Config.
Variable LocalTZA : Z -> bool -> Z.

(** X17.  In every database reached from the empty one, session ids are
    pairwise distinct and below the auto-increment counter, and every
    stored hash is the SHA-256 of a secret drawn by a login or a rotation
    of the history: the table never holds a plaintext secret. *)
Theorem sessions_stay_wellFormed (history : list Request) :
  let db := run bcrypt_hash bcrypt_compare sha256 config LocalTZA emptyDatabase history in
  sessionsWellFormed (refreshTokenRepository db)
  /\ incl (hashes db) (map sha256 (flat_map drawn history)).
Proof.
  cbv zeta. split.
  - assert (H : forall db, sessionsWellFormed (refreshTokenRepository db) ->
                           sessionsWellFormed
                             (refreshTokenRepository
                                (run bcrypt_hash bcrypt_compare sha256 config LocalTZA db history))).
    { induction history as [|q history IH]; intros db Hdb; simpl; [exact Hdb|].
      apply IH. eapply sessions_step_wellFormed; [apply handle_sessions|exact Hdb]. }
    apply H. split; [constructor|intros x []].
  - assert (H : forall db seen, incl (hashes db) seen ->
                  incl (hashes (run bcrypt_hash bcrypt_compare sha256 config LocalTZA db history))
                       (seen ++ map sha256 (flat_map drawn history))).
    { induction history as [|q history IH]; intros db seen Hdb; simpl.
      - rewrite app_nil_r. exact Hdb.
      - rewrite map_app, app_assoc. apply IH.
        unfold hashes.
        pose proof (handle_tokens bcrypt_hash bcrypt_compare sha256 config LocalTZA q db) as Hstep.
        destruct Hstep as [E | c now E | r Ef E | c now r Ef E | keep E]; rewrite E.
        + apply incl_appl. exact Hdb.
        + rewrite hashedToken_after_revocations. apply incl_appl. exact Hdb.
        + rewrite map_app. cbn [map]. rewrite Ef.
          apply incl_app; [apply incl_appl; exact Hdb|apply incl_appr, incl_refl].
        + rewrite map_app, hashedToken_after_revocations. cbn [map]. rewrite Ef.
          apply incl_app; [apply incl_appl; exact Hdb|apply incl_appr, incl_refl].
        + apply incl_appl. intros h Hh. apply Hdb.
          apply in_map_iff in Hh. destruct Hh as (x & <- & Hx).
          apply in_map. apply filter_In in Hx. tauto. }
    apply (H emptyDatabase []). intros h [].
Qed.

(** X18.  A call changes a session row only by revoking it: every row of
    the table has a counterpart after the call with the same id, hash,
    owner, expiry, creation time, user agent and address, still revoked if
    it was; the one exception is the sessions sweep, which deletes the rows
    that expired before its clock reading. *)
Theorem sessions_only_revoked (q : Request) (db : Database) (x : RefreshToken.t) :
  In x (rows (refreshTokenRepository db)) ->
  sessionPersists (sweepOf q)
    (refreshTokenRepository (handle bcrypt_hash bcrypt_compare sha256 config LocalTZA q db)) x.
Proof.
  intros Hin. eapply sessions_step_persist; [apply handle_sessions|exact Hin].
Qed.
End SessionsHistories.

Lemma sessions_only_revoked_witness :
  sessionPersists None
    (refreshTokenRepository
       (handle Fixture.bcrypt_hash Fixture.bcrypt_compare Fixture.sha256 Fixture.config Fixture.LocalTZA
          (Logout "s1" 5000)
          (Fixture.withSessions [Fixture.session 1 "s1" 9000 false 1] emptyDatabase)))
    (Fixture.session 1 "s1" 9000 false 1).
Proof.
  apply (sessions_only_revoked Fixture.bcrypt_hash Fixture.bcrypt_compare
           Fixture.sha256 Fixture.config Fixture.LocalTZA (Logout "s1" 5000)
           (Fixture.withSessions [Fixture.session 1 "s1" 9000 false 1] emptyDatabase)
           (Fixture.session 1 "s1" 9000 false 1)).
  simpl. now left.
Defined.

(** ** Registration, resend and verification *)

Section Onboarding.
Variable bcrypt_hash : string -> Z -> string.
Variable bcrypt_compare : string -> string -> bool.
Variable sha256 : string -> string.
Variable config : Config.
Variable LocalTZA : Z -> bool -> Z.

(** [registerDto.name || null]. *)
Let nameOrNull (name : option string) : option string :=
  match name with
  | Some s => if (s =? "")%string then None else Some s
  | None => None
  end.

(** The user row [UsersService.create] saves. *)
Let created (db : Database) (email password : string) (name : option string)
    (now : Date) : User.t :=
  User.mk (nextId (usersRepository db)) email name
    (Some (bcrypt_hash password 12)) false now now.

Let withUser (db : Database) (u : User.t) : Database :=
  setUsers (mkRepository (rows (usersRepository db) ++ [u])
                         (nextId (usersRepository db) + 1)) db.

(** A creation under a free email. *)
Lemma create_fresh (email password : string) (name : option string)
    (now : Date) (db : Database) :
  Repo.findOne (fun x => (User.email x =? email)%string) (usersRepository db) = None ->
  UsersService.create bcrypt_hash email password name now db
  = (Resolved (created db email password name now),
     withUser db (created db email password name now)).
Proof.
  intros Hnone.
  unfold UsersService.create, bind, queryUsers. cbv beta. rewrite Hnone.
  reflexivity.
Qed.

(** X19.  [UsersService.create] refuses an email that a row already has,
    without writing.  Otherwise it appends an unverified row that holds
    the bcrypt hash of the password at cost 12 under the next id; the new
    row is then what a lookup by email finds, and a second creation with
    that email is refused. *)
Theorem create_then_find (email password : string) (name : option string)
    (now : Date) (db : Database) (password' : string) (name' : option string)
    (now' : Date) :
  (forall existing,
     Repo.findOne (fun x => (User.email x =? email)%string) (usersRepository db)
       = Some existing ->
     UsersService.create bcrypt_hash email password name now db
     = (Rejected (ConflictException "User with this email already exists"), db))
  /\
  (Repo.findOne (fun x => (User.email x =? email)%string) (usersRepository db) = None ->
   let u := created db email password name now in
   UsersService.create bcrypt_hash email password name now db
     = (Resolved u, withUser db u)
   /\ UsersService.findByEmailWithPassword email (withUser db u)
      = (Resolved (Some u), withUser db u)
   /\ UsersService.create bcrypt_hash email password' name' now' (withUser db u)
      = (Rejected (ConflictException "User with this email already exists"),
         withUser db u)).
Proof.
  split.
  - intros existing Hfind.
    unfold UsersService.create, bind, queryUsers. cbv beta. now rewrite Hfind.
  - intros Hnone. cbv zeta.
    assert (Hfound : Repo.findOne (fun x => (User.email x =? email)%string)
                       (usersRepository (withUser db (created db email password name now)))
                     = Some (created db email password name now)).
    { unfold withUser, Repo.findOne. cbn [usersRepository setUsers rows].
      rewrite find_app_skip; [|exact (find_none _ _ Hnone)].
      unfold created. cbn. now rewrite String.eqb_refl. }
    split; [|split].
    + unfold UsersService.create, bind, queryUsers. cbv beta. rewrite Hnone.
      reflexivity.
    + unfold UsersService.findByEmailWithPassword, queryUsers. now rewrite Hfound.
    + unfold UsersService.create, bind, queryUsers. cbv beta. now rewrite Hfound.
Qed.

(** A registration under a free email. *)
Lemma register_fresh (email password : string) (name : option string)
    (now sweptAt checkedAt stampedAt savedAt : Date) (draw : Number.t) (delivered : bool)
    (db : Database) :
  Repo.findOne (fun x => (User.email x =? email)%string) (usersRepository db) = None ->
  AuthService.register bcrypt_hash config email password name
    now sweptAt checkedAt stampedAt savedAt draw delivered db
  = (Resolved
       (if delivered
        then "Registration successful. Please check your email for verification code."
        else "Registration successful. However, there was an issue sending the verification email. Please try resending the OTP.",
        email),
     snd (OtpService.createEmailVerificationOtp bcrypt_hash config email
            (Some (User.id (created db email password (nameOrNull name) now)))
            sweptAt checkedAt stampedAt savedAt draw
            (withUser db (created db email password (nameOrNull name) now)))).
Proof.
  intros Hnone.
  unfold AuthService.register.
  unfold bind at 1. unfold UsersService.findByEmail, bind at 1, queryUsers, ret.
  cbv beta. rewrite Hnone. cbn [option_map].
  fold (nameOrNull name).
  unfold bind at 1.
  rewrite (create_fresh email password (nameOrNull name) now db Hnone).
  unfold tryCatch, bind at 1.
  rewrite (createEmailVerificationOtp_effect bcrypt_hash config email).
  2: { apply references_In. unfold withUser. cbn [usersRepository setUsers rows].
       apply in_or_app. right. now left. }
  cbn [fst snd]. unfold bind, sendMail, ret, throw.
  destruct delivered; reflexivity.
Qed.

(** X20.  [register] refuses an email that is taken, without writing.
    Otherwise it always reports success, also when the mail cannot be
    delivered (the message then says so): the user is created unverified
    and the OTP row is stored in both cases. *)
Theorem register_outcome (email password : string) (name : option string)
    (now sweptAt checkedAt stampedAt savedAt : Date) (draw : Number.t) (delivered : bool)
    (db : Database) :
  (forall existing,
     Repo.findOne (fun x => (User.email x =? email)%string) (usersRepository db)
       = Some existing ->
     AuthService.register bcrypt_hash config email password name
       now sweptAt checkedAt stampedAt savedAt draw delivered db
     = (Rejected (ConflictException "User with this email already exists"), db))
  /\
  (Repo.findOne (fun x => (User.email x =? email)%string) (usersRepository db) = None ->
   let u := created db email password (nameOrNull name) now in
   AuthService.register bcrypt_hash config email password name
     now sweptAt checkedAt stampedAt savedAt draw delivered db
   = (Resolved
        (if delivered
         then "Registration successful. Please check your email for verification code."
         else "Registration successful. However, there was an issue sending the verification email. Please try resending the OTP.",
         email),
      snd (OtpService.createEmailVerificationOtp bcrypt_hash config email
             (Some (User.id u)) sweptAt checkedAt stampedAt savedAt draw
             (withUser db u)))).
Proof.
  split.
  - intros existing Hfind.
    unfold AuthService.register, UsersService.findByEmail, bind, queryUsers, ret.
    cbv beta. now rewrite Hfind.
  - intros Hnone. cbv zeta. now apply register_fresh.
Qed.

(** X21.  [resendOtp] answers [NotFound] for an absent user and
    [BadRequest] for a verified one, without writing.  For an unverified
    user it issues a new OTP, which invalidates the earlier ones, and then
    mails it: when the mail fails the call fails with "Failed to send
    OTP", and the new row stays stored. *)
Theorem resendOtp_outcome (email : string)
    (sweptAt checkedAt stampedAt savedAt : Date) (draw : Number.t) (delivered : bool)
    (db : Database) :
  let answer := AuthService.resendOtp bcrypt_hash config email
                  sweptAt checkedAt stampedAt savedAt draw delivered db in
  match Repo.findOne (fun x => (User.email x =? email)%string) (usersRepository db) with
  | None => answer = (Rejected (NotFoundException "User not found"), db)
  | Some u =>
      if User.emailVerified u
      then answer = (Rejected (BadRequestException "Email is already verified"), db)
      else answer
           = (if delivered
              then Resolved "OTP sent successfully. Please check your email."
              else Rejected (BadRequestException
                               "Failed to send OTP. Please try again later."),
              snd (OtpService.createEmailVerificationOtp bcrypt_hash config email
                     (Some (User.id u)) sweptAt checkedAt stampedAt savedAt draw db))
  end.
Proof.
  cbv zeta.
  assert (Hunfold :
    AuthService.resendOtp bcrypt_hash config email
      sweptAt checkedAt stampedAt savedAt draw delivered db
    = match Repo.findOne (fun x => (User.email x =? email)%string)
              (usersRepository db) with
      | None => (Rejected (NotFoundException "User not found"), db)
      | Some u =>
          if User.emailVerified u
          then (Rejected (BadRequestException "Email is already verified"), db)
          else
            (if delivered
             then Resolved "OTP sent successfully. Please check your email."
             else Rejected (BadRequestException
                              "Failed to send OTP. Please try again later."),
             snd (OtpService.createEmailVerificationOtp bcrypt_hash config email
                    (Some (User.id u)) sweptAt checkedAt stampedAt savedAt draw db))
      end).
  { unfold AuthService.resendOtp.
    unfold bind at 1. unfold UsersService.findByEmail, bind at 1, queryUsers, ret.
    cbv beta.
    destruct (Repo.findOne _ (usersRepository db)) as [u|] eqn:Efound;
      cbn [option_map]; [|reflexivity].
    change (User.emailVerified (User.withoutPassword u)) with (User.emailVerified u).
    change (User.id (User.withoutPassword u)) with (User.id u).
    destruct (User.emailVerified u); [reflexivity|].
    unfold tryCatch, bind at 1.
    rewrite (createEmailVerificationOtp_effect bcrypt_hash config email)
      by (apply references_In; exact (proj1 (find_some _ _ Efound))).
    cbn [fst snd]. unfold bind, sendMail, ret, throw.
    destruct delivered; reflexivity. }
  rewrite Hunfold.
  destruct (Repo.findOne _ (usersRepository db)) as [u|]; [|reflexivity].
  destruct (User.emailVerified u); reflexivity.
Qed.
End Onboarding.

Lemma find_map_preserving {A} (c : A -> bool) (f : A -> A) (l : list A) :
  (forall x, c (f x) = c x) ->
  List.find c (map f l) = option_map f (List.find c l).
Proof.
  intros Hc. induction l as [|a l IH]; simpl; [reflexivity|].
  rewrite Hc. destruct (c a); [reflexivity|exact IH].
Qed.

(** The user [UsersService.verifyEmail] reads back is verified. *)
Lemma UsersService_verifyEmail_verified (db : Database) (u : User.t) (updatedAt : Date) :
  In u (rows (usersRepository db)) ->
  exists v,
    UsersService.verifyEmail (User.id u) updatedAt db
    = (Resolved v,
       setUsers (fst (Repo.update (fun x => User.id x =? User.id u)
                        (User.setEmailVerified updatedAt) (usersRepository db)))
                db)
    /\ User.emailVerified v = true
    /\ User.id v = User.id u.
Proof.
  intros Hin.
  destruct (UsersService_verifyEmail_resolves db u updatedAt Hin) as [v Hv].
  exists v. split; [exact Hv|].
  unfold UsersService.verifyEmail, bind, execUsers, UsersService.findOne, bind,
    queryUsers in Hv.
  unfold Repo.update, Repo.findOne in Hv.
  cbn [fst snd usersRepository setUsers rows] in Hv.
  destruct (List.find (fun x => User.id x =? User.id u)
              (map (fun x => if User.id x =? User.id u
                             then User.setEmailVerified updatedAt x else x)
                   (rows (usersRepository db)))) as [w|] eqn:Ew; [|discriminate].
  apply find_some in Ew. destruct Ew as [Hw Hid]. apply Z.eqb_eq in Hid.
  unfold ret in Hv. injection Hv as <-.
  apply in_map_iff in Hw. destruct Hw as (y & Ey & _).
  destruct (User.id y =? User.id u) eqn:Eyu; subst w.
  - split; [reflexivity|exact Hid].
  - apply Z.eqb_neq in Eyu. contradiction.
Qed.

Section EndToEnd.
Variable bcrypt_hash : string -> Z -> string.
Variable bcrypt_compare : string -> string -> bool.
Variable sha256 : string -> string.
Variable config : Config.
Variable LocalTZA : Z -> bool -> Z.

(** X22.  Registration, verification and login compose.  After a
    registration under a free email, a login with the password is refused
    until the email is verified; a [verifyEmail] with the issued code,
    before it expires, succeeds and answers with a verified user; a login
    with the password then succeeds for that email.  bcrypt is taken to
    accept a text against its own hash. *)
Theorem register_verify_login (email password : string) (name : option string)
    (now sweptAt checkedAt stampedAt savedAt : Date) (draw : Number.t) (delivered : bool)
    (db : Database) (sweptAt' now' updatedAt : Date)
    (userAgent ipAddress : option string) (loginAt : Date) (secret : string) :
  let code := OtpService.generateOtp draw in
  let expiresAt := stampedAt + OTP_EXPIRY_MINUTES config * 60 * 1000 in
  let registered :=
    snd (AuthService.register bcrypt_hash config email password name
           now sweptAt checkedAt stampedAt savedAt draw delivered db) in
  let verified :=
    AuthService.verifyEmail bcrypt_compare email code sweptAt' now' updatedAt registered in
  Repo.findOne (fun x => (User.email x =? email)%string) (usersRepository db) = None ->
  bcrypt_compare code (bcrypt_hash code 10) = true ->
  bcrypt_compare password (bcrypt_hash password 12) = true ->
  sweptAt' <= expiresAt ->
  now' <= expiresAt ->
  fst (AuthService.login bcrypt_compare sha256 config LocalTZA email password
         userAgent ipAddress loginAt secret registered)
    = Rejected (UnauthorizedException "Please verify your email before logging in")
  /\ (exists u,
        fst verified = Resolved ("Email verified successfully", u)
        /\ User.emailVerified u = true)
  /\ (exists session,
        fst (AuthService.login bcrypt_compare sha256 config LocalTZA email password
               userAgent ipAddress loginAt secret (snd verified))
          = Resolved session
        /\ refreshToken session = secret
        /\ User.email (user session) = email
        /\ User.emailVerified (user session) = true).
Proof.
  cbv zeta. intros Hfree Hcode Hpass Hs Hn.
  rewrite (register_fresh bcrypt_hash config email password name
             now sweptAt checkedAt stampedAt savedAt draw delivered db Hfree).
  cbn [snd].
  set (u := User.mk (nextId (usersRepository db)) email
              match name with
              | Some s => if (s =? "")%string then None else Some s
              | None => None
              end
              (Some (bcrypt_hash password 12)) false now now).
  set (db1 := setUsers (mkRepository (rows (usersRepository db) ++ [u])
                                     (nextId (usersRepository db) + 1)) db).
  set (registered := snd (OtpService.createEmailVerificationOtp bcrypt_hash config email
                            (Some (User.id u)) sweptAt checkedAt stampedAt savedAt
                            draw db1)).
  assert (Href : references (Some (User.id u)) (usersRepository db1) = true).
  { apply references_In. unfold db1. cbn [usersRepository setUsers rows].
    apply in_or_app. right. now left. }
  assert (Husers : usersRepository registered = usersRepository db1).
  { unfold registered. now rewrite createEmailVerificationOtp_effect. }
  assert (Hfind : Repo.findOne (fun x => (User.email x =? email)%string)
                    (usersRepository registered) = Some u).
  { rewrite Husers. unfold db1, Repo.findOne. cbn [usersRepository setUsers rows].
    rewrite find_app_skip; [|exact (find_none _ _ Hfree)].
    cbn. now rewrite String.eqb_refl. }
  split; [|split].
  - unfold AuthService.login, UsersService.findByEmailWithPassword, bind, queryUsers.
    cbv beta. rewrite Hfind. reflexivity.
  - rewrite verifyEmail_cases.
    destruct (createEmailVerificationOtp_rows bcrypt_hash config email
                (Some (User.id u)) sweptAt checkedAt stampedAt savedAt draw db1 Href)
      as (l & new & Hrows & Hl & Hnew & Hhash & Hexp).
    fold registered in Hrows.
    rewrite (verifyEmailOtp_sole_pending _ _ _ _ _ _ l new Hrows Hl Hnew).
    rewrite Hexp, Hhash, Hcode.
    apply Z.ltb_ge in Hs, Hn. rewrite Hs, Hn.
    change (usersRepository (consumed (Otp.id new) (swept sweptAt' registered)))
      with (usersRepository registered).
    rewrite Hfind. cbn [User.emailVerified u].
    assert (Hin : In u (rows (usersRepository
                                (consumed (Otp.id new) (swept sweptAt' registered))))).
    { change (usersRepository (consumed (Otp.id new) (swept sweptAt' registered)))
        with (usersRepository registered).
      apply find_some in Hfind. tauto. }
    destruct (UsersService_verifyEmail_verified _ u updatedAt Hin) as (v & Hv & Hver & _).
    rewrite Hv. exists (User.withoutPassword v). split; [reflexivity|exact Hver].
  - rewrite verifyEmail_cases.
    destruct (createEmailVerificationOtp_rows bcrypt_hash config email
                (Some (User.id u)) sweptAt checkedAt stampedAt savedAt draw db1 Href)
      as (l & new & Hrows & Hl & Hnew & Hhash & Hexp).
    fold registered in Hrows.
    rewrite (verifyEmailOtp_sole_pending _ _ _ _ _ _ l new Hrows Hl Hnew).
    rewrite Hexp, Hhash, Hcode.
    apply Z.ltb_ge in Hs, Hn. rewrite Hs, Hn.
    change (usersRepository (consumed (Otp.id new) (swept sweptAt' registered)))
      with (usersRepository registered).
    rewrite Hfind. cbn [User.emailVerified u].
    assert (Hin : In u (rows (usersRepository
                                (consumed (Otp.id new) (swept sweptAt' registered))))).
    { change (usersRepository (consumed (Otp.id new) (swept sweptAt' registered)))
        with (usersRepository registered).
      apply find_some in Hfind. tauto. }
    destruct (UsersService_verifyEmail_verified _ u updatedAt Hin) as (v & Hv & _).
    rewrite Hv. cbn [snd].
    eexists.
    rewrite (login_resolved bcrypt_compare sha256 config LocalTZA email password
               userAgent ipAddress loginAt secret _
               (User.setEmailVerified updatedAt u) (bcrypt_hash password 12)).
    + cbn [fst]. split; [reflexivity|]. repeat split.
    + unfold Repo.update, Repo.findOne.
      cbn [fst usersRepository setUsers rows].
      change (usersRepository (consumed (Otp.id new) (swept sweptAt' registered)))
        with (usersRepository registered).
      rewrite find_map_preserving.
      * unfold Repo.findOne in Hfind. rewrite Hfind. cbn [option_map].
        now rewrite Z.eqb_refl.
      * intros x. now destruct (User.id x =? User.id u).
    + reflexivity.
    + reflexivity.
    + exact Hpass.
Qed.
End EndToEnd.

Lemma register_verify_login_witness :
  let registered :=
    snd (AuthService.register Fixture.bcrypt_hash Fixture.config
           "a@x.com" "Password1" (Some "A") 1000 1000 1000 1000 1000 (Fixture.randomFor 123456) true
           emptyDatabase) in
  let verified :=
    AuthService.verifyEmail Fixture.bcrypt_compare "a@x.com" "123456" 2000 2000 2000
      registered in
  fst (AuthService.login Fixture.bcrypt_compare Fixture.sha256 Fixture.config Fixture.LocalTZA
         "a@x.com" "Password1" None None 3000 "s1" registered)
    = Rejected (UnauthorizedException "Please verify your email before logging in")
  /\ (exists u,
        fst verified = Resolved ("Email verified successfully", u)
        /\ User.emailVerified u = true)
  /\ (exists session,
        fst (AuthService.login Fixture.bcrypt_compare Fixture.sha256 Fixture.config Fixture.LocalTZA
               "a@x.com" "Password1" None None 3000 "s1" (snd verified))
          = Resolved session
        /\ refreshToken session = "s1"
        /\ User.email (user session) = "a@x.com"
        /\ User.emailVerified (user session) = true).
Proof.
  cbv zeta.
  apply (register_verify_login Fixture.bcrypt_hash Fixture.bcrypt_compare
           Fixture.sha256 Fixture.config
           Fixture.LocalTZA "a@x.com" "Password1" (Some "A") 1000 1000 1000 1000 1000 (Fixture.randomFor 123456) true
           emptyDatabase 2000 2000 2000 None None 3000 "s1").
  - reflexivity.
  - reflexivity.
  - reflexivity.
  - vm_compute. discriminate.
  - vm_compute. discriminate.
Defined.

(** ** Counting active sessions *)

Lemma filter_one_less {A} (id : A -> Z) (p : A -> bool) (s : Z) (l : list A) (r : A) :
  NoDup (map id l) -> In r l -> p r = true -> id r = s ->
  List.length (filter p l)
  = S (List.length (filter (fun x => p x && negb (id x =? s)) l)).
Proof.
  induction l as [|a l IH]; simpl; intros Hnd Hin Hp Hs; [contradiction|].
  inversion Hnd as [|? ? Hna Hrest]; subst.
  destruct Hin as [->|Hin].
  - rewrite Hp, Z.eqb_refl. simpl. f_equal. f_equal.
    apply filter_ext_in. intros x Hx.
    destruct (id x =? id r) eqn:E; [|now rewrite andb_true_r].
    exfalso. apply Hna. apply Z.eqb_eq in E. rewrite <- E. now apply in_map.
  - assert (Ea : (id a =? id r) = false).
    { apply Z.eqb_neq. intros E. apply Hna. rewrite E. now apply in_map. }
    rewrite Ea, andb_true_r.
    destruct (p a); simpl; rewrite (IH Hrest Hin Hp eq_refl); reflexivity.
Qed.

Lemma filter_none_with_id {A} (id : A -> Z) (p : A -> bool) (s : Z) (l : list A) (r : A) :
  NoDup (map id l) -> In r l -> p r = false -> id r = s ->
  filter (fun x => p x && negb (id x =? s)) l = filter p l.
Proof.
  intros Hnd Hin Hp Hs. apply filter_ext_in. intros x Hx.
  destruct (id x =? s) eqn:E; [|now rewrite andb_true_r].
  apply Z.eqb_eq in E.
  assert (x = r) by (apply (NoDup_map_same id l); auto; congruence).
  subst x. rewrite Hp. reflexivity.
Qed.

Lemma activeFor_after_revoking_id (userId id : Z) (now : Date) (l : list RefreshToken.t) :
  filter (activeFor userId)
    (map (fun x => if RefreshToken.id x =? id then RefreshToken.setRevoked now x else x) l)
  = filter (fun x => activeFor userId x && negb (RefreshToken.id x =? id)) l.
Proof.
  induction l as [|a l IH]; simpl; [reflexivity|].
  rewrite IH. unfold activeFor.
  destruct (RefreshToken.id a =? id) eqn:E1,
           (RefreshToken.userId a =? userId) eqn:E2,
           (RefreshToken.revoked a) eqn:E3;
    cbn [andb negb RefreshToken.userId RefreshToken.revoked RefreshToken.setRevoked];
    rewrite ?E2, ?E3; cbn [andb negb]; reflexivity.
Qed.

Lemma getActiveSessions_length (userId : Z) (db : Database) :
  exists sessions,
    fst (AuthService.getActiveSessions userId db) = Resolved sessions
    /\ List.length sessions
       = List.length (filter (activeFor userId) (rows (refreshTokenRepository db))).
Proof.
  rewrite getActiveSessions_rows. eexists. split; [reflexivity|].
  now rewrite length_map, orderDesc_length.
Qed.

Lemma activeCount_rows (userId : Z) (db : Database) :
  activeCount userId db
  = List.length (filter (activeFor userId) (rows (refreshTokenRepository db))).
Proof.
  unfold activeCount. rewrite getActiveSessions_rows. cbn [fst].
  now rewrite length_map, orderDesc_length.
Qed.

(** X23.  Where session ids are unique (as in every database reached from
    the empty one), a rotation that succeeds leaves each user's number of
    listed sessions as it was: the owner loses the rotated session and
    gains its successor. *)
Theorem refreshToken_keeps_count (sha256 : string -> string) (config : Config) (LocalTZA : Z -> bool -> Z)
    (presented : string) (userAgent ipAddress : option string) (now : Date)
    (secret : string) (db : Database) (result : AuthResult) (userId : Z) :
  sessionsWellFormed (refreshTokenRepository db) ->
  fst (AuthService.refreshToken sha256 config LocalTZA presented userAgent ipAddress
         now secret db) = Resolved result ->
  activeCount userId
    (snd (AuthService.refreshToken sha256 config LocalTZA presented userAgent ipAddress
            now secret db))
  = activeCount userId db.
Proof.
  intros [Hids _] Hok.
  destruct (refreshToken_rotated _ _ _ _ _ _ _ _ _ _ Hok)
    as (t & owner & Hin & _ & Hr & _ & _ & _ & _ & Hrepo & _).
  rewrite !activeCount_rows, Hrepo. cbn [rows].
  rewrite filter_app, length_app, activeFor_after_revoking_id.
  cbn [filter]. unfold activeFor at 2.
  cbn [RefreshToken.userId RefreshToken.revoked negb].
  rewrite andb_true_r.
  destruct (RefreshToken.userId t =? userId) eqn:Eu.
  - rewrite (filter_one_less RefreshToken.id (activeFor userId) (RefreshToken.id t)
               (rows (refreshTokenRepository db)) t Hids Hin);
      [|unfold activeFor; now rewrite Eu, Hr|reflexivity].
    cbn [List.length]. apply Nat.add_1_r.
  - rewrite (filter_none_with_id RefreshToken.id (activeFor userId) (RefreshToken.id t)
               (rows (refreshTokenRepository db)) t Hids Hin);
      [|unfold activeFor; now rewrite Eu|reflexivity].
    cbn [List.length]. apply Nat.add_0_r.
Qed.

Lemma refreshToken_keeps_count_witness :
  let db := Fixture.withSessions [Fixture.session 1 "s1" 9000 false 1]
              (Fixture.withUsers [Fixture.alice true]) in
  activeCount 1
    (snd (AuthService.refreshToken Fixture.sha256 Fixture.config Fixture.LocalTZA "s1"
            None None 5000 "s2" db))
  = activeCount 1 db.
Proof.
  cbv zeta.
  apply (refreshToken_keeps_count Fixture.sha256 Fixture.config Fixture.LocalTZA "s1" None None 5000 "s2"
           (Fixture.withSessions [Fixture.session 1 "s1" 9000 false 1]
              (Fixture.withUsers [Fixture.alice true]))
           (mkAuthResult (User.withoutPassword (Fixture.alice true))
              (jwtSign (JWT_SECRET Fixture.config) (mkJwtPayload 1 "a@x.com" true) 5000
                 (JWT_ACCESS_EXPIRES_IN Fixture.config))
              "s2")
           1).
  - split.
    + simpl. repeat constructor. simpl. tauto.
    + intros x [<-|[]]. simpl. lia.
  - reflexivity.
Defined.

Lemma activeFor_after_revokeSession (userId sessionId : Z) (now : Date)
    (l : list RefreshToken.t) :
  filter (activeFor userId)
    (map (fun x => if revocable userId sessionId x
                   then RefreshToken.setRevoked now x else x) l)
  = filter (fun x => activeFor userId x && negb (RefreshToken.id x =? sessionId)) l.
Proof.
  induction l as [|a l IH]; simpl; [reflexivity|].
  rewrite IH. unfold revocable, activeFor.
  destruct (RefreshToken.id a =? sessionId) eqn:E1,
           (RefreshToken.userId a =? userId) eqn:E2,
           (RefreshToken.revoked a) eqn:E3;
    cbn [andb negb RefreshToken.userId RefreshToken.revoked RefreshToken.setRevoked];
    rewrite ?E1, ?E2, ?E3; cbn [andb negb]; reflexivity.
Qed.

Lemma revokeSession_rows (userId sessionId : Z) (now : Date) (db : Database) :
  rows (refreshTokenRepository (snd (AuthService.revokeSession userId sessionId now db)))
  = map (fun x => if revocable userId sessionId x
                  then RefreshToken.setRevoked now x else x)
        (rows (refreshTokenRepository db)).
Proof.
  unfold AuthService.revokeSession, bind, execRefreshTokens, Repo.update.
  fold (revocable userId sessionId). cbn [fst snd].
  destruct (Nat.eqb _ 0); reflexivity.
Qed.

Lemma revokeSession_resolved (userId sessionId : Z) (now : Date) (db : Database)
    (message : string) :
  fst (AuthService.revokeSession userId sessionId now db) = Resolved message ->
  exists r, In r (rows (refreshTokenRepository db))
            /\ revocable userId sessionId r = true.
Proof.
  unfold AuthService.revokeSession, bind, execRefreshTokens, Repo.update.
  fold (revocable userId sessionId). cbn [fst snd].
  destruct (filter (revocable userId sessionId) (rows (refreshTokenRepository db)))
    as [|r rest] eqn:Ef; [discriminate|].
  intros _. exists r.
  assert (Hr : In r (filter (revocable userId sessionId)
                       (rows (refreshTokenRepository db))))
    by (rewrite Ef; now left).
  now apply filter_In in Hr.
Qed.

(** X24.  Where session ids are unique, a [revokeSession] that succeeds
    removes exactly one session from the caller's listing, and a [login]
    that succeeds adds exactly one. *)
Theorem revoke_and_login_count (bcrypt_compare : string -> string -> bool)
    (sha256 : string -> string) (config : Config) (LocalTZA : Z -> bool -> Z) (db : Database) :
  (forall userId sessionId now message,
     sessionsWellFormed (refreshTokenRepository db) ->
     fst (AuthService.revokeSession userId sessionId now db) = Resolved message ->
     activeCount userId db
     = S (activeCount userId (snd (AuthService.revokeSession userId sessionId now db))))
  /\
  (forall email password userAgent ipAddress now secret session,
     fst (AuthService.login bcrypt_compare sha256 config LocalTZA email password
            userAgent ipAddress now secret db) = Resolved session ->
     activeCount (User.id (user session))
       (snd (AuthService.login bcrypt_compare sha256 config LocalTZA email password
               userAgent ipAddress now secret db))
     = S (activeCount (User.id (user session)) db)).
Proof.
  split.
  - intros userId sessionId now message [Hids _] Hok.
    destruct (revokeSession_resolved _ _ _ _ _ Hok) as (r & Hin & Hc).
    unfold revocable in Hc.
    apply andb_prop in Hc. destruct Hc as [Hc Hrev].
    apply andb_prop in Hc. destruct Hc as [Hid Hu].
    apply Z.eqb_eq in Hid.
    rewrite !activeCount_rows, revokeSession_rows, activeFor_after_revokeSession.
    apply (filter_one_less RefreshToken.id (activeFor userId) sessionId
             (rows (refreshTokenRepository db)) r Hids Hin);
      [unfold activeFor; now rewrite Hu, Hrev|exact Hid].
  - intros email password userAgent ipAddress now secret session.
    unfold AuthService.login, UsersService.findByEmailWithPassword,
      AuthService.generateTokens, bind, queryUsers, throw, ret. cbv beta.
    destruct (Repo.findOne _ (usersRepository db)) as [u|]; [|discriminate].
    destruct (User.emailVerified u); [|discriminate]. cbn [negb].
    destruct (User.password u); [|discriminate].
    destruct (bcrypt_compare _ _); [|discriminate]. cbn [negb fst snd].
    intros H. injection H as <-.
    rewrite !activeCount_rows.
    unfold execRefreshTokens, Repo.insert.
    cbn [fst snd refreshTokenRepository setRefreshTokens rows user User.id
         User.withoutPassword AuthService.sanitizeUser].
    unfold AuthService.sanitizeUser. cbn [User.id User.withoutPassword].
    rewrite filter_app, length_app. cbn [filter]. unfold activeFor at 2.
    cbn [RefreshToken.userId RefreshToken.revoked negb].
    rewrite Z.eqb_refl. simpl. lia.
Qed.

Lemma revoke_and_login_count_witness :
  let db := Fixture.withSessions [Fixture.session 1 "s1" 9000 false 1] emptyDatabase in
  activeCount 1 db = S (activeCount 1 (snd (AuthService.revokeSession 1 1 5000 db))).
Proof.
  cbv zeta.
  apply (proj1 (revoke_and_login_count Fixture.bcrypt_compare Fixture.sha256
                  Fixture.config Fixture.LocalTZA
                  (Fixture.withSessions [Fixture.session 1 "s1" 9000 false 1]
                     emptyDatabase))
           1 1 5000 "Session revoked successfully").
  - split.
    + simpl. repeat constructor. simpl. tauto.
    + intros x [<-|[]]. simpl. lia.
  - reflexivity.
Defined.

(** ** Configuration *)

(** X25.  [configuration] throws "JWT_SECRET environment variable is
    required" exactly when [JWT_SECRET] is unset or empty, throws
    "JWT_SECRET must be at least 32 characters long" exactly when it is set,
    not empty and shorter than 32, and produces a configuration otherwise.
    The secret is passed through unchanged; no numeric setting is ever
    zero, since a zero or unparsable value falls back to its default; and
    none of the nine string settings with a non-empty default is ever
    empty. *)
Theorem configuration_outcome (env : string -> option string)
    (parseInt : option string -> option Z) (length : string -> nat) :
  match Configuration.configuration env parseInt length with
  | inl e =>
      ((env "JWT_SECRET" = None \/ env "JWT_SECRET" = Some "")
       /\ e = Error "JWT_SECRET environment variable is required")
      \/ (exists s, env "JWT_SECRET" = Some s
                    /\ s <> ""
                    /\ (length s < 32)%nat
                    /\ e = Error "JWT_SECRET must be at least 32 characters long")
  | inr c =>
      env "JWT_SECRET" = Some (Configuration.secret (Configuration.jwt c))
      /\ Configuration.secret (Configuration.jwt c) <> ""
      /\ (32 <= length (Configuration.secret (Configuration.jwt c)))%nat
      /\ Configuration.app_port c <> 0
      /\ Configuration.port (Configuration.db c) <> 0
      /\ Configuration.expiryMinutes (Configuration.otp c) <> 0
      /\ Configuration.rateLimitMinutes (Configuration.otp c) <> 0
      /\ Configuration.smtp_port (Configuration.smtp c) <> 0
      /\ Configuration.redis_port (Configuration.redis c) <> 0
      /\ Configuration.nodeEnv c <> ""
      /\ Configuration.corsOrigin c <> ""
      /\ Configuration.host (Configuration.db c) <> ""
      /\ Configuration.username (Configuration.db c) <> ""
      /\ Configuration.password (Configuration.db c) <> ""
      /\ Configuration.database (Configuration.db c) <> ""
      /\ Configuration.accessExpiresIn (Configuration.jwt c) <> ""
      /\ Configuration.refreshExpiresIn (Configuration.jwt c) <> ""
      /\ Configuration.redis_host (Configuration.redis c) <> ""
  end.
Proof.
  assert (Hnum : forall value fallback,
            fallback <> 0 -> Configuration.orNumber parseInt value fallback <> 0).
  { intros value fallback Hf. unfold Configuration.orNumber.
    destruct (parseInt value) as [n|]; [|exact Hf].
    destruct (n =? 0) eqn:E; [exact Hf|]. now apply Z.eqb_neq. }
  assert (Hstr : forall value fallback,
            fallback <> "" -> Configuration.orString value fallback <> "").
  { intros value fallback Hf. unfold Configuration.orString.
    destruct value as [s|]; [|exact Hf].
    destruct (s =? "")%string eqn:E; [exact Hf|]. now apply String.eqb_neq. }
  unfold Configuration.configuration.
  destruct (env "JWT_SECRET") as [s|] eqn:Es.
  - destruct (s =? "")%string eqn:Ee.
    + left. apply String.eqb_eq in Ee. subst s. split; [now right|reflexivity].
    + apply String.eqb_neq in Ee.
      destruct (length s <? 32)%nat eqn:El.
      * right. exists s. apply Nat.ltb_lt in El. auto.
      * apply Nat.ltb_ge in El.
        cbn [Configuration.jwt Configuration.secret Configuration.app_port
             Configuration.db Configuration.port Configuration.otp
             Configuration.expiryMinutes Configuration.rateLimitMinutes
             Configuration.smtp Configuration.smtp_port Configuration.redis
             Configuration.redis_port Configuration.redis_host
             Configuration.nodeEnv Configuration.corsOrigin
             Configuration.host Configuration.username Configuration.password
             Configuration.database Configuration.accessExpiresIn
             Configuration.refreshExpiresIn].
        repeat split; try exact El; try exact Ee; try (apply Hnum; discriminate);
          try (apply Hstr; discriminate).
  - left. split; [now left|reflexivity].
Qed.

(** ** The sessions sweep *)

(** X26.  [cleanupExpiredRefreshTokens] deletes exactly the session rows
    that expired before its clock reading, revoked or not, and touches no
    other table.  Each user's listing loses its expired entries and keeps
    its order, and a rotation served no later than the sweep is never
    refused as expired: the token of a deleted row is invalid instead. *)
Theorem cleanupExpiredRefreshTokens_outcome (sha256 : string -> string)
    (config : Config) (LocalTZA : Z -> bool -> Z) (now : Date) (db : Database) (userId : Z)
    (presented : string) (userAgent ipAddress : option string) (now' : Date)
    (secret : string) :
  let after := snd (AuthService.cleanupExpiredRefreshTokens now db) in
  fst (AuthService.cleanupExpiredRefreshTokens now db) = Resolved tt
  /\ (forall r, In r (rows (refreshTokenRepository after))
                <-> In r (rows (refreshTokenRepository db))
                    /\ now <= RefreshToken.expiresAt r)
  /\ nextId (refreshTokenRepository after) = nextId (refreshTokenRepository db)
  /\ usersRepository after = usersRepository db
  /\ otpRepository after = otpRepository db
  /\ fst (AuthService.getActiveSessions userId after)
     = match fst (AuthService.getActiveSessions userId db) with
       | Resolved before =>
           Resolved (filter (fun s => negb (session_expiresAt s <? now)) before)
       | Rejected e => Rejected e
       end
  /\ (now' <= now ->
      fst (AuthService.refreshToken sha256 config LocalTZA presented userAgent ipAddress
             now' secret after)
      <> Rejected (UnauthorizedException "Refresh token expired")).
Proof.
  cbv zeta.
  assert (Hrows : rows (refreshTokenRepository
                          (snd (AuthService.cleanupExpiredRefreshTokens now db)))
                  = filter (fun r => negb (RefreshToken.expiresAt r <? now))
                           (rows (refreshTokenRepository db))) by reflexivity.
  assert (Hin : forall r,
             In r (rows (refreshTokenRepository
                           (snd (AuthService.cleanupExpiredRefreshTokens now db))))
             <-> In r (rows (refreshTokenRepository db))
                 /\ now <= RefreshToken.expiresAt r).
  { intros r. rewrite Hrows, filter_In, negb_true_iff, Z.ltb_ge. reflexivity. }
  split; [reflexivity|]. split; [exact Hin|].
  split; [reflexivity|]. split; [reflexivity|]. split; [reflexivity|].
  split.
  - rewrite !getActiveSessions_rows. cbn [fst]. rewrite Hrows.
    rewrite filter_filter_both.
    rewrite (filter_map_swap' AuthService.toSession).
    rewrite orderDesc_filter, filter_filter_both.
    cbn [session_expiresAt AuthService.toSession].
    f_equal. f_equal. f_equal.
    apply filter_ext. intros r. apply andb_comm.
  - intros Hearly.
    unfold AuthService.refreshToken, AuthService.findTokenEntity.
    unfold bind at 1. unfold bind at 1. unfold queryRefreshTokens at 1.
    cbv beta. cbn [fst snd].
    destruct (Repo.findOne _ (refreshTokenRepository _)) as [t|] eqn:Efound.
    + apply find_some in Efound. destruct Efound as [Hin_t _].
      apply Hin in Hin_t. destruct Hin_t as [_ Hlive].
      unfold bind, queryUsers, ret. cbn [fst snd].
      unfold AuthService.rotateTokenEntity.
      assert (Hfresh : (RefreshToken.expiresAt t <? now') = false)
        by (apply Z.ltb_ge; lia).
      rewrite Hfresh.
      unfold bind, execRefreshTokens, throw. cbn [fst snd].
      destruct (option_map _ _) as [u|]; [|discriminate].
      unfold AuthService.generateTokens, bind, execRefreshTokens, ret.
      cbn [fst snd]. discriminate.
    + unfold ret, AuthService.rotateTokenEntity, throw. cbn [fst snd].
      discriminate.
Qed.

(** ** The six-digit code *)

Lemma of_uint_acc_bounds (d : Decimal.uint) (acc : positive) :
  Z.pos acc * 10 ^ Z.of_nat (Decimal.nb_digits d)
  <= Z.pos (Pos.of_uint_acc d acc)
  < (Z.pos acc + 1) * 10 ^ Z.of_nat (Decimal.nb_digits d).
Proof.
  revert acc.
  induction d as [|d IH|d IH|d IH|d IH|d IH|d IH|d IH|d IH|d IH|d IH]; intros acc;
    [simpl; lia|..];
    cbn [Pos.of_uint_acc Decimal.nb_digits];
    rewrite Nat2Z.inj_succ, Z.pow_succ_r by lia;
    match goal with |- context [Pos.of_uint_acc d ?a] => specialize (IH a) end;
    assert (0 < 10 ^ Z.of_nat (Decimal.nb_digits d)) by (apply Z.pow_pos_nonneg; lia);
    nia.
Qed.

(** A positive number of [n] decimal digits lies between [10^(n-1)] and
    [10^n]. *)
Lemma to_uint_bounds (p : positive) :
  10 ^ (Z.of_nat (Decimal.nb_digits (Pos.to_uint p)) - 1)
  <= Z.pos p
  < 10 ^ Z.of_nat (Decimal.nb_digits (Pos.to_uint p)).
Proof.
  pose proof (DecimalPos.Unsigned.of_to p) as Hof.
  pose proof (DecimalPos.Unsigned.to_of (Pos.to_uint p)) as Hto.
  rewrite Hof in Hto. cbn [N.to_uint] in Hto.
  pose proof (DecimalPos.Unsigned.to_uint_nonzero p) as Hnz.
  destruct (Pos.to_uint p) as [|d|d|d|d|d|d|d|d|d|d] eqn:E;
    [discriminate Hof| |..].
  1: { exfalso. unfold Decimal.unorm in Hto. cbn [Decimal.nzhead] in Hto.
       pose proof (DecimalFacts.nb_digits_nzhead d) as Hle.
       destruct (Decimal.nzhead d) eqn:En;
         try (rewrite <- Hto in Hle; cbn [Decimal.nb_digits] in Hle; lia).
       apply Hnz. exact Hto. }
  all: cbn [Pos.of_uint] in Hof; injection Hof as <-;
    cbn [Decimal.nb_digits]; rewrite Nat2Z.inj_succ;
    match goal with
    | |- context [Pos.of_uint_acc ?u ?a] =>
        replace (Z.succ (Z.of_nat (Decimal.nb_digits u)) - 1)
          with (Z.of_nat (Decimal.nb_digits u)) by lia;
        rewrite Z.pow_succ_r by lia;
        assert (0 < 10 ^ Z.of_nat (Decimal.nb_digits u))
          by (apply Z.pow_pos_nonneg; lia);
        pose proof (of_uint_acc_bounds u a)
    end;
    lia.
Qed.

Lemma string_of_uint_length (d : Decimal.uint) :
  String.length (NilEmpty.string_of_uint d) = Decimal.nb_digits d.
Proof.
  induction d; simpl; congruence.
Qed.

Lemma string_of_uint_digits (d : Decimal.uint) (c : ascii) :
  In c (list_ascii_of_string (NilEmpty.string_of_uint d)) ->
  In c (list_ascii_of_string "0123456789").
Proof.
  induction d as [|d IH|d IH|d IH|d IH|d IH|d IH|d IH|d IH|d IH|d IH]; intros H;
    cbn [NilEmpty.string_of_uint list_ascii_of_string In] in H;
    [destruct H | ..];
    (destruct H as [<- | H]; [cbn; tauto | exact (IH H)]).
Qed.

Lemma string_of_Z_positive (p : positive) :
  string_of_Z (Z.pos p) = NilEmpty.string_of_uint (Pos.to_uint p).
Proof.
  unfold string_of_Z. cbn [Z.to_int NilZero.string_of_int].
  pose proof (DecimalPos.Unsigned.to_uint_nonnil p) as Hnn.
  now destruct (Pos.to_uint p).
Qed.

(** A number of six digits prints as six decimal digits. *)
Lemma string_of_Z_six_digits (n : Z) :
  100000 <= n <= 999999 ->
  String.length (string_of_Z n) = 6%nat
  /\ forall c, In c (list_ascii_of_string (string_of_Z n)) ->
               In c (list_ascii_of_string "0123456789").
Proof.
  intros Hn.
  destruct n as [|p|p]; try lia.
  rewrite string_of_Z_positive, string_of_uint_length.
  split; [|intros c; apply string_of_uint_digits].
  pose proof (to_uint_bounds p) as Hb.
  destruct (Nat.lt_trichotomy (Decimal.nb_digits (Pos.to_uint p)) 6)
    as [Hlt | [Heq | Hgt]]; [exfalso|exact Heq|exfalso].
  - assert (10 ^ Z.of_nat (Decimal.nb_digits (Pos.to_uint p)) <= 10 ^ 5)
      by (apply Z.pow_le_mono_r; lia).
    lia.
  - assert (10 ^ 6 <= 10 ^ (Z.of_nat (Decimal.nb_digits (Pos.to_uint p)) - 1))
      by (apply Z.pow_le_mono_r; lia).
    lia.
Qed.

(** ** Witnesses of the conditional statements above *)

Lemma answers_carry_no_password_witness :
  User.password
    (user (mkAuthResult (User.withoutPassword (Fixture.alice true))
             (jwtSign (JWT_SECRET Fixture.config) (mkJwtPayload 1 "a@x.com" true) 5000
                (JWT_ACCESS_EXPIRES_IN Fixture.config))
             "s1"))
  = None.
Proof.
  apply (proj1 (answers_carry_no_password Fixture.bcrypt_compare Fixture.sha256
                  Fixture.config Fixture.LocalTZA (Fixture.withUsers [Fixture.alice true]))
           "a@x.com" "Password1" None None 5000 "s1").
  reflexivity.
Defined.

Lemma create_then_find_witness :
  UsersService.create Fixture.bcrypt_hash "a@x.com" "Password2" None 2000
    (Fixture.withUsers [Fixture.alice false])
  = (Rejected (ConflictException "User with this email already exists"),
     Fixture.withUsers [Fixture.alice false]).
Proof.
  apply (proj1 (create_then_find Fixture.bcrypt_hash "a@x.com" "Password2" None 2000
                  (Fixture.withUsers [Fixture.alice false]) "x" None 0)
           (Fixture.alice false)).
  reflexivity.
Defined.

Lemma register_outcome_witness :
  AuthService.register Fixture.bcrypt_hash Fixture.config "a@x.com" "Password2" None
    2000 2000 2000 2000 2000
    (Fixture.randomFor 123456) true (Fixture.withUsers [Fixture.alice false])
  = (Rejected (ConflictException "User with this email already exists"),
     Fixture.withUsers [Fixture.alice false]).
Proof.
  apply (proj1 (register_outcome Fixture.bcrypt_hash Fixture.config
                  "a@x.com" "Password2" None 2000 2000 2000 2000 2000
    (Fixture.randomFor 123456) true
                  (Fixture.withUsers [Fixture.alice false]))
           (Fixture.alice false)).
  reflexivity.
Defined.
